(** * Memory Atlas backend: a shallow embedding of [backend/main.py]

  The service keeps photographs in a directory tree
  [BASE_PATH/<year>/<country>/<city>/<file>] and exposes folder creation,
  listing, moving, sorting by date and pin enumeration over HTTP.

  Modelling choices, fixed here once:
  - a file system is a tree of regular files and directories plus the
    working directory of the process; a directory is an association list,
    its order being the (arbitrary) order in which the operating system
    enumerates it;
  - there are no symbolic links, permissions, quotas or other processes;
  - file names are byte strings; the only decimal digits are the ASCII
    ones, so the statements about numeric names are made for names
    written in ASCII;
  - a modification time is an integer number of clock ticks (only its
    order is ever observed);
  - Python exceptions are values of [exn]; a computation is a function
    from the file system to an outcome and the new file system;
  - [while] loops carry an iteration budget, and running out of it is an
    outcome of its own ([OutOfFuel]) that no [except] clause catches.

  The upload route reads two things from outside, the names it draws
  and the clock: they are parameters of its model, and of the bytes of
  an upload only the number is kept.  The static mount made when the
  module is loaded is left out.

  Layout: the Python and operating-system layers ([PyStr], [Pathlib],
  [FileSystem], [Py], [Lib]), the program ([Main]), what its operations
  compute told over directory contents ([Spec]), then the proofs. *)

From Stdlib Require Import List String Ascii ZArith Lia Bool Arith.
From Stdlib Require Import Permutation Sorted.
From Stdlib Require Import Decimal DecimalString DecimalNat DecimalZ.
Import ListNotations.
Open Scope string_scope.
Open Scope list_scope.


(* ================================================================== *)
(** * Python strings *)

Module PyStr.

(** [str(n)] for a natural number and for an integer. *)
Definition str_nat (n : nat) : string :=
  NilEmpty.string_of_uint (Nat.to_uint n).

Definition str_int (z : Z) : string :=
  NilZero.string_of_int (Z.to_int z).

Fixpoint zeros (k : nat) : string :=
  match k with
  | O => ""
  | S k' => String "0" (zeros k')
  end.

(** [f"{n:03d}"]: decimal, padded with zeros on the left to a width of
    at least three. *)
Definition fmt_03d (n : nat) : string :=
  let s := str_nat n in zeros (3 - String.length s) ++ s.

(** [s.startswith(pre)] *)
Definition startswith (s pre : string) : bool := String.prefix pre s.

Fixpoint all_chars (f : ascii -> bool) (s : string) : bool :=
  match s with
  | EmptyString => true
  | String c s' => f c && all_chars f s'
  end.

Fixpoint map_chars (f : ascii -> ascii) (s : string) : string :=
  match s with
  | EmptyString => EmptyString
  | String c s' => String (f c) (map_chars f s')
  end.

Definition is_digit (c : ascii) : bool :=
  let n := nat_of_ascii c in ((48 <=? n) && (n <=? 57))%nat.




(** [int(s)] for a string of decimal digits.  The signs, blanks and
    underscores [int] also accepts are left out: the one call site
    sits behind [isdigit]. *)
Definition int_of_str (s : string) : option Z :=
  option_map Z.of_uint (NilEmpty.uint_of_string s).

Definition lower_char (c : ascii) : ascii :=
  let n := nat_of_ascii c in
  if ((65 <=? n) && (n <=? 90))%nat then ascii_of_nat (n + 32) else c.

(** [s.lower()] *)
Definition lower (s : string) : string := map_chars lower_char s.


(** [s.rfind(c)], [None] standing for -1. *)
Fixpoint rfind (c : ascii) (s : string) : option nat :=
  match s with
  | EmptyString => None
  | String a s' =>
      match rfind c s' with
      | Some i => Some (S i)
      | None => if Ascii.eqb a c then Some 0 else None
      end
  end.

(** [s.split(c)] for a one-character separator. *)
Fixpoint split_on (c : ascii) (s : string) : list string :=
  match s with
  | EmptyString => [""]
  | String a s' =>
      if Ascii.eqb a c then "" :: split_on c s'
      else match split_on c s' with
           | [] => [String a ""]
           | h :: t => String a h :: t
           end
  end.

(** [sep.join(l)] *)
Fixpoint join (sep : string) (l : list string) : string :=
  match l with
  | [] => ""
  | [x] => x
  | x :: rest => x ++ sep ++ join sep rest
  end.

Definition mem (s : string) (l : list string) : bool :=
  existsb (String.eqb s) l.

End PyStr.

(* ================================================================== *)
(** * pathlib: pure paths *)

Module Pathlib.
Import PyStr.

(** A POSIX pure path: whether it is anchored at the root, and its
    components.  (A path written with exactly two leading slashes keeps
    them in pathlib; Linux resolves it as the root, and so do we.) *)
Record Path : Type := mkPath { is_absolute : bool; parts : list string }.

Definition keep_part (c : string) : bool :=
  negb (c =? "") && negb (c =? ".").

Definition parts_of_str (s : string) : list string :=
  filter keep_part (split_on "/" s).

(** [Path(s)] *)
Definition Path_of (s : string) : Path :=
  mkPath (startswith s "/") (parts_of_str s).

(** [p / s]: an absolute right operand replaces the left one. *)
Definition truediv (p : Path) (s : string) : Path :=
  if startswith s "/" then Path_of s
  else mkPath (is_absolute p) (parts p ++ parts_of_str s).

(** The path of a directory entry, as [iterdir] builds it: the entry
    name is appended unparsed. *)
Definition child (p : Path) (entry : string) : Path :=
  mkPath (is_absolute p) (parts p ++ [entry]).

(** [p.parent] *)
Definition parent (p : Path) : Path :=
  mkPath (is_absolute p) (removelast (parts p)).

(** [p.name] *)
Definition name (p : Path) : string := last (parts p) "".

(** The index of the dot that starts the suffix of a name, if any:
    the last dot, unless it is the first or the last character. *)
Definition suffix_index (nm : string) : option nat :=
  match rfind "." nm with
  | Some i =>
      if ((0 <? i) && (i <? String.length nm - 1))%nat then Some i else None
  | None => None
  end.

(** [p.suffix] and [p.stem], both read off [p.name]. *)
Definition name_suffix (nm : string) : string :=
  match suffix_index nm with
  | Some i => substring i (String.length nm - i) nm
  | None => ""
  end.

Definition name_stem (nm : string) : string :=
  match suffix_index nm with
  | Some i => substring 0 i nm
  | None => nm
  end.

Definition suffix (p : Path) : string := name_suffix (name p).

Definition stem (p : Path) : string := name_stem (name p).

(** [str(p)] *)
Definition str (p : Path) : string :=
  if is_absolute p then "/" ++ join "/" (parts p)
  else match parts p with
       | [] => "."
       | _ => join "/" (parts p)
       end.

Definition no_slash (a : ascii) : bool := negb (Ascii.eqb a "/").

Definition not_dot (a : ascii) : bool := negb (Ascii.eqb a ".").

Definition is_dot (a : ascii) : bool := Ascii.eqb a ".".

(** A name a directory entry can bear. *)
Definition plain (c : string) : bool :=
  negb (c =? "") && negb (c =? ".") && negb (c =? "..")
  && all_chars no_slash c.

(** A path as pathlib builds them: no component is empty, a lone dot, or
    holds a slash. *)
Definition normal_part (c : string) : bool :=
  keep_part c && all_chars no_slash c.

Definition normal (p : Path) : Prop :=
  Forall (fun c => normal_part c = true) (parts p).

End Pathlib.

(* ================================================================== *)
(** * The file system *)

Module FileSystem.
Import PyStr Pathlib.

(** A regular file carries what [stat] reports of it; a directory lists
    its entries in enumeration order. *)
#[warnings="-register-all"]
Inductive node : Type :=
| File (mtime : Z) (size : Z)
| Dir (entries : list (string * node)).

Definition entries : Type := list (string * node).

(** A location is the canonical position of an object: the names
    leading to it from the root, with no [..] among them. *)
Definition location : Type := list string.

Record FS : Type := mkFS { root : node; cwd : location }.

Definition is_dir_node (n : node) : bool :=
  match n with Dir _ => true | File _ _ => false end.

Definition is_file_node (n : node) : bool :=
  match n with File _ _ => true | Dir _ => false end.

Fixpoint assoc (k : string) (es : entries) : option node :=
  match es with
  | [] => None
  | (k', n) :: es' => if k =? k' then Some n else assoc k es'
  end.

Definition names (es : entries) : list string := map fst es.

Definition remove_entry (k : string) (es : entries) : entries :=
  filter (fun e => negb (fst e =? k)) es.

Definition add_entry (k : string) (n : node) (es : entries) : entries :=
  es ++ [(k, n)].

Fixpoint lookup (n : node) (loc : location) : option node :=
  match loc with
  | [] => Some n
  | c :: rest =>
      match n with
      | Dir es =>
          match assoc c es with
          | Some n' => lookup n' rest
          | None => None
          end
      | File _ _ => None
      end
  end.

(** Rewrite the entries of the directory at [loc]. *)
Fixpoint alter_dir (f : entries -> entries) (n : node) (loc : location)
  : node :=
  match loc with
  | [] =>
      match n with
      | Dir es => Dir (f es)
      | File _ _ => n
      end
  | c :: rest =>
      match n with
      | Dir es =>
          Dir (map (fun e => if fst e =? c
                             then (fst e, alter_dir f (snd e) rest)
                             else e) es)
      | File _ _ => n
      end
  end.

Definition detach (r : node) (loc : location) : node :=
  alter_dir (remove_entry (last loc "")) r (removelast loc).

Definition attach (r : node) (loc : location) (n : node) : node :=
  alter_dir (add_entry (last loc "") n) r (removelast loc).

Inductive errno : Type :=
| ENOENT | ENOTDIR | EEXIST | EISDIR | ENOTEMPTY | EINVAL | EBUSY.

Inductive os_res (A : Type) : Type :=
| Done (a : A)
| Fail (e : errno).
Arguments Done {A} a.
Arguments Fail {A} e.

(** Path resolution: components are followed one at a time from a
    starting directory; each step needs the directory reached so far to
    exist, and [..] steps back to its parent (the root being its own
    parent).  The last component itself need not exist. *)
Fixpoint walk (r : node) (stack : location) (ps : list string)
  : os_res location :=
  match ps with
  | [] => Done stack
  | c :: rest =>
      match lookup r stack with
      | Some (Dir _) =>
          walk r (if c =? ".." then removelast stack else stack ++ [c]) rest
      | Some (File _ _) => Fail ENOTDIR
      | None => Fail ENOENT
      end
  end.

Definition start (fs : FS) (p : Path) : location :=
  if is_absolute p then [] else cwd fs.

Definition resolve (fs : FS) (p : Path) : os_res location :=
  walk (root fs) (start fs p) (parts p).

(** [os.stat] *)
Definition os_stat (fs : FS) (p : Path) : os_res node :=
  match resolve fs p with
  | Done loc =>
      match lookup (root fs) loc with
      | Some n => Done n
      | None => Fail ENOENT
      end
  | Fail e => Fail e
  end.

(** [os.listdir] *)
Definition os_listdir (fs : FS) (p : Path) : os_res (list string) :=
  match os_stat fs p with
  | Done (Dir es) => Done (names es)
  | Done (File _ _) => Fail ENOTDIR
  | Fail e => Fail e
  end.

(** [os.mkdir] *)
Definition os_mkdir (fs : FS) (p : Path) : os_res FS :=
  match resolve fs p with
  | Done loc =>
      match lookup (root fs) loc with
      | Some _ => Fail EEXIST
      | None => Done (mkFS (attach (root fs) loc (Dir [])) (cwd fs))
      end
  | Fail e => Fail e
  end.

Fixpoint loc_eqb (a b : location) : bool :=
  match a, b with
  | [], [] => true
  | x :: a', y :: b' => (x =? y) && loc_eqb a' b'
  | _, _ => false
  end.

Fixpoint is_prefix (a b : location) : bool :=
  match a, b with
  | [], _ => true
  | x :: a', y :: b' => (x =? y) && is_prefix a' b'
  | _ :: _, [] => false
  end.

(** [os.rename]: the object at [src] takes the place named by [dst];
    an existing regular file or empty directory there is replaced by
    an object of the same kind. *)
Definition os_rename (fs : FS) (src dst : Path) : os_res FS :=
  match resolve fs src with
  | Fail e => Fail e
  | Done ls =>
      match lookup (root fs) ls with
      | None => Fail ENOENT
      | Some ns =>
          match resolve fs dst with
          | Fail e => Fail e
          | Done ld =>
              let moved r := mkFS (attach (detach r ls) ld ns) (cwd fs) in
              if loc_eqb ls ld then Done fs
              else match ls with
                   | [] => Fail EBUSY
                   | _ :: _ =>
                       match ns, lookup (root fs) ld with
                       | File _ _, None => Done (moved (root fs))
                       | Dir _, None =>
                           if is_prefix ls ld then Fail EINVAL
                           else Done (moved (root fs))
                       | File _ _, Some (File _ _) =>
                           Done (moved (detach (root fs) ld))
                       | File _ _, Some (Dir _) => Fail EISDIR
                       | Dir _, Some (File _ _) => Fail ENOTDIR
                       | Dir _, Some (Dir []) =>
                           if is_prefix ls ld then Fail EINVAL
                           else Done (moved (detach (root fs) ld))
                       | Dir _, Some (Dir (_ :: _)) => Fail ENOTEMPTY
                       end
                   end
          end
      end
  end.

(** [os.unlink] *)
Definition os_unlink (fs : FS) (p : Path) : os_res FS :=
  match resolve fs p with
  | Fail e => Fail e
  | Done loc =>
      match lookup (root fs) loc with
      | None => Fail ENOENT
      | Some (Dir _) => Fail EISDIR
      | Some (File _ _) => Done (mkFS (detach (root fs) loc) (cwd fs))
      end
  end.

(** Writing a regular file with given metadata at [p]
    (open for writing, copy the bytes, copy the times). *)
Definition os_write (fs : FS) (p : Path) (f : node) : os_res FS :=
  match resolve fs p with
  | Fail e => Fail e
  | Done loc =>
      match lookup (root fs) loc with
      | Some (Dir _) => Fail EISDIR
      | Some (File _ _) =>
          Done (mkFS (attach (detach (root fs) loc) loc f) (cwd fs))
      | None => Done (mkFS (attach (root fs) loc f) (cwd fs))
      end
  end.

(** Well-formed trees: the root is a directory, and every directory
    holds plain, pairwise distinct names. *)
Definition wf_entries (es : entries) : Prop :=
  NoDup (names es) /\ Forall (fun k => plain k = true) (names es).

Definition wf (fs : FS) : Prop :=
  is_dir_node (root fs) = true /\
  forall loc es, lookup (root fs) loc = Some (Dir es) -> wf_entries es.

End FileSystem.

(* ================================================================== *)
(** * Python: exceptions, computations, dynamic values *)

Module Py.
Import PyStr Pathlib FileSystem.

(** The exceptions the program can meet.  [OSError e] is the exception
    the interpreter builds from a failed system call; the literal
    [FileNotFoundError msg] is the one the program raises itself.  The
    [detail] of an [HTTPException] is kept symbolic when it embeds the
    text of another exception. *)
Inductive exn : Type :=
| OSError (e : errno)
| FileNotFoundError (msg : string)
| TypeError (msg : string)
| AttributeError (msg : string)
| ValueError (msg : string)
| ShutilError (msg : string)
| HTTPException (status_code : nat) (detail : http_detail)
with http_detail : Type :=
| Text (s : string)
| TextOf (prefix : string) (cause : exn).

(** [isinstance(e, FileNotFoundError)] *)
Definition is_FileNotFoundError (e : exn) : bool :=
  match e with
  | OSError ENOENT => true
  | FileNotFoundError _ => true
  | _ => false
  end.

(** [isinstance(e, Exception)]: every class above derives from
    [Exception], Starlette's [HTTPException] included. *)
Definition is_Exception (e : exn) : bool :=
  match e with
  | OSError _ | FileNotFoundError _ | TypeError _ | AttributeError _
  | ValueError _ | ShutilError _ | HTTPException _ _ => true
  end.

Inductive outcome (A : Type) : Type :=
| Ok (a : A)
| Raise (e : exn)
| OutOfFuel.
Arguments Ok {A} a.
Arguments Raise {A} e.
Arguments OutOfFuel {A}.

Definition M (A : Type) : Type := FS -> outcome A * FS.

Definition ret {A} (a : A) : M A := fun fs => (Ok a, fs).

Definition bind {A B} (c : M A) (k : A -> M B) : M B :=
  fun fs =>
    match c fs with
    | (Ok a, fs') => k a fs'
    | (Raise e, fs') => (Raise e, fs')
    | (OutOfFuel, fs') => (OutOfFuel, fs')
    end.

Definition raise {A} (e : exn) : M A := fun fs => (Raise e, fs).

Definition gets {A} (f : FS -> A) : M A := fun fs => (Ok (f fs), fs).

(** A system call that may change the file system. *)
Definition syscall (f : FS -> os_res FS) : M unit :=
  fun fs =>
    match f fs with
    | Done fs' => (Ok tt, fs')
    | Fail e => (Raise (OSError e), fs)
    end.

(** A system call that only reads. *)
Definition query {A} (f : FS -> os_res A) : M A :=
  fun fs =>
    match f fs with
    | Done a => (Ok a, fs)
    | Fail e => (Raise (OSError e), fs)
    end.

(** [try: c  except C1 as e: h1 e  except C2 as e: h2 e ...]: the first
    clause whose class test accepts the exception handles it; what a
    handler raises is not offered to the other clauses; an exception no
    clause accepts, and fuel exhaustion, pass through. *)
Definition clause (A : Type) : Type := ((exn -> bool) * (exn -> M A))%type.

Fixpoint dispatch {A} (cs : list (clause A)) (e : exn) : M A :=
  match cs with
  | [] => fun fs => (Raise e, fs)
  | (sel, h) :: cs' => if sel e then h e else dispatch cs' e
  end.

Definition try_ {A} (c : M A) (cs : list (clause A)) : M A :=
  fun fs =>
    match c fs with
    | (Raise e, fs') => dispatch cs e fs'
    | r => r
    end.

Definition try_except {A} (c : M A) (sel : exn -> bool) (h : exn -> M A)
  : M A :=
  try_ c [(sel, h)].

Declare Scope py_scope.
Delimit Scope py_scope with py.
Notation "x <- c ;; k" := (bind c (fun x => k))
  (at level 61, c at next level, right associativity) : py_scope.
Notation "c ;;; k" := (bind c (fun _ => k))
  (at level 61, right associativity) : py_scope.
Open Scope py_scope.

(** [for x in l: body x] *)
Fixpoint for_each {A} (l : list A) (body : A -> M unit) : M unit :=
  match l with
  | [] => ret tt
  | x :: l' => body x ;;; for_each l' body
  end.

(** [for x in l: acc = body x acc] *)
Fixpoint for_acc {A B} (l : list A) (acc : B) (body : A -> B -> M B)
  : M B :=
  match l with
  | [] => ret acc
  | x :: l' => acc' <- body x acc ;; for_acc l' acc' body
  end.

(** [[f x for x in l]] with an effectful [f] *)
Fixpoint map_M {A B} (f : A -> M B) (l : list A) : M (list B) :=
  match l with
  | [] => ret []
  | x :: l' => y <- f x ;; ys <- map_M f l' ;; ret (y :: ys)
  end.

(** [while cond s: s = body s], at most [fuel] evaluations of the
    condition. *)
Fixpoint while {S} (fuel : nat) (cond : S -> M bool) (body : S -> M S)
    (s : S) : M S :=
  match fuel with
  | O => fun fs => (OutOfFuel, fs)
  | Datatypes.S fuel' =>
      b <- cond s ;;
      if b then s' <- body s ;; while fuel' cond body s' else ret s
  end.

(** [enumerate(l)] *)
Definition enumerate {A} (l : list A) : list (nat * A) :=
  combine (seq 0 (List.length l)) l.

(** Stable sort on an integer key, as [list.sort(key=...)]: an element
    is placed before the first one whose key is not smaller, and the
    elements are inserted from the last to the first. *)
Fixpoint insert_by {A} (key : A -> Z) (x : A) (l : list A) : list A :=
  match l with
  | [] => [x]
  | y :: l' =>
      if (key y <? key x)%Z then y :: insert_by key x l'
      else x :: y :: l'
  end.

Definition sort_by {A} (key : A -> Z) (l : list A) : list A :=
  fold_right (insert_by key) [] l.

(** The order a sort on [key] aims at, and its strict part. *)
Definition key_le {A} (key : A -> Z) (a b : A) : Prop :=
  (key a <= key b)%Z.


End Py.

(* ================================================================== *)
(** * The library calls the program makes: pathlib, os, shutil *)

Module Lib.
Import PyStr Pathlib FileSystem Py.

Definition is_OSError (e : exn) : bool :=
  match e with
  | OSError _ | FileNotFoundError _ => true
  | _ => false
  end.

Definition is_FileExistsError (e : exn) : bool :=
  match e with
  | OSError EEXIST => true
  | _ => false
  end.

(** [p.exists()], [p.is_dir()], [p.is_file()]: a failed [stat] reads as
    [False]. *)
Definition Path_exists (fs : FS) (p : Path) : bool :=
  match os_stat fs p with
  | Done _ => true
  | Fail _ => false
  end.

Definition Path_is_dir (fs : FS) (p : Path) : bool :=
  match os_stat fs p with
  | Done n => is_dir_node n
  | Fail _ => false
  end.

Definition Path_is_file (fs : FS) (p : Path) : bool :=
  match os_stat fs p with
  | Done n => is_file_node n
  | Fail _ => false
  end.

(** [p.iterdir()], consumed at once by every caller. *)
Definition Path_iterdir (p : Path) : M (list Path) :=
  ns <- query (fun fs => os_listdir fs p) ;;
  ret (map (child p) ns).

(** What a [stat] result holds.  The times and sizes of directories are
    not part of the model; the program reads those of regular files
    only. *)
Definition st_mtime (n : node) : Z :=
  match n with File m _ => m | Dir _ => 0%Z end.

Definition st_size (n : node) : Z :=
  match n with File _ sz => sz | Dir _ => 0%Z end.

Definition Path_stat (p : Path) : M node :=
  query (fun fs => os_stat fs p).

(** [os.path.getmtime] *)
Definition getmtime (p : Path) : M Z :=
  n <- Path_stat p ;; ret (st_mtime n).

(** [Path.mkdir(parents, exist_ok)], after its source: try the system
    call; when a parent is missing and [parents] is set, make the parent
    first and try again; any other failure is forgiven when [exist_ok]
    is set and the path is a directory. *)
Fixpoint mkdir_rec (fuel : nat) (parents exist_ok : bool) (p : Path)
  : M unit :=
  fun fs =>
    match os_mkdir fs p with
    | Done fs' => (Ok tt, fs')
    | Fail ENOENT =>
        match parents, parts p, fuel with
        | false, _, _ => (Raise (OSError ENOENT), fs)
        | true, [], _ => (Raise (OSError ENOENT), fs)
        | true, _ :: _, O => (OutOfFuel, fs)
        | true, _ :: _, S fuel' =>
            (mkdir_rec fuel' true true (parent p) ;;;
             mkdir_rec fuel' false exist_ok p) fs
        end
    | Fail e =>
        if negb exist_ok || negb (Path_is_dir fs p)
        then (Raise (OSError e), fs)
        else (Ok tt, fs)
    end.

Definition Path_mkdir (parents exist_ok : bool) (p : Path) : M unit :=
  mkdir_rec (List.length (parts p)) parents exist_ok p.

(** [os.makedirs(p, exist_ok)] *)
Fixpoint makedirs_rec (fuel : nat) (exist_ok : bool) (p : Path) : M unit :=
  (match parts p with
   | [] => ret tt
   | _ :: _ =>
       let head := parent p in
       match is_absolute head, parts head with
       | false, [] => ret tt
       | _, _ =>
           ex <- gets (fun fs => Path_exists fs head) ;;
           if ex then ret tt
           else match fuel with
                | O => fun fs => (OutOfFuel, fs)
                | S fuel' =>
                    try_except (makedirs_rec fuel' exist_ok head)
                      is_FileExistsError (fun _ => ret tt)
                end
       end
   end) ;;;
  try_except (syscall (fun fs => os_mkdir fs p)) is_OSError
    (fun e =>
       isd <- gets (fun fs => Path_is_dir fs p) ;;
       if negb exist_ok || negb isd then raise e else ret tt).

Definition makedirs (exist_ok : bool) (p : Path) : M unit :=
  makedirs_rec (List.length (parts p)) exist_ok p.

(** [os.path.abspath]: anchored at the working directory, [..] folded
    away textually. *)
Definition abspath (fs : FS) (p : Path) : location :=
  fold_left (fun st c => if c =? ".." then removelast st else st ++ [c])
    (parts p) (start fs p).

Definition samefile (fs : FS) (a b : Path) : bool :=
  match resolve fs a, resolve fs b with
  | Done la, Done lb =>
      match lookup (root fs) la, lookup (root fs) lb with
      | Some _, Some _ => loc_eqb la lb
      | _, _ => false
      end
  | _, _ => false
  end.

Definition destinsrc (fs : FS) (src dst : Path) : bool :=
  is_prefix (abspath fs src) (abspath fs dst).

(** [shutil.copy2] of a regular file, and [shutil.copytree] followed by
    [shutil.rmtree] of a directory: contents, sizes and times are
    carried over. *)
Definition copy2 (src dst : Path) : M unit :=
  n <- Path_stat src ;;
  match n with
  | File _ _ => syscall (fun fs => os_write fs dst n)
  | Dir _ => raise (OSError EISDIR)
  end.

Definition graft (dst : Path) (es : entries) : M unit :=
  syscall (fun fs =>
    match resolve fs dst with
    | Done loc => Done (mkFS (alter_dir (fun _ => es) (root fs) loc) (cwd fs))
    | Fail e => Fail e
    end).

Definition prune (src : Path) : M unit :=
  syscall (fun fs =>
    match resolve fs src with
    | Done loc => Done (mkFS (detach (root fs) loc) (cwd fs))
    | Fail e => Fail e
    end).

Definition copytree_rmtree (src dst : Path) : M unit :=
  n <- Path_stat src ;;
  match n with
  | Dir es => makedirs false dst ;;; graft dst es ;;; prune src
  | File _ _ => raise (OSError ENOTDIR)
  end.

(** [shutil.move(src, dst)] *)
Definition move_into (src dst real_dst : Path) : M unit :=
  try_except (syscall (fun fs => os_rename fs src real_dst)) is_OSError
    (fun _ =>
       src_is_dir <- gets (fun fs => Path_is_dir fs src) ;;
       if src_is_dir then
         inside <- gets (fun fs => destinsrc fs src dst) ;;
         if inside
         then raise (ShutilError
                ("Cannot move a directory '" ++ str src
                 ++ "' into itself '" ++ str dst ++ "'."))
         else copytree_rmtree src real_dst
       else copy2 src real_dst ;;; syscall (fun fs => os_unlink fs src)).

Definition shutil_move (src dst : string) : M unit :=
  let psrc := Path_of src in
  let pdst := Path_of dst in
  dst_is_dir <- gets (fun fs => Path_is_dir fs pdst) ;;
  if dst_is_dir then
    same <- gets (fun fs => samefile fs psrc pdst) ;;
    if same then syscall (fun fs => os_rename fs psrc pdst)
    else
      let real_dst := truediv pdst (name psrc) in
      taken <- gets (fun fs => Path_exists fs real_dst) ;;
      if taken
      then raise (ShutilError
             ("Destination path '" ++ str real_dst ++ "' already exists"))
      else move_into psrc pdst real_dst
  else move_into psrc pdst pdst.

(** [with open(p, "wb") as buffer: shutil.copyfileobj(data, buffer)]:
    the file is created, or emptied if it is there, and receives [size]
    bytes at time [now]. *)
Definition write_file (p : Path) (now size : Z) : M unit :=
  syscall (fun fs => os_write fs p (File now size)).

End Lib.

(* ================================================================== *)
(** * backend/main.py *)

Module Main.
Import PyStr Pathlib FileSystem Py Lib.

Definition BASE_PATH : Path := Path_of "/content".

(** ** Request and response models *)

Record FolderRequest : Type :=
  mkFolderRequest { fr_country : string; fr_city : string; fr_year : Z }.

Record MoveImageRequest : Type :=
  mkMoveImageRequest {
    imageId : string;
    mv_country : string;
    mv_city : string;
    mv_year : Z;
    sourceFolder : string }.

(** [created_at] is the ISO rendering, in local time, of a modification
    time; it is kept as that time. *)
Inductive iso_time : Type := isoformat (mtime : Z).

Record ImageResponse : Type :=
  mkImage {
    img_id : string;
    img_name : string;
    img_url : string;
    img_year : Z;
    img_location : string;
    img_file_size : Z;
    img_created_at : iso_time }.

Record FolderResponse : Type :=
  mkFolderResponse {
    fo_success : bool; fo_folder_path : string; fo_message : string }.


Record Message : Type := mkMessage { success : bool; message : string }.

Inductive FileResponse : Type := mkFileResponse (path : string).

(** The status FastAPI answers with: 200 for a returned value, the
    status of a raised [HTTPException], 500 for any other exception. *)
Definition http_status {A} (o : outcome A) : option nat :=
  match o with
  | Ok _ => Some 200
  | Raise (HTTPException st _) => Some st
  | Raise _ => Some 500
  | OutOfFuel => None
  end.

(** ** Positional calls and dynamically typed values *)

Inductive pyval : Type :=
| VStr (s : string)
| VInt (z : Z)
| VPath (p : Path).

Definition type_name (v : pyval) : string :=
  match v with
  | VStr _ => "str"
  | VInt _ => "int"
  | VPath _ => "PosixPath"
  end.

Definition no_attribute {A} (v : pyval) (attr : string) : M A :=
  raise (AttributeError
           ("'" ++ type_name v ++ "' object has no attribute '" ++ attr ++ "'")).

Definition quote_names (l : list string) : string :=
  match List.rev l with
  | [] => ""
  | [x] => "'" ++ x ++ "'"
  | [y; x] => "'" ++ x ++ "' and '" ++ y ++ "'"
  | y :: front =>
      join ", " (map (fun x => ("'" ++ x ++ "'")%string) (List.rev front))
      ++ ", and '" ++ y ++ "'"
  end.

Definition plural (n : nat) : string :=
  match n with 1 => "" | _ => "s" end.

(** The [TypeError] of a call whose positional arguments do not match
    the parameters of a function without defaults. *)
Definition arity_error (fname : string) (params : list string)
    (given : nat) : exn :=
  let n := List.length params in
  if (n <? given)%nat then
    TypeError (fname ++ "() takes " ++ str_nat n ++ " positional argument"
               ++ plural n ++ " but " ++ str_nat given
               ++ (match given with 1 => " was" | _ => " were" end)
               ++ " given")
  else
    TypeError (fname ++ "() missing " ++ str_nat (n - given)
               ++ " required positional argument" ++ plural (n - given)
               ++ ": " ++ quote_names (skipn given params)).

(** A call of a three-parameter function with positional arguments. *)
Definition call3 {A} (fname : string) (params : list string)
    (f : pyval -> pyval -> pyval -> M A) (args : list pyval) : M A :=
  match args with
  | [a; b; c] => f a b c
  | _ => raise (arity_error fname params (List.length args))
  end.

(** [Path(v)] *)
Definition py_Path (v : pyval) : M Path :=
  match v with
  | VStr s => ret (Path_of s)
  | VPath p => ret p
  | VInt _ =>
      raise (TypeError "expected str, bytes or os.PathLike object, not int")
  end.

(** [p / v] for a path [p] *)
Definition path_truediv (p : Path) (v : pyval) : M Path :=
  match v with
  | VStr s => ret (truediv p s)
  | VPath q => ret (truediv p (str q))
  | VInt _ =>
      raise (TypeError
               "unsupported operand type(s) for /: 'PosixPath' and 'int'")
  end.

(** [str(v)] as an f-string renders it *)
Definition py_str (v : pyval) : string :=
  match v with
  | VStr s => s
  | VInt z => str_int z
  | VPath p => str p
  end.


(** [BASE_PATH / str(year) / country / city] *)
Definition location_folder (year : Z) (country city : string) : Path :=
  truediv (truediv (truediv BASE_PATH (str_int year)) country) city.

(** ** Utility functions *)

Definition makeFolder (country city : string) (year : Z) : M Path :=
  let folder_path := location_folder year country city in
  Path_mkdir true true folder_path ;;;
  ret folder_path.

(** The name tried first for the file at 0-based position [i], and the
    name tried when the counter stands at [counter]. *)
Definition sort_prefix (i : nat) : string := fmt_03d (i + 1) ++ "_".

Definition sort_name (i : nat) (old_name : string) : string :=
  fmt_03d (i + 1) ++ "_" ++ old_name.

Definition sort_name_n (i counter : nat) (old_name : string) : string :=
  fmt_03d (i + 1) ++ "_" ++ str_nat counter ++ "_" ++ old_name.

(** The body of the loop of [sortDate], for one [(i, old_file_path)] of
    the enumeration. *)
Definition sortDate_body (fuel : nat) (path : Path) (item : nat * Path)
  : M unit :=
  let '(i, old_file_path) := item in
  if negb (startswith (name old_file_path) (sort_prefix i)) then
    let new_file_name := sort_name i (name old_file_path) in
    let new_file_path := truediv path new_file_name in
    st <- while fuel
            (fun '(new_file_path, _) =>
               gets (fun fs => Path_exists fs new_file_path))
            (fun '(_, counter) =>
               let new_file_name :=
                 sort_name_n i counter (name old_file_path) in
               ret (truediv path new_file_name, counter + 1))
            (new_file_path, 1) ;;
    syscall (fun fs => os_rename fs old_file_path (fst st))
  else ret tt.

Definition sortDate (fuel : nat) (path : string) : M unit :=
  let path := Path_of path in
  ex <- gets (fun fs => Path_exists fs path) ;;
  if negb ex
  then raise (FileNotFoundError
                ("Directory " ++ str path ++ " does not exist"))
  else
    children <- Path_iterdir path ;;
    files <- gets (fun fs => filter (Path_is_file fs) children) ;;
    keyed <- map_M (fun f => k <- getmtime f ;; ret (k, f)) files ;;
    let files := map snd (sort_by fst keyed) in
    for_each (enumerate files) (sortDate_body fuel path).

(** The name tried for a moved image when the counter stands at
    [counter]. *)
Definition move_name (ip : Path) (counter : nat) : string :=
  stem ip ++ "_" ++ str_nat counter ++ suffix ip.

(** [destination_folder] is annotated [str] but used as a path: its
    first use is the attribute lookup [.exists], which only a path
    object answers. *)
Definition moveFolder (fuel : nat)
    (imageId destination_folder sourceFolder : pyval) : M unit :=
  sp <- py_Path sourceFolder ;;
  source_path <- path_truediv sp imageId ;;
  match destination_folder with
  | VPath dest =>
      ex <- gets (fun fs => Path_exists fs dest) ;;
      (if negb ex then Path_mkdir true true dest else ret tt) ;;;
      destination_path <- path_truediv dest imageId ;;
      st <- while fuel
              (fun '(destination_path, _) =>
                 gets (fun fs => Path_exists fs destination_path))
              (fun '(_, counter) =>
                 ip <- py_Path imageId ;;
                 let new_name := move_name ip counter in
                 ret (truediv dest new_name, counter + 1))
              (destination_path, 1) ;;
      src_ok <- gets (fun fs => Path_exists fs source_path) ;;
      if negb src_ok
      then raise (FileNotFoundError
                    ("Source file '" ++ py_str imageId ++ "' not found in '"
                     ++ py_str sourceFolder ++ "'"))
      else shutil_move (str source_path) (str (fst st))
  | v => no_attribute v "exists"
  end.

Definition moveFolder_params : list string :=
  ["imageId"; "destination_folder"; "sourceFolder"].

Definition image_suffixes : list string :=
  [".jpg"; ".jpeg"; ".png"; ".gif"; ".bmp"; ".webp"].

Definition is_image (file_path : Path) : bool :=
  mem (lower (suffix file_path)) image_suffixes.

(** The same test, on the name of a file. *)
Definition is_image_name (file_name : string) : bool :=
  mem (lower (name_suffix file_name)) image_suffixes.

Definition image_url (year : Z) (country city file_name : string) : string :=
  "/api/serve-image/" ++ str_int year ++ "/" ++ country ++ "/" ++ city
  ++ "/" ++ file_name.

Definition viewFolder (country city : string) (year : Z)
  : M (list ImageResponse) :=
  let folder_path := location_folder year country city in
  ok <- gets (fun fs =>
                Path_exists fs folder_path && Path_is_dir fs folder_path) ;;
  if ok then
    children <- Path_iterdir folder_path ;;
    for_acc children [] (fun file_path image_list =>
      isf <- gets (fun fs => Path_is_file fs file_path) ;;
      if isf && is_image file_path then
        stats <- Path_stat file_path ;;
        ret (image_list ++
               [mkImage (name file_path) (name file_path)
                  (image_url year country city (name file_path))
                  year city (st_size stats) (isoformat (st_mtime stats))])
      else ret image_list)
  else ret [].

(** ** Route handlers *)

Definition location_text (year : Z) (country city : string) : string :=
  city ++ ", " ++ country ++ " (" ++ str_int year ++ ")".

Definition failed {A} (what : string) : clause A :=
  (is_Exception, fun e => raise (HTTPException 500 (TextOf what e))).

Definition create_folder (request : FolderRequest) : M FolderResponse :=
  try_
    (folder_path <- makeFolder (fr_country request) (fr_city request)
                      (fr_year request) ;;
     ret (mkFolderResponse true (str folder_path)
            ("Folder created successfully for " ++ fr_city request ++ ", "
             ++ fr_country request ++ " (" ++ str_int (fr_year request)
             ++ ")")))
    [failed "Failed to create folder: "].

Definition get_images (year : Z) (country city : string)
  : M (list ImageResponse) :=
  try_
    (images <- viewFolder country city year ;;
     ret images)
    [failed "Failed to retrieve images: "].

Definition move_image (fuel : nat) (request : MoveImageRequest) : M Message :=
  try_
    (call3 "moveFolder" moveFolder_params (moveFolder fuel)
       [VStr (imageId request); VStr (mv_country request);
        VStr (mv_city request); VInt (mv_year request);
        VStr (sourceFolder request)] ;;;
     ret (mkMessage true
            ("Successfully moved " ++ imageId request ++ " to "
             ++ location_text (mv_year request) (mv_country request)
                  (mv_city request))))
    [(is_FileNotFoundError,
      fun e => raise (HTTPException 404 (TextOf "" e)));
     failed "Failed to move image: "].

Definition sort_folder_by_date (fuel : nat) (request : FolderRequest)
  : M Message :=
  try_
    (let folder_path :=
       location_folder (fr_year request) (fr_country request)
         (fr_city request) in
     ex <- gets (fun fs => Path_exists fs folder_path) ;;
     (if negb ex
      then raise (HTTPException 404 (Text "Folder not found"))
      else ret tt) ;;;
     sortDate fuel (str folder_path) ;;;
     ret (mkMessage true
            ("Successfully sorted images in "
             ++ location_text (fr_year request) (fr_country request)
                  (fr_city request))))
    [failed "Failed to sort folder: "].



Definition serve_image (year : Z) (country city filename : string)
  : M FileResponse :=
  try_
    (let file_path := truediv (location_folder year country city) filename in
     ex <- gets (fun fs => Path_exists fs file_path) ;;
     (if negb ex
      then raise (HTTPException 404 (Text "Image not found"))
      else ret tt) ;;;
     ret (mkFileResponse (str file_path)))
    [failed "Failed to serve image: "].

(** ** Uploading *)

(** An uploaded file: the name the client gave, and the number of bytes
    sent. *)
Record UploadFile : Type := mkUploadFile { uf_filename : string; uf_size : Z }.

(** One entry of [uploaded_files]. *)
Record SavedFile : Type :=
  mkSavedFile {
    original_name : string;
    saved_as : string;
    saved_path : string }.

Record UploadResponse : Type :=
  mkUploadResponse {
    up_success : bool;
    up_message : string;
    uploaded_files : list SavedFile }.

(** What a run of the upload route reads from outside: the text
    [uuid.uuid4().hex] gives at its i-th call, and the time of the i-th
    write. *)
Record Outside : Type :=
  mkOutside { uuid4_hex : nat -> string; write_time : nat -> Z }.

(** The body of the loop of [upload_images], for the [i]-th file. *)
Definition upload_body (env : Outside) (folder_path : Path)
  : nat * UploadFile -> list SavedFile -> M (list SavedFile) :=
  fun '(i, file) uploaded_files =>
    let file_extension := suffix (Path_of (uf_filename file)) in
    let unique_filename := (uuid4_hex env i ++ file_extension)%string in
    let file_path := truediv folder_path unique_filename in
    write_file file_path (write_time env i) (uf_size file) ;;;
    ret (uploaded_files ++
           [mkSavedFile (uf_filename file) unique_filename (str file_path)]).

Definition upload_images (env : Outside) (files : list UploadFile)
    (country city : string) (year : Z) : M UploadResponse :=
  try_
    (folder_path <- makeFolder country city year ;;
     uploaded_files <-
       for_acc (enumerate files) [] (upload_body env folder_path) ;;
     ret (mkUploadResponse true
            ("Successfully uploaded " ++ str_nat (List.length files)
             ++ " images to " ++ location_text year country city)
            uploaded_files))
    [failed "Failed to upload images: "].

End Main.

(* ================================================================== *)
(** * A decision procedure for well-formed trees *)

Module WfCheck.
Import PyStr Pathlib FileSystem.

Fixpoint nodupb (l : list string) : bool :=
  match l with
  | [] => true
  | x :: l' => negb (mem x l') && nodupb l'
  end.

Definition wf_entriesb (es : entries) : bool :=
  nodupb (names es) && forallb plain (names es).

Fixpoint wf_nodeb (n : node) : bool :=
  match n with
  | File _ _ => true
  | Dir es =>
      wf_entriesb es
      && (fix all (l : entries) : bool :=
            match l with
            | [] => true
            | e :: l' => wf_nodeb (snd e) && all l'
            end) es
  end.

Definition wfb (fs : FS) : bool :=
  is_dir_node (root fs) && wf_nodeb (root fs).

End WfCheck.

(* ================================================================== *)
(** * What the operations compute, told over directory contents *)

Module Spec.
Import PyStr Pathlib FileSystem Py Lib Main.

(** ** Comparing trees *)

(** What is seen of a node from its directory: a file with its times
    and size, or the mere fact that it is a directory. *)
Definition shallow (n : node) : node :=
  match n with
  | File m sz => File m sz
  | Dir _ => Dir []
  end.

Definition dirness (o : option node) : bool :=
  match o with
  | Some (Dir _) => true
  | _ => false
  end.

(** Two listings with the same subdirectories. *)
Definition same_dirs (es es' : entries) : Prop :=
  forall key,
    dirness (assoc key es) = dirness (assoc key es')
    /\ (dirness (assoc key es) = true -> assoc key es = assoc key es').

Definition all_plain (ps : list string) : Prop :=
  Forall (fun c => plain c = true) ps.

(** No regular file stands at the path or at one of its ancestors. *)
Definition no_file_on (r : node) (ps : location) : Prop :=
  forall k m sz, lookup r (firstn k ps) <> Some (File m sz).


(** ** Listing *)

Definition regular (e : string * node) : bool := is_file_node (snd e).

(** An entry that listing shows: a regular file with an image suffix. *)
Definition listed (e : string * node) : bool :=
  regular e && is_image_name (fst e).

Definition image_of (year : Z) (country city : string) (e : string * node)
  : ImageResponse :=
  mkImage (fst e) (fst e) (image_url year country city (fst e)) year city
    (st_size (snd e)) (isoformat (st_mtime (snd e))).

Definition images_of (year : Z) (country city : string) (es : entries)
  : list ImageResponse :=
  map (image_of year country city) (filter listed es).

(** ** Pins *)








(** ** Moving *)

(** The entry [k] leaves under the name [k']. *)
Definition move_entry (k k' : string) (es : entries) : entries :=
  match assoc k es with
  | Some n => add_entry k' n (remove_entry k es)
  | None => es
  end.

(** The first counter from [k] on, among [n] of them, that is not
    taken. *)
Fixpoint first_free (taken : nat -> bool) (k n : nat) : option nat :=
  match n with
  | O => None
  | S n' => if taken k then first_free taken (S k) n' else Some k
  end.

(** The name a moved file takes at the counter [counter]: the counter
    goes between the stem and the suffix. *)
Definition renamed (file_name : string) (counter : nat) : string :=
  name_stem file_name ++ "_" ++ str_nat counter ++ name_suffix file_name.

(** ** Sorting by date *)

Definition mtime_of (e : string * node) : Z := st_mtime (snd e).

(** The regular files of a directory, oldest first. *)
Definition by_mtime (es : entries) : entries :=
  sort_by mtime_of (filter regular es).


(** The name the file at 0-based position [i] is given when it does not
    bear its prefix yet: the prefixed name if it is free, else the first
    free name with a counter, counters starting at 1.  (With one more
    counter than there are names, a free one is always found.) *)
Definition free_name (taken : list string) (i : nat) (nm : string) : string :=
  if mem (sort_name i nm) taken then
    match first_free (fun c => mem (sort_name_n i c nm) taken) 1
            (List.length taken + 1) with
    | Some c => sort_name_n i c nm
    | None => sort_name i nm
    end
  else sort_name i nm.

(** One file is put in its place: left alone when its name starts with
    the prefix of its position, renamed otherwise. *)
Definition place (i : nat) (nm : string) (es : entries) : entries :=
  if startswith nm (sort_prefix i) then es
  else move_entry nm (free_name (names es) i nm) es.

(** The files are taken in order, positions counting from [i]. *)
Fixpoint renumber (i : nat) (order : list string) (es : entries) : entries :=
  match order with
  | [] => es
  | nm :: rest => renumber (S i) rest (place i nm es)
  end.


(** ** After sorting *)

(** The names bear, in order, the prefixes of the positions from [i]
    on. *)
Fixpoint numbered_from (i : nat) (order : list string) : bool :=
  match order with
  | [] => true
  | nm :: rest => startswith nm (sort_prefix i) && numbered_from (S i) rest
  end.



(** What [sortDate] leaves of a directory. *)
Definition sorted_dir (es : entries) : entries :=
  renumber 0 (names (by_mtime es)) es.

(** The regular files that are not among [order]. *)
Definition others (order : list string) (es : entries) : entries :=
  filter (fun e => negb (mem (fst e) order)) (filter regular es).

(** ** Trees that grow *)

(** Nothing that was there has gone or changed: the regular files are
    the same ones at the same places, and what was a directory is one
    still. *)
Definition keeps (r r' : node) : Prop :=
  (forall loc m sz,
      lookup r loc = Some (File m sz) <-> lookup r' loc = Some (File m sz))
  /\ (forall loc, dirness (lookup r loc) = true ->
                  dirness (lookup r' loc) = true).

(** Every directory of the tree holds plain, pairwise distinct names. *)
Definition wf_node (r : node) : Prop :=
  forall loc es, lookup r loc = Some (Dir es) -> wf_entries es.

(** ** Uploading *)







End Spec.

(* ================================================================== *)
(** * Sample file systems *)

Module Samples.
Import PyStr Pathlib FileSystem Py Lib Main.
#[local] Open Scope Z_scope.

(** [/content] holding only the [static] directory made at start-up. *)
Definition fs_fresh : FS :=
  mkFS (Dir [("content", Dir [("static", Dir [])])]) [].

(** One location folder with a text file and a picture. *)
Definition fs_txt_jpg : FS :=
  mkFS (Dir [("content",
              Dir [("static", Dir []);
                   ("2023",
                    Dir [("France",
                          Dir [("Paris",
                                Dir [("a.txt", File 100 12);
                                     ("b.jpg", File 200 3456)])])])])])
       [].

(** An inbox with one picture next to the storage tree. *)
Definition fs_inbox : FS :=
  mkFS (Dir [("content",
              Dir [("static", Dir []);
                   ("inbox", Dir [("b.jpg", File 300 999)]);
                   ("2023",
                    Dir [("France",
                          Dir [("Paris",
                                Dir [("a.txt", File 100 12);
                                     ("b.jpg", File 200 3456)])])])])])
       [].


(** A folder of three pictures, the newest enumerated first. *)
Definition fs_three : FS :=
  mkFS (Dir [("content",
              Dir [("2023",
                    Dir [("France",
                          Dir [("Paris",
                                Dir [("c.jpg", File 30 300);
                                     ("a.jpg", File 10 100);
                                     ("b.jpg", File 20 200)])])])])])
       [].


(** A picture lying directly in a year directory. *)
Definition fs_year_pic : FS :=
  mkFS (Dir [("content", Dir [("2023", Dir [("pic.jpg", File 1 2)])])]) [].

(** A regular file where the folder of Lyon would be. *)
Definition fs_lyon_file : FS :=
  mkFS (Dir [("content",
              Dir [("2023", Dir [("France", Dir [("Lyon", File 7 8)])])])])
       [].



(** Draws and clock of a run of the upload route: the i-th name is
    thirty-one zeros and the digit [i mod 10], the i-th write happens at
    time [i]. *)
Definition env_count : Outside :=
  mkOutside
    (fun i =>
       ("0000000000000000000000000000000" ++ str_nat (i mod 10))%string)
    (fun i => Z.of_nat i).

(** Two uploads, the first with a path for name. *)
Definition two_uploads : list UploadFile :=
  [mkUploadFile "../../holiday/Beach.JPG" 1000; mkUploadFile "notes" 20].



Definition req_lyon : FolderRequest := mkFolderRequest "France" "Lyon" 2023.


Definition req_move_missing : MoveImageRequest :=
  mkMoveImageRequest "zz.jpg" "France" "Lyon" 2023 "/content/inbox".

Definition lyon : Path := location_folder 2023 "France" "Lyon".

(** The message of the [TypeError] the call in [move_image] raises. *)
Definition arity_message : string :=
  "moveFolder() takes 3 positional arguments but 5 were given".

(** The paths a request names. *)
Definition source_of (request : MoveImageRequest) : Path :=
  truediv (Path_of (sourceFolder request)) (imageId request).

Definition request_folder (request : FolderRequest) : Path :=
  location_folder (fr_year request) (fr_country request) (fr_city request).

End Samples.

(* ================================================================== *)
(** * Checks of the string and path functions *)

Module PathTests.
Import PyStr Pathlib.

Example fmt_03d_7 : fmt_03d 7 = "007".
Proof. reflexivity. Qed.

Example fmt_03d_1234 : fmt_03d 1234 = "1234".
Proof. reflexivity. Qed.

Example str_int_neg : str_int (-5) = "-5".
Proof. reflexivity. Qed.

Example int_of_str_0023 : int_of_str "0023" = Some 23%Z.
Proof. reflexivity. Qed.

Example path_of_abs :
  Path_of "/content//2023/./x/" = mkPath true ["content"; "2023"; "x"].
Proof. reflexivity. Qed.

Example truediv_abs :
  truediv (Path_of "/content") "/etc" = mkPath true ["etc"].
Proof. reflexivity. Qed.

Example truediv_dotdot :
  truediv (Path_of "/content/a") "../b" = mkPath true ["content"; "a"; ".."; "b"].
Proof. reflexivity. Qed.

Example suffix_jpg : suffix (Path_of "dir/photo.tar.JPG") = ".JPG".
Proof. reflexivity. Qed.

Example stem_jpg : stem (Path_of "dir/photo.tar.JPG") = "photo.tar".
Proof. reflexivity. Qed.

Example suffix_hidden : suffix (Path_of ".jpg") = "".
Proof. reflexivity. Qed.

Example suffix_trailing_dot : suffix (Path_of "a.") = "".
Proof. reflexivity. Qed.

Example str_roundtrip : str (Path_of "/content//2023/") = "/content/2023".
Proof. reflexivity. Qed.

Example lower_JPG : lower ".JpG" = ".jpg".
Proof. reflexivity. Qed.

End PathTests.

(* ================================================================== *)
(** * Facts about strings and pure paths *)

Module StrFacts.
Import PyStr Pathlib.

Lemma all_chars_app (f : ascii -> bool) (a b : string) :
  all_chars f (a ++ b) = all_chars f a && all_chars f b.
Proof.
  induction a as [|c a IH]; simpl; [reflexivity|].
  now rewrite IH, andb_assoc.
Qed.

Lemma all_chars_impl (f g : ascii -> bool) (s : string) :
  (forall c, f c = true -> g c = true) ->
  all_chars f s = true -> all_chars g s = true.
Proof.
  intros Hfg. induction s as [|c s IH]; simpl; [reflexivity|].
  intros H. apply andb_true_iff in H as [Hc Hs].
  now rewrite (Hfg c Hc), (IH Hs).
Qed.

Lemma is_digit_cases (c : ascii) :
  is_digit c = true ->
  In c ["0"; "1"; "2"; "3"; "4"; "5"; "6"; "7"; "8"; "9"]%char.
Proof.
  destruct c as [[] [] [] [] [] [] [] []]; cbv; intros H;
    try discriminate H; tauto.
Qed.

Lemma is_digit_no_slash (c : ascii) : is_digit c = true -> no_slash c = true.
Proof.
  intros H. apply is_digit_cases in H. cbn in H.
  repeat (destruct H as [<-|H]; [reflexivity|]). contradiction.
Qed.

Lemma is_digit_not_dot (c : ascii) : is_digit c = true -> not_dot c = true.
Proof.
  intros H. apply is_digit_cases in H. cbn in H.
  repeat (destruct H as [<-|H]; [reflexivity|]). contradiction.
Qed.

Lemma digits_of_uint (d : uint) :
  all_chars is_digit (NilEmpty.string_of_uint d) = true.
Proof. induction d; simpl; auto. Qed.

Lemma digits_str_nat (n : nat) : all_chars is_digit (str_nat n) = true.
Proof. apply digits_of_uint. Qed.

Lemma str_nat_inj (a b : nat) : str_nat a = str_nat b -> a = b.
Proof.
  unfold str_nat. intros H.
  apply Unsigned.to_uint_inj.
  assert (E : Some (Nat.to_uint a) = Some (Nat.to_uint b))
    by (rewrite <- !NilEmpty.usu; now rewrite H).
  now injection E.
Qed.

Lemma str_nat_nonempty (n : nat) : str_nat n <> "".
Proof.
  unfold str_nat. intros H.
  assert (E : Some (Nat.to_uint n) = Some Nil)
    by (rewrite <- NilEmpty.usu; now rewrite H).
  injection E as E.
  assert (Z : Nat.of_uint (Nat.to_uint n) = Nat.of_uint (Nat.to_uint 0)).
  { rewrite E. reflexivity. }
  rewrite !Unsigned.of_to in Z. subst n. discriminate E.
Qed.

Lemma plain_intro (s : string) :
  all_chars no_slash s = true -> all_chars is_dot s = false -> plain s = true.
Proof.
  intros Hs Hd. unfold plain. rewrite Hs.
  assert (E1 : (s =? "") = false)
    by (apply String.eqb_neq; intros ->; discriminate Hd).
  assert (E2 : (s =? ".") = false)
    by (apply String.eqb_neq; intros ->; discriminate Hd).
  assert (E3 : (s =? "..") = false)
    by (apply String.eqb_neq; intros ->; discriminate Hd).
  now rewrite E1, E2, E3.
Qed.

Lemma plain_no_slash (c : string) :
  plain c = true -> all_chars no_slash c = true.
Proof.
  unfold plain. intros H.
  now apply andb_true_iff in H as [_ H].
Qed.

Lemma plain_keep (c : string) : plain c = true -> keep_part c = true.
Proof.
  unfold plain, keep_part. intros H.
  apply andb_true_iff in H as [H _]. apply andb_true_iff in H as [H _].
  exact H.
Qed.

Lemma plain_not_dotdot (c : string) : plain c = true -> (c =? "..") = false.
Proof.
  unfold plain. intros H.
  apply andb_true_iff in H as [H _]. apply andb_true_iff in H as [_ H].
  now apply negb_true_iff in H.
Qed.

Lemma plain_normal (c : string) : plain c = true -> normal_part c = true.
Proof.
  intros H. unfold normal_part.
  now rewrite (plain_keep _ H), (plain_no_slash _ H).
Qed.

Lemma split_on_plain (s : string) :
  all_chars no_slash s = true -> split_on "/" s = [s].
Proof.
  induction s as [|a s IH]; simpl; [reflexivity|].
  intros H. apply andb_true_iff in H as [Ha Hs].
  unfold no_slash in Ha. apply negb_true_iff in Ha. rewrite Ha.
  now rewrite (IH Hs).
Qed.

Lemma split_on_cons (x t : string) :
  all_chars no_slash x = true ->
  split_on "/" (x ++ String "/" t) = x :: split_on "/" t.
Proof.
  induction x as [|a x IH]; simpl; [reflexivity|].
  intros H. apply andb_true_iff in H as [Ha Hx].
  unfold no_slash in Ha. apply negb_true_iff in Ha. rewrite Ha.
  now rewrite (IH Hx).
Qed.

Lemma split_on_parts (s : string) :
  Forall (fun c => all_chars no_slash c = true) (split_on "/" s).
Proof.
  induction s as [|a s IH]; simpl.
  - now constructor.
  - destruct (Ascii.eqb a "/") eqn:E.
    + now constructor.
    + destruct (split_on "/" s) as [|h t].
      * constructor; [simpl|constructor].
        unfold no_slash. now rewrite E.
      * inversion IH as [|? ? Hh Ht]; subst.
        constructor; [|exact Ht]. simpl. unfold no_slash at 1.
        now rewrite E.
Qed.

Lemma parts_of_str_normal (s : string) :
  Forall (fun c => normal_part c = true) (parts_of_str s).
Proof.
  unfold parts_of_str. apply Forall_forall. intros c Hc.
  apply filter_In in Hc as [Hin Hk]. unfold normal_part. rewrite Hk.
  pose proof (split_on_parts s) as F.
  rewrite Forall_forall in F. now rewrite (F c Hin).
Qed.

Lemma parts_of_str_plain (c : string) :
  plain c = true -> parts_of_str c = [c].
Proof.
  intros H. unfold parts_of_str.
  rewrite (split_on_plain _ (plain_no_slash _ H)). simpl.
  now rewrite (plain_keep _ H).
Qed.

Lemma startswith_cons (a b : ascii) (s pre : string) :
  startswith (String a s) (String b pre) = Ascii.eqb b a && startswith s pre.
Proof.
  unfold startswith.
  change (prefix (String b pre) (String a s))
    with (if ascii_dec b a then prefix pre s else false).
  destruct (ascii_dec b a) as [->|Hne].
  - now rewrite Ascii.eqb_refl.
  - apply Ascii.eqb_neq in Hne. now rewrite Hne.
Qed.

Lemma startswith_nil (s : string) : startswith s "" = true.
Proof. now destruct s. Qed.

Lemma startswith_empty (b : ascii) (pre : string) :
  startswith "" (String b pre) = false.
Proof. reflexivity. Qed.

Lemma startswith_app (pre s : string) : startswith (pre ++ s) pre = true.
Proof.
  induction pre as [|a pre IH]; [apply startswith_nil|].
  change (String a pre ++ s)%string with (String a (pre ++ s)).
  now rewrite startswith_cons, Ascii.eqb_refl, IH.
Qed.

Lemma startswith_slash (c : string) :
  c <> "" -> all_chars no_slash c = true -> startswith c "/" = false.
Proof.
  destruct c as [|a c]; [congruence|]. intros _ H. simpl in H.
  apply andb_true_iff in H as [Ha _].
  rewrite startswith_cons. unfold no_slash in Ha.
  apply negb_true_iff in Ha. rewrite Ascii.eqb_sym in Ha. now rewrite Ha.
Qed.

Lemma plain_nonempty (c : string) : plain c = true -> c <> "".
Proof. intros H ->. discriminate H. Qed.

Lemma truediv_plain (p : Path) (c : string) :
  plain c = true -> truediv p c = child p c.
Proof.
  intros H. unfold truediv, child.
  rewrite (startswith_slash c (plain_nonempty _ H) (plain_no_slash _ H)).
  now rewrite (parts_of_str_plain _ H).
Qed.

Lemma name_child (p : Path) (c : string) : name (child p c) = c.
Proof. unfold name, child. simpl. apply last_last. Qed.

Lemma normal_Path_of (s : string) : normal (Path_of s).
Proof. apply parts_of_str_normal. Qed.

Lemma normal_truediv (p : Path) (s : string) :
  normal p -> normal (truediv p s).
Proof.
  intros Hp. unfold truediv.
  destruct (startswith s "/"); [apply normal_Path_of|].
  unfold normal. simpl. apply Forall_app. split; [exact Hp|].
  apply parts_of_str_normal.
Qed.

Lemma length_app (a b : string) :
  String.length (a ++ b) = String.length a + String.length b.
Proof. induction a as [|c a IH]; simpl; [reflexivity|now rewrite IH]. Qed.

Lemma app_assoc_str (a b c : string) : ((a ++ b) ++ c = a ++ (b ++ c))%string.
Proof. induction a as [|x a IH]; simpl; [reflexivity|now rewrite IH]. Qed.

Lemma app_inv_head_str (a b c : string) :
  (a ++ b = a ++ c)%string -> b = c.
Proof.
  induction a as [|x a IH]; simpl; intros H; [exact H|].
  injection H as H. now apply IH.
Qed.

Lemma app_inv_tail_str (a b c : string) :
  (a ++ c = b ++ c)%string -> a = b.
Proof.
  revert b. induction a as [|x a IH]; intros [|y b] H.
  - reflexivity.
  - apply (f_equal String.length) in H. simpl in H.
    rewrite length_app in H. lia.
  - apply (f_equal String.length) in H. simpl in H.
    rewrite length_app in H. lia.
  - simpl in H. injection H as -> H. f_equal. now apply IH.
Qed.

Lemma uint_string_nonempty (d : uint) :
  d <> Nil -> NilEmpty.string_of_uint d <> "".
Proof. destruct d; simpl; congruence. Qed.

Lemma digits_not_all_dots (s : string) :
  s <> "" -> all_chars is_digit s = true -> all_chars is_dot s = false.
Proof.
  destruct s as [|a s]; [congruence|]. intros _ H. simpl in H.
  apply andb_true_iff in H as [Ha _]. simpl.
  apply is_digit_not_dot in Ha. unfold not_dot in Ha. unfold is_dot.
  apply negb_true_iff in Ha. now rewrite Ha.
Qed.

Lemma digits_plain (s : string) :
  s <> "" -> all_chars is_digit s = true -> plain s = true.
Proof.
  intros Hne Hd. apply plain_intro.
  - revert Hd. apply all_chars_impl. apply is_digit_no_slash.
  - now apply digits_not_all_dots.
Qed.

Lemma digits_NilZero (d : uint) :
  NilZero.string_of_uint d <> "" /\
  all_chars is_digit (NilZero.string_of_uint d) = true.
Proof.
  destruct d; try (split; [discriminate | apply (digits_of_uint (_ d))]).
  split; [discriminate|reflexivity].
Qed.

Lemma str_int_plain (z : Z) : plain (str_int z) = true.
Proof.
  unfold str_int. destruct z as [|p|p]; simpl.
  - reflexivity.
  - destruct (digits_NilZero (Pos.to_uint p)) as [Hne Hd].
    now apply digits_plain.
  - destruct (digits_NilZero (Pos.to_uint p)) as [Hne Hd].
    apply plain_intro; simpl.
    + revert Hd. apply all_chars_impl. apply is_digit_no_slash.
    + reflexivity.
Qed.

Lemma digits_zeros (k : nat) : all_chars is_digit (zeros k) = true.
Proof. induction k; simpl; auto. Qed.

Lemma digits_fmt_03d (n : nat) : all_chars is_digit (fmt_03d n) = true.
Proof.
  unfold fmt_03d. rewrite all_chars_app, digits_zeros, digits_str_nat.
  reflexivity.
Qed.

Lemma fmt_03d_nonempty (n : nat) : fmt_03d n <> "".
Proof.
  unfold fmt_03d. intros H. apply (f_equal String.length) in H.
  rewrite length_app in H. simpl in H.
  assert (String.length (str_nat n) <> 0).
  { pose proof (str_nat_nonempty n). destruct (str_nat n); simpl; congruence. }
  lia.
Qed.

Lemma all_chars_substring (f : ascii -> bool) (s : string) (n m : nat) :
  all_chars f s = true -> all_chars f (substring n m s) = true.
Proof.
  revert n m. induction s as [|a s IH]; intros n m H.
  - now destruct n, m.
  - simpl in H. apply andb_true_iff in H as [Ha Hs].
    destruct n as [|n]; destruct m as [|m]; simpl; auto.
    now rewrite Ha, IH.
Qed.

Lemma prefixed_plain (pre rest : string) :
  pre <> "" -> all_chars is_digit pre = true ->
  all_chars no_slash rest = true ->
  plain (pre ++ rest) = true.
Proof.
  intros Hne Hd Hr. apply plain_intro.
  - rewrite all_chars_app, Hr, andb_true_r.
    revert Hd. apply all_chars_impl, is_digit_no_slash.
  - rewrite all_chars_app, (digits_not_all_dots pre Hne Hd). reflexivity.
Qed.

Lemma underscore_plain (a b : string) :
  all_chars no_slash a = true -> all_chars no_slash b = true ->
  plain (a ++ String "_" b) = true.
Proof.
  intros Ha Hb. apply plain_intro.
  - rewrite all_chars_app, Ha. simpl. exact Hb.
  - rewrite all_chars_app. simpl. apply andb_false_r.
Qed.

Lemma join_cons (x y : string) (l : list string) :
  join "/" (x :: y :: l) = (x ++ String "/" (join "/" (y :: l)))%string.
Proof. reflexivity. Qed.

Lemma split_join (l : list string) :
  l <> [] ->
  Forall (fun c => all_chars no_slash c = true) l ->
  split_on "/" (join "/" l) = l.
Proof.
  induction l as [|x [|y l] IH]; intros Hne F.
  - congruence.
  - inversion F; subst. now apply split_on_plain.
  - inversion F as [|? ? Hx F']; subst.
    rewrite join_cons, split_on_cons by exact Hx.
    f_equal. apply IH; [discriminate|exact F'].
Qed.

Lemma normal_part_no_slash (c : string) :
  normal_part c = true -> all_chars no_slash c = true.
Proof. unfold normal_part. intros H. now apply andb_true_iff in H. Qed.

Lemma normal_part_keep (c : string) :
  normal_part c = true -> keep_part c = true.
Proof. unfold normal_part. intros H. now apply andb_true_iff in H. Qed.

Lemma filter_keep_normal (l : list string) :
  Forall (fun c => normal_part c = true) l -> filter keep_part l = l.
Proof.
  induction 1 as [|c l Hc _ IH]; simpl; [reflexivity|].
  now rewrite (normal_part_keep _ Hc), IH.
Qed.

Lemma parts_of_join (l : list string) :
  Forall (fun c => normal_part c = true) l ->
  parts_of_str (join "/" l) = l.
Proof.
  intros F. unfold parts_of_str. destruct l as [|x l]; [reflexivity|].
  rewrite split_join.
  - now apply filter_keep_normal.
  - discriminate.
  - revert F. apply Forall_impl. apply normal_part_no_slash.
Qed.

Lemma join_first (x : string) (l : list string) :
  exists t, join "/" (x :: l) = (x ++ t)%string.
Proof.
  destruct l as [|y l].
  - exists "". simpl. clear. induction x; simpl; congruence.
  - eexists. apply join_cons.
Qed.

(** Reading back the text of a path gives the path. *)
Lemma Path_of_str (p : Path) : normal p -> Path_of (str p) = p.
Proof.
  destruct p as [[] ps]; unfold normal, Path_of, str;
    cbn [is_absolute parts]; intros F.
  - f_equal.
    + change ("/" ++ join "/" ps)%string with (String "/" (join "/" ps)).
      rewrite startswith_cons. apply startswith_nil.
    + rewrite <- (parts_of_join ps F) at 2. reflexivity.
  - destruct ps as [|x ps]; [reflexivity|].
    rewrite (parts_of_join _ F). f_equal.
    inversion F as [|? ? Hx _]; subst.
    destruct (join_first x ps) as [t ->].
    destruct x as [|a x]; [discriminate Hx|].
    apply normal_part_no_slash in Hx. simpl in Hx.
    apply andb_true_iff in Hx as [Ha _].
    change (String a x ++ t)%string with (String a (x ++ t)).
    rewrite startswith_cons. unfold no_slash in Ha.
    apply negb_true_iff in Ha. rewrite Ascii.eqb_sym in Ha. now rewrite Ha.
Qed.

End StrFacts.
(* ================================================================== *)
(** * Facts about the file system *)

Module FsFacts.
Import PyStr Pathlib FileSystem StrFacts.

Lemma assoc_names (k : string) (es : entries) :
  assoc k es = None <-> ~ In k (names es).
Proof.
  induction es as [|[k' n] es IH]; simpl.
  - tauto.
  - destruct (String.eqb_spec k k') as [->|Hne].
    + split; [discriminate|]. intros H. exfalso. apply H. now left.
    + rewrite IH. split.
      * intros H [E|E]; [congruence|tauto].
      * tauto.
Qed.

Lemma assoc_mem (k : string) (es : entries) :
  mem k (names es) = match assoc k es with Some _ => true | None => false end.
Proof.
  induction es as [|[k' n] es IH]; simpl; [reflexivity|].
  destruct (k =? k'); [reflexivity|exact IH].
Qed.

Lemma assoc_In (k : string) (n : node) (es : entries) :
  NoDup (names es) -> In (k, n) es -> assoc k es = Some n.
Proof.
  induction es as [|[k' n'] es IH]; simpl; [tauto|].
  intros ND [E|Hin].
  - injection E as -> ->. now rewrite String.eqb_refl.
  - inversion ND as [|? ? Hnot ND']; subst.
    destruct (String.eqb_spec k k') as [->|Hne].
    + exfalso. apply Hnot. change k' with (fst (k', n)).
      now apply in_map.
    + now apply IH.
Qed.

Lemma assoc_Some_In (k : string) (n : node) (es : entries) :
  assoc k es = Some n -> In (k, n) es.
Proof.
  induction es as [|[k' n'] es IH]; simpl; [discriminate|].
  destruct (String.eqb_spec k k') as [->|Hne].
  - intros E. injection E as ->. now left.
  - intros E. right. now apply IH.
Qed.

Lemma assoc_remove (k k' : string) (es : entries) :
  assoc k (remove_entry k' es) = if k =? k' then None else assoc k es.
Proof.
  unfold remove_entry.
  induction es as [|[k0 n] es IH]; simpl.
  - now destruct (k =? k').
  - destruct (String.eqb_spec k0 k') as [->|Hne]; simpl.
    + rewrite IH. destruct (String.eqb_spec k k'); reflexivity.
    + rewrite IH. destruct (String.eqb_spec k k0) as [->|Hne'].
      * apply String.eqb_neq in Hne. now rewrite Hne.
      * reflexivity.
Qed.

Lemma assoc_add (k k' : string) (n : node) (es : entries) :
  assoc k (add_entry k' n es) =
    match assoc k es with
    | Some x => Some x
    | None => if k =? k' then Some n else None
    end.
Proof.
  unfold add_entry.
  induction es as [|[k0 n0] es IH]; simpl; [reflexivity|].
  destruct (k =? k0); [reflexivity|exact IH].
Qed.

Lemma lookup_app (r : node) (a b : location) :
  lookup r (a ++ b) =
    match lookup r a with
    | Some n => lookup n b
    | None => None
    end.
Proof.
  revert r. induction a as [|c a IH]; intros r; simpl; [reflexivity|].
  destruct r as [|es]; [reflexivity|].
  destruct (assoc c es); [apply IH|reflexivity].
Qed.

Lemma lookup_child (r : node) (d : location) (es : entries) (k : string) :
  lookup r d = Some (Dir es) -> lookup r (d ++ [k]) = assoc k es.
Proof.
  intros H. rewrite lookup_app, H. simpl. now destruct (assoc k es).
Qed.

Lemma lookup_file_child (r : node) (d : location) (m sz : Z) (k : string) :
  lookup r d = Some (File m sz) -> lookup r (d ++ [k]) = None.
Proof. intros H. now rewrite lookup_app, H. Qed.

Lemma lookup_none_child (r : node) (d : location) (k : string) :
  lookup r d = None -> lookup r (d ++ [k]) = None.
Proof. intros H. now rewrite lookup_app, H. Qed.

(** What exists has a directory for parent. *)
Lemma lookup_parent (r : node) (d : location) (k : string) (n : node) :
  lookup r (d ++ [k]) = Some n ->
  exists es, lookup r d = Some (Dir es) /\ assoc k es = Some n.
Proof.
  rewrite lookup_app. destruct (lookup r d) as [[|es]|]; simpl;
    try discriminate.
  destruct (assoc k es) eqn:E; [|discriminate].
  intros H. injection H as ->. now exists es.
Qed.

Lemma walk_app (r : node) (st : location) (a b : list string) :
  walk r st (a ++ b) =
    match walk r st a with
    | Done st' => walk r st' b
    | Fail e => Fail e
    end.
Proof.
  revert st. induction a as [|c a IH]; intros st; simpl; [reflexivity|].
  destruct (lookup r st) as [[|es]|]; try reflexivity. apply IH.
Qed.

Lemma resolve_child (fs : FS) (p : Path) (d : location) (es : entries)
    (k : string) :
  resolve fs p = Done d ->
  lookup (root fs) d = Some (Dir es) ->
  (k =? "..") = false ->
  resolve fs (child p k) = Done (d ++ [k]).
Proof.
  unfold resolve, child, start. simpl. intros Hp Hd Hk.
  rewrite walk_app, Hp. simpl. now rewrite Hd, Hk.
Qed.

Lemma os_stat_child (fs : FS) (p : Path) (d : location) (es : entries)
    (k : string) :
  resolve fs p = Done d ->
  lookup (root fs) d = Some (Dir es) ->
  (k =? "..") = false ->
  os_stat fs (child p k) =
    match assoc k es with
    | Some n => Done n
    | None => Fail ENOENT
    end.
Proof.
  intros Hp Hd Hk. unfold os_stat.
  rewrite (resolve_child fs p d es k Hp Hd Hk).
  now rewrite (lookup_child _ d es k Hd).
Qed.

Lemma mem_In (x : string) (l : list string) : mem x l = true <-> In x l.
Proof.
  unfold mem. rewrite existsb_exists. split.
  - intros [y [Hy E]]. apply String.eqb_eq in E. now subst.
  - intros H. exists x. split; [exact H|apply String.eqb_refl].
Qed.

Lemma mem_false (x : string) (l : list string) : mem x l = false <-> ~ In x l.
Proof.
  rewrite <- mem_In. destruct (mem x l); split; congruence.
Qed.

Lemma nodupb_sound (l : list string) : WfCheck.nodupb l = true -> NoDup l.
Proof.
  induction l as [|x l IH]; simpl; intros H; constructor.
  - apply andb_true_iff in H as [H _]. apply negb_true_iff in H.
    now apply mem_false.
  - apply andb_true_iff in H as [_ H]. now apply IH.
Qed.

Lemma wf_entriesb_sound (es : entries) :
  WfCheck.wf_entriesb es = true -> wf_entries es.
Proof.
  unfold WfCheck.wf_entriesb. intros H. apply andb_true_iff in H as [H1 H2].
  split; [now apply nodupb_sound|].
  apply Forall_forall. intros k Hk.
  rewrite forallb_forall in H2. now apply H2.
Qed.

Lemma wf_nodeb_entry (es : entries) (k : string) (n : node) :
  WfCheck.wf_nodeb (Dir es) = true -> assoc k es = Some n ->
  WfCheck.wf_nodeb n = true.
Proof.
  intros H E. apply assoc_Some_In in E. simpl in H.
  apply andb_true_iff in H as [_ H].
  induction es as [|e es IH]; [contradiction|].
  apply andb_true_iff in H as [He Hes].
  destruct E as [->|E]; [exact He|now apply IH].
Qed.

Lemma wf_nodeb_sound (r : node) :
  WfCheck.wf_nodeb r = true ->
  forall loc es, lookup r loc = Some (Dir es) -> wf_entries es.
Proof.
  intros H loc. revert r H.
  induction loc as [|c loc IH]; intros r H es E.
  - simpl in E. injection E as ->. simpl in H.
    apply andb_true_iff in H as [H _]. now apply wf_entriesb_sound.
  - simpl in E. destruct r as [|es0]; [discriminate|].
    destruct (assoc c es0) as [n'|] eqn:A; [|discriminate].
    apply (IH n'); [|exact E]. now apply (wf_nodeb_entry es0 c).
Qed.

Lemma wfb_sound (fs : FS) : WfCheck.wfb fs = true -> wf fs.
Proof.
  unfold WfCheck.wfb. intros H. apply andb_true_iff in H as [H1 H2].
  split; [exact H1|now apply wf_nodeb_sound].
Qed.

End FsFacts.
(* ================================================================== *)
(** * Facts about computations *)

Module PyFacts.
Import PyStr Pathlib FileSystem Py Lib StrFacts FsFacts.

Lemma for_acc_read {A B} (l : list A) (body : A -> B -> M B)
    (g : A -> B -> B) (fs : FS) :
  (forall x acc, In x l -> body x acc fs = (Ok (g x acc), fs)) ->
  forall acc,
    for_acc l acc body fs = (Ok (fold_left (fun a x => g x a) l acc), fs).
Proof.
  induction l as [|x l IH]; intros H acc; simpl; [reflexivity|].
  unfold bind. rewrite (H x acc (or_introl eq_refl)).
  apply IH. intros y a Hy. apply H. now right.
Qed.

Lemma fold_left_app_flat {A B} (h : A -> list B) (l : list A) (acc : list B) :
  fold_left (fun a x => a ++ h x) l acc = acc ++ flat_map h l.
Proof.
  revert acc. induction l as [|x l IH]; intros acc; simpl.
  - now rewrite app_nil_r.
  - now rewrite IH, app_assoc.
Qed.

Lemma flat_map_filter {A B} (f : A -> bool) (g : A -> B) (l : list A) :
  flat_map (fun x => if f x then [g x] else []) l = map g (filter f l).
Proof.
  induction l as [|x l IH]; simpl; [reflexivity|].
  destruct (f x); simpl; now rewrite IH.
Qed.

Lemma flat_map_names {B} (h : string * node -> list B) (es : entries) :
  NoDup (names es) ->
  flat_map (fun k => match assoc k es with
                     | Some n => h (k, n)
                     | None => []
                     end) (names es)
  = flat_map h es.
Proof.
  intros ND. unfold names. rewrite flat_map_concat_map, map_map.
  rewrite flat_map_concat_map. f_equal.
  apply map_ext_in. intros [k n] Hin. simpl.
  now rewrite (assoc_In k n es ND Hin).
Qed.

Lemma iterdir_dir (fs : FS) (p : Path) (d : location) (es : entries) :
  resolve fs p = Done d ->
  lookup (root fs) d = Some (Dir es) ->
  Path_iterdir p fs = (Ok (map (child p) (names es)), fs).
Proof.
  intros Hp Hd. unfold Path_iterdir, bind, query, os_listdir, os_stat.
  now rewrite Hp, Hd.
Qed.

Lemma stat_dir (fs : FS) (p : Path) (d : location) (n : node) :
  resolve fs p = Done d ->
  lookup (root fs) d = Some n ->
  os_stat fs p = Done n.
Proof. intros Hp Hd. unfold os_stat. now rewrite Hp, Hd. Qed.

Lemma plain_entry (es : entries) (k : string) :
  wf_entries es -> In k (names es) -> plain k = true.
Proof.
  intros [_ F] Hin. rewrite Forall_forall in F. now apply F.
Qed.

End PyFacts.
(* ================================================================== *)
(** * Listing a folder and counting its files *)

Module Listing.
Import PyStr Pathlib FileSystem Py Lib Main Spec StrFacts FsFacts PyFacts.

Lemma is_image_child (p : Path) (k : string) :
  is_image (child p k) = is_image_name k.
Proof. unfold is_image, is_image_name, suffix. now rewrite name_child. Qed.

Lemma is_file_child (fs : FS) (p : Path) (d : location) (es : entries)
    (k : string) :
  wf_entries es ->
  resolve fs p = Done d ->
  lookup (root fs) d = Some (Dir es) ->
  In k (names es) ->
  exists n, assoc k es = Some n
            /\ os_stat fs (child p k) = Done n.
Proof.
  intros W Hp Hd Hk.
  pose proof (plain_not_dotdot k (plain_entry es k W Hk)) as Hdd.
  rewrite (os_stat_child fs p d es k Hp Hd Hdd).
  destruct (assoc k es) as [n|] eqn:E.
  - now exists n.
  - apply assoc_names in E. contradiction.
Qed.

(** The files of a directory that are regular, as the comprehension
    [[f for f in p.iterdir() if f.is_file()]] finds them. *)
Lemma regular_children (fs : FS) (p : Path) (d : location) (es : entries) :
  wf_entries es ->
  resolve fs p = Done d ->
  lookup (root fs) d = Some (Dir es) ->
  filter (Path_is_file fs) (map (child p) (names es))
  = map (child p) (names (filter regular es)).
Proof.
  intros W Hp Hd.
  assert (H : forall k, In k (names es) ->
            Path_is_file fs (child p k)
            = match assoc k es with
              | Some n => is_file_node n
              | None => false
              end).
  { intros k Hk.
    destruct (is_file_child fs p d es k W Hp Hd Hk) as [n [E S]].
    unfold Path_is_file. now rewrite S, E. }
  destruct W as [ND _]. clear Hp Hd.
  induction es as [|[k n] es IH]; [reflexivity|].
  simpl in ND. inversion ND as [|? ? Hnot ND']; subst.
  cbn [names map filter fst].
  rewrite (H k (or_introl eq_refl)). cbn [assoc].
  rewrite String.eqb_refl. unfold regular at 1. cbn [snd].
  assert (IH' : filter (Path_is_file fs) (map (child p) (names es))
                = map (child p) (names (filter regular es))).
  { apply IH; [exact ND'|].
    intros k' Hk'. rewrite (H k' (or_intror Hk')). cbn [assoc].
    destruct (String.eqb_spec k' k) as [->|Hne]; [contradiction|reflexivity]. }
  unfold names in IH'. rewrite IH'.
  destruct (is_file_node n); reflexivity.
Qed.

Lemma viewFolder_dir (fs : FS) (year : Z) (country city : string)
    (d : location) (es : entries) :
  wf_entries es ->
  resolve fs (location_folder year country city) = Done d ->
  lookup (root fs) d = Some (Dir es) ->
  viewFolder country city year fs = (Ok (images_of year country city es), fs).
Proof.
  intros W Hp Hd.
  set (p := location_folder year country city) in *.
  set (h := fun e : string * node =>
              if listed e then [image_of year country city e] else []).
  set (g := fun (x : Path) (acc : list ImageResponse) =>
              acc ++ match assoc (name x) es with
                     | Some n => h (name x, n)
                     | None => []
                     end).
  unfold viewFolder. fold p. unfold bind at 1. unfold gets at 1.
  unfold Path_exists, Path_is_dir.
  rewrite (stat_dir fs p d (Dir es) Hp Hd). cbn [is_dir_node andb].
  unfold bind at 1. rewrite (iterdir_dir fs p d es Hp Hd).
  rewrite (for_acc_read _ _ g).
  - f_equal. f_equal. unfold g.
    rewrite (fold_left_app_flat
               (fun x => match assoc (name x) es with
                         | Some n => h (name x, n)
                         | None => []
                         end)).
    cbn [List.app]. rewrite flat_map_concat_map, map_map.
    rewrite <- flat_map_concat_map.
    rewrite (flat_map_ext _ (fun k => match assoc k es with
                                      | Some n => h (k, n)
                                      | None => []
                                      end)).
    + rewrite (flat_map_names h es (proj1 W)).
      unfold h, images_of. apply flat_map_filter.
    + intros k. now rewrite name_child.
  - intros x acc Hx. apply in_map_iff in Hx as [k [<- Hk]].
    destruct (is_file_child fs p d es k W Hp Hd Hk) as [n [E S]].
    unfold bind, gets, Path_is_file, Path_stat, query, ret, g.
    rewrite S, is_image_child, name_child, E. unfold h, listed, regular.
    cbn [fst snd].
    destruct (is_file_node n && is_image_name k).
    + cbv beta iota. rewrite S. reflexivity.
    + now rewrite app_nil_r.
Qed.

End Listing.
(* ================================================================== *)
(** * Enumerating pins *)

Module Pins.
Import PyStr Pathlib FileSystem Py Lib Main Spec StrFacts FsFacts PyFacts.
Import Listing.






Lemma os_stat_inv (fs : FS) (p : Path) (n : node) :
  os_stat fs p = Done n ->
  exists d, resolve fs p = Done d /\ lookup (root fs) d = Some n.
Proof.
  unfold os_stat. destruct (resolve fs p) as [d|e]; [|discriminate].
  destruct (lookup (root fs) d) as [n'|] eqn:E; [|discriminate].
  intros H. injection H as ->. now exists d.
Qed.


End Pins.
(* ================================================================== *)
(** * Status codes of the route handlers *)

Module Handlers.
Import PyStr Pathlib FileSystem Py Lib Main Samples.

Lemma move_image_raises (fuel : nat) (request : MoveImageRequest) (fs : FS) :
  move_image fuel request fs =
    (Raise (HTTPException 500
              (TextOf "Failed to move image: " (TypeError arity_message))),
     fs).
Proof. reflexivity. Qed.

Lemma moveFolder_str_destination (fuel : nat) (imageId dest src : string)
    (fs : FS) :
  moveFolder fuel (VStr imageId) (VStr dest) (VStr src) fs =
    (Raise (AttributeError "'str' object has no attribute 'exists'"), fs).
Proof. reflexivity. Qed.

(** C2.  Whatever the request and the file system, the handler of
    POST /api/move-image answers 500: its call of [moveFolder] passes five
    positional arguments to a function of three parameters, the
    [TypeError] is no [FileNotFoundError] and so reaches the generic
    clause; the file system is left as it was.  And [moveFolder] itself,
    given the string its signature announces as destination, fails on
    the attribute lookup [.exists]. *)
Theorem move_image_always_500 :
  forall (fuel : nat) (request : MoveImageRequest) (fs : FS),
    (exists msg,
       move_image fuel request fs =
         (Raise (HTTPException 500
                   (TextOf "Failed to move image: " (TypeError msg))), fs))
    /\ http_status (fst (move_image fuel request fs)) = Some 500
    /\ http_status (fst (move_image fuel request fs)) <> Some 200
    /\ http_status (fst (move_image fuel request fs)) <> Some 404
    /\ (forall imageId dest src : string,
          exists msg,
            moveFolder fuel (VStr imageId) (VStr dest) (VStr src) fs =
              (Raise (AttributeError msg), fs)).
Proof.
  intros fuel request fs.
  rewrite move_image_raises; cbn [fst http_status].
  repeat split; try discriminate.
  - now exists arity_message.
  - intros imageId dest src.
    rewrite moveFolder_str_destination. eauto.
Qed.

(** C1.  The specification asks for 404 and untouched folders when the source
    file is missing.  The handler answers 500 instead (the call of
    [moveFolder] never gets past its arity check); and [moveFolder],
    called with a path as destination, creates the missing destination
    folder before it finds the source absent and raises
    [FileNotFoundError]. *)
Theorem move_image_missing_source :
  forall (fuel : nat) (request : MoveImageRequest) (fs : FS),
    Path_exists fs (source_of request) = false ->
    http_status (fst (move_image fuel request fs)) = Some 500
    /\ http_status (fst (move_image fuel request fs)) <> Some 404
    /\ (exists msg fs',
          moveFolder 5 (VStr "zz.jpg") (VPath lyon) (VStr "/content/inbox")
            fs_fresh = (Raise (FileNotFoundError msg), fs')
          /\ Path_exists fs_fresh lyon = false
          /\ Path_is_dir fs' lyon = true).
Proof.
  intros fuel request fs _.
  rewrite move_image_raises; cbn [fst http_status].
  repeat split; try discriminate.
  eexists. eexists. split; [vm_compute; reflexivity|].
  split; reflexivity.
Qed.

Lemma move_image_missing_source_witness :
  Path_exists fs_fresh (source_of req_move_missing) = false
  /\ http_status (fst (move_image 5 req_move_missing fs_fresh)) = Some 500.
Proof.
  split; [reflexivity|].
  apply (move_image_missing_source 5 req_move_missing fs_fresh).
  reflexivity.
Defined.

(** C3.  The specification asks for 404 when the folder to sort is missing.  The
    handler raises that [HTTPException] inside its own [try] block, whose
    [except Exception] clause catches it and raises a 500 in its place;
    the file system is left as it was. *)
Theorem sort_folder_missing_answers_500 :
  forall (fuel : nat) (request : FolderRequest) (fs : FS),
    Path_exists fs (request_folder request) = false ->
    sort_folder_by_date fuel request fs =
      (Raise (HTTPException 500
                (TextOf "Failed to sort folder: "
                   (HTTPException 404 (Text "Folder not found")))), fs)
    /\ http_status (fst (sort_folder_by_date fuel request fs)) = Some 500.
Proof.
  intros fuel request fs H.
  assert (E : sort_folder_by_date fuel request fs =
      (Raise (HTTPException 500
                (TextOf "Failed to sort folder: "
                   (HTTPException 404 (Text "Folder not found")))), fs)).
  { unfold sort_folder_by_date, try_, bind, gets.
    fold (request_folder request). rewrite H. reflexivity. }
  rewrite E. split; reflexivity.
Qed.

Lemma sort_folder_missing_witness :
  Path_exists fs_fresh (request_folder req_lyon) = false
  /\ http_status (fst (sort_folder_by_date 5 req_lyon fs_fresh)) = Some 500.
Proof.
  split; [reflexivity|].
  apply (sort_folder_missing_answers_500 5 req_lyon fs_fresh).
  reflexivity.
Defined.

(** C4.  The specification asks for 404 when the file to serve is missing.  As
    in the sort handler, the 404 raised inside the [try] block is caught
    by the [except Exception] clause of that same block and replaced by
    a 500. *)
Theorem serve_image_missing_answers_500 :
  forall (year : Z) (country city filename : string) (fs : FS),
    Path_exists fs (truediv (location_folder year country city) filename)
      = false ->
    serve_image year country city filename fs =
      (Raise (HTTPException 500
                (TextOf "Failed to serve image: "
                   (HTTPException 404 (Text "Image not found")))), fs)
    /\ http_status (fst (serve_image year country city filename fs))
         = Some 500.
Proof.
  intros year country city filename fs H.
  assert (E : serve_image year country city filename fs =
      (Raise (HTTPException 500
                (TextOf "Failed to serve image: "
                   (HTTPException 404 (Text "Image not found")))), fs)).
  { unfold serve_image, try_, bind, gets. rewrite H. reflexivity. }
  rewrite E. split; reflexivity.
Qed.

Lemma serve_image_missing_witness :
  Path_exists fs_txt_jpg
    (truediv (location_folder 2023 "France" "Paris") "zz.jpg") = false
  /\ http_status (fst (serve_image 2023 "France" "Paris" "zz.jpg" fs_txt_jpg))
       = Some 500.
Proof.
  split; [reflexivity|].
  apply (serve_image_missing_answers_500 2023 "France" "Paris" "zz.jpg"
           fs_txt_jpg).
  reflexivity.
Defined.

(** C8.  When the location folder does not exist, [viewFolder] returns
    the empty list, and GET /api/get-images answers 200 with an empty
    array; nothing is raised and the file system is left as it was. *)
Theorem get_images_absent_folder :
  forall (year : Z) (country city : string) (fs : FS),
    Path_exists fs (location_folder year country city) = false ->
    viewFolder country city year fs = (Ok [], fs)
    /\ get_images year country city fs = (Ok [], fs)
    /\ http_status (fst (get_images year country city fs)) = Some 200.
Proof.
  intros year country city fs H.
  assert (V : viewFolder country city year fs = (Ok [], fs)).
  { unfold viewFolder, bind, gets. rewrite H. reflexivity. }
  assert (G : get_images year country city fs = (Ok [], fs)).
  { unfold get_images, try_, bind. rewrite V. reflexivity. }
  rewrite G. repeat split; assumption || reflexivity.
Qed.

Lemma get_images_absent_witness :
  Path_exists fs_fresh (location_folder 2023 "France" "Lyon") = false
  /\ get_images 2023 "France" "Lyon" fs_fresh = (Ok [], fs_fresh).
Proof.
  split; [reflexivity|].
  apply (get_images_absent_folder 2023 "France" "Lyon" fs_fresh).
  reflexivity.
Defined.

End Handlers.

(* ================================================================== *)
(** * Listing against counting (C6) and the pins (C7) *)

Module PinClaims.
Import PyStr Pathlib FileSystem Py Lib Main Spec Samples.
Import StrFacts FsFacts PyFacts Listing Pins.












End PinClaims.
(* ================================================================== *)
(** * Creating folders *)

Module Mkdir.
Import PyStr Pathlib FileSystem Py Lib Main Spec.
Import StrFacts FsFacts PyFacts Listing.

Lemma lookup_inner (r : node) (a : location) (c : string) (b : location)
    (n : node) :
  lookup r (a ++ c :: b) = Some n -> exists es, lookup r a = Some (Dir es).
Proof.
  rewrite lookup_app. destruct (lookup r a) as [[|es]|]; try discriminate.
  intros _. now exists es.
Qed.

(** Along plain names, resolution just appends. *)
Lemma walk_plain_done (r : node) (ps : list string) :
  all_plain ps ->
  forall st loc, walk r st ps = Done loc -> loc = st ++ ps.
Proof.
  induction 1 as [|c ps Hc _ IH]; intros st loc H; simpl in H.
  - injection H as <-. now rewrite app_nil_r.
  - destruct (lookup r st) as [[|es]|]; try discriminate H.
    rewrite (plain_not_dotdot c Hc) in H.
    rewrite (IH _ _ H), <- app_assoc. reflexivity.
Qed.

Lemma walk_plain_exists (r : node) (ps : list string) :
  all_plain ps ->
  forall st n, lookup r (st ++ ps) = Some n -> walk r st ps = Done (st ++ ps).
Proof.
  induction 1 as [|c ps Hc _ IH]; intros st n H; simpl.
  - now rewrite app_nil_r.
  - destruct (lookup_inner r st c ps n H) as [es ->].
    rewrite (plain_not_dotdot c Hc).
    change (c :: ps) with ([c] ++ ps) in *. rewrite app_assoc in *.
    now apply (IH _ n).
Qed.

(** The last step of a successful resolution left a directory. *)
Lemma walk_parent (r : node) (ps : list string) (c : string) :
  all_plain ps ->
  forall st loc,
    walk r st (ps ++ [c]) = Done loc ->
    exists es, lookup r (st ++ ps) = Some (Dir es).
Proof.
  intros Hps st loc H. rewrite walk_app in H.
  destruct (walk r st ps) as [st'|e] eqn:E; [|discriminate H].
  rewrite (walk_plain_done r ps Hps st st' E) in H. simpl in H.
  destruct (lookup r (st ++ ps)) as [[|es]|]; try discriminate H.
  now exists es.
Qed.

(** A resolution that fails for want of an entry misses the parent. *)
Lemma walk_enoent (r : node) (ps : list string) (c : string) :
  all_plain ps ->
  forall st,
    walk r st (ps ++ [c]) = Fail ENOENT -> lookup r (st ++ ps) = None.
Proof.
  intros Hps st H.
  destruct (lookup r (st ++ ps)) as [n|] eqn:L; [|reflexivity].
  rewrite walk_app, (walk_plain_exists r ps Hps st n L) in H.
  simpl in H. rewrite L in H. destruct n; [discriminate H|].
  destruct (c =? ".."); discriminate H.
Qed.

Lemma attach_snoc (r : node) (d : location) (k : string) (n : node) :
  attach r (d ++ [k]) n = alter_dir (add_entry k n) r d.
Proof. unfold attach. now rewrite last_last, removelast_last. Qed.

Lemma detach_snoc (r : node) (d : location) (k : string) :
  detach r (d ++ [k]) = alter_dir (remove_entry k) r d.
Proof. unfold detach. now rewrite last_last, removelast_last. Qed.

Lemma assoc_map_alter (f : entries -> entries) (c k : string)
    (rest : location) (es : entries) :
  assoc k (map (fun e => if fst e =? c
                         then (fst e, alter_dir f (snd e) rest)
                         else e) es)
  = if k =? c
    then option_map (fun n => alter_dir f n rest) (assoc k es)
    else assoc k es.
Proof.
  induction es as [|[k0 n0] es IH]; simpl.
  - now destruct (k =? c).
  - destruct (String.eqb_spec k0 c) as [->|Hne]; simpl.
    + destruct (String.eqb_spec k c) as [->|Hkc]; simpl.
      * reflexivity.
      * rewrite IH. now destruct (String.eqb_spec k c).
    + destruct (String.eqb_spec k k0) as [->|Hk0].
      * apply String.eqb_neq in Hne. now rewrite Hne.
      * exact IH.
Qed.

(** The altered directory holds the rewritten entries. *)
Lemma lookup_alter_same (f : entries -> entries) (d : location) :
  forall r es,
    lookup r d = Some (Dir es) ->
    lookup (alter_dir f r d) d = Some (Dir (f es)).
Proof.
  induction d as [|c d IH]; intros r es H.
  - simpl in H. injection H as ->. reflexivity.
  - destruct r as [|es0]; [discriminate H|].
    cbn [lookup alter_dir] in *.
    rewrite assoc_map_alter, String.eqb_refl.
    destruct (assoc c es0) as [n|]; [|discriminate H]. cbn [option_map].
    now apply IH.
Qed.

Lemma resolve_plain (fs : FS) (ps : list string) (n : node) :
  all_plain ps ->
  lookup (root fs) ps = Some n ->
  resolve fs (mkPath true ps) = Done ps.
Proof.
  intros Hps L. unfold resolve, start. cbn [is_absolute parts].
  now apply (walk_plain_exists (root fs) ps Hps [] n).
Qed.

Lemma stat_plain (fs : FS) (ps : list string) (n : node) :
  all_plain ps ->
  os_stat fs (mkPath true ps) = Done n ->
  lookup (root fs) ps = Some n.
Proof.
  intros Hps. unfold os_stat, resolve, start. cbn [is_absolute parts].
  destruct (walk (root fs) [] ps) as [loc|e] eqn:Wk; [|discriminate].
  rewrite (walk_plain_done (root fs) ps Hps [] loc Wk). cbn [List.app].
  destruct (lookup (root fs) ps); [|discriminate].
  intros H. now injection H as ->.
Qed.

Lemma os_mkdir_done (fs fs' : FS) (ps : list string) :
  all_plain ps ->
  os_mkdir fs (mkPath true ps) = Done fs' ->
  lookup (root fs) ps = None
  /\ lookup (root fs') ps = Some (Dir [])
  /\ cwd fs' = cwd fs.
Proof.
  intros Hps. unfold os_mkdir, resolve, start. cbn [is_absolute parts].
  destruct (walk (root fs) [] ps) as [loc|e] eqn:Wk; [|discriminate].
  pose proof (walk_plain_done (root fs) ps Hps [] loc Wk) as E.
  cbn [List.app] in E. subst loc.
  destruct (lookup (root fs) ps) eqn:L; [discriminate|].
  intros H. injection H as <-. cbn [root cwd].
  split; [reflexivity|]. split; [|reflexivity].
  destruct ps as [|c0 ps0] using rev_ind; [discriminate L|]. clear IHps0.
  apply Forall_app in Hps as [Hps _].
  destruct (walk_parent (root fs) ps0 c0 Hps [] _ Wk) as [es0 P].
  cbn [List.app] in P. rewrite attach_snoc.
  rewrite (lookup_child _ ps0 (add_entry c0 (Dir []) es0) c0).
  - rewrite assoc_add, String.eqb_refl.
    rewrite (lookup_child _ ps0 es0 c0 P) in L. now rewrite L.
  - now apply lookup_alter_same.
Qed.

Lemma os_mkdir_enoent (fs : FS) (ps : list string) (c : string) :
  all_plain ps ->
  os_mkdir fs (mkPath true (ps ++ [c])) = Fail ENOENT ->
  lookup (root fs) ps = None.
Proof.
  intros Hps. unfold os_mkdir, resolve, start. cbn [is_absolute parts].
  destruct (walk (root fs) [] (ps ++ [c])) as [loc|e] eqn:Wk.
  - destruct (lookup (root fs) loc); discriminate.
  - intros H. injection H as ->.
    now apply (walk_enoent (root fs) ps c Hps []).
Qed.

Lemma mkdir_rec_eq (fuel : nat) (parents exist_ok : bool) (p : Path)
    (fs : FS) :
  mkdir_rec fuel parents exist_ok p fs =
    match os_mkdir fs p with
    | Done fs' => (Ok tt, fs')
    | Fail ENOENT =>
        match parents, parts p, fuel with
        | false, _, _ => (Raise (OSError ENOENT), fs)
        | true, [], _ => (Raise (OSError ENOENT), fs)
        | true, _ :: _, O => (OutOfFuel, fs)
        | true, _ :: _, S fuel' =>
            bind (mkdir_rec fuel' true true (parent p))
                 (fun _ => mkdir_rec fuel' false exist_ok p) fs
        end
    | Fail e =>
        if negb exist_ok || negb (Path_is_dir fs p)
        then (Raise (OSError e), fs)
        else (Ok tt, fs)
    end.
Proof. destruct fuel; reflexivity. Qed.

Lemma is_dir_plain (fs : FS) (ps : list string) :
  all_plain ps ->
  Path_is_dir fs (mkPath true ps) = true ->
  exists es, lookup (root fs) ps = Some (Dir es).
Proof.
  intros Hps. unfold Path_is_dir.
  destruct (os_stat fs (mkPath true ps)) as [n|e] eqn:S; [|discriminate].
  destruct n as [|es]; [discriminate|]. intros _.
  exists es. now apply stat_plain.
Qed.

(** What a successful [mkdir] leaves: the path is a directory, an empty
    one if it was not there before. *)
Lemma mkdir_rec_post (fuel : nat) :
  forall (ps : list string) (parents exist_ok : bool) (fs fs' : FS),
    all_plain ps ->
    mkdir_rec fuel parents exist_ok (mkPath true ps) fs = (Ok tt, fs') ->
    cwd fs' = cwd fs
    /\ exists es', lookup (root fs') ps = Some (Dir es')
                   /\ (lookup (root fs) ps = None -> es' = []).
Proof.
  induction fuel as [|fuel IH]; intros ps parents exist_ok fs fs' Hps H;
    rewrite mkdir_rec_eq in H;
    destruct (os_mkdir fs (mkPath true ps)) as [fs1|e] eqn:Mk.
  1, 3: injection H as <-;
        destruct (os_mkdir_done fs fs1 ps Hps Mk) as [L0 [L1 C]];
        split; [exact C|]; exists []; now split.
  all: destruct e;
    try (destruct (negb exist_ok || negb (Path_is_dir fs (mkPath true ps)))
           eqn:Ex; [discriminate H|];
         injection H as <-; apply orb_false_iff in Ex as [_ Ex];
         apply negb_false_iff in Ex;
         destruct (is_dir_plain fs ps Hps Ex) as [es L];
         split; [reflexivity|]; exists es; split; [exact L|];
         rewrite L; discriminate).
  - destruct parents; [|discriminate H].
    cbn [parts] in H. destruct ps; discriminate H.
  - destruct parents; [|discriminate H].
    cbn [parts] in H.
    destruct ps as [|c0 ps0] using rev_ind; [discriminate H|]. clear IHps0.
    assert (E : match ps0 ++ [c0] with
                | [] => (Raise (OSError ENOENT), fs)
                | _ :: _ =>
                    bind (mkdir_rec fuel true true
                            (parent (mkPath true (ps0 ++ [c0]))))
                      (fun _ => mkdir_rec fuel false exist_ok
                                  (mkPath true (ps0 ++ [c0]))) fs
                end = (Ok tt, fs'))
      by exact H.
    clear H. destruct (ps0 ++ [c0]) as [|x l] eqn:Eps.
    { destruct ps0; discriminate Eps. }
    rewrite <- Eps in *. clear x l Eps.
    unfold parent in E. cbn [is_absolute parts] in E.
    rewrite removelast_last in E. unfold bind in E.
    pose proof Hps as Hall. apply Forall_app in Hps as [Hps0 _].
    destruct (mkdir_rec fuel true true (mkPath true ps0) fs)
      as [[[]| |] fs1] eqn:R1; try discriminate E.
    destruct (IH ps0 true true fs fs1 Hps0 R1) as [C1 [e1 [L1 N1]]].
    destruct (IH (ps0 ++ [c0]) false exist_ok fs1 fs' Hall E)
      as [C2 [e2 [L2 N2]]].
    split; [congruence|]. exists e2. split; [exact L2|].
    intros _. apply N2.
    rewrite (lookup_child _ ps0 e1 c0 L1).
    rewrite (N1 (os_mkdir_enoent fs ps0 c0 Hps0 Mk)). reflexivity.
Qed.

Lemma no_file_on_parent (r : node) (ps : location) (c : string) :
  no_file_on r (ps ++ [c]) -> no_file_on r ps.
Proof.
  intros H k m sz E.
  destruct (Nat.le_gt_cases k (List.length ps)) as [Hk|Hk].
  - apply (H k m sz). rewrite firstn_app.
    replace (k - List.length ps) with 0 by lia.
    cbn [firstn]. now rewrite app_nil_r.
  - rewrite firstn_all2 in E by lia.
    apply (H (List.length ps) m sz). rewrite firstn_app, Nat.sub_diag.
    cbn [firstn]. now rewrite app_nil_r, firstn_all.
Qed.

Lemma no_file_on_self (r : node) (ps : location) (m sz : Z) :
  no_file_on r ps -> lookup r ps <> Some (File m sz).
Proof. intros H E. apply (H (List.length ps) m sz). now rewrite firstn_all. Qed.

(** Along plain names with no regular file in the way, resolution can
    only fail for want of an entry. *)
Lemma walk_fail_enoent (r : node) (ps : list string) :
  all_plain ps ->
  forall st e,
    (forall k m sz, lookup r (st ++ firstn k ps) <> Some (File m sz)) ->
    walk r st ps = Fail e -> e = ENOENT.
Proof.
  induction 1 as [|c ps Hc _ IH]; intros st e NF H; simpl in H.
  - discriminate H.
  - destruct (lookup r st) as [[m sz|es]|] eqn:L.
    + exfalso. apply (NF 0 m sz). cbn [firstn]. now rewrite app_nil_r.
    + rewrite (plain_not_dotdot c Hc) in H.
      apply (IH (st ++ [c]) e); [|exact H].
      intros k m sz E. apply (NF (S k) m sz). cbn [firstn].
      now rewrite <- app_assoc in E.
    + now injection H as <-.
Qed.

(** [mkdir] with [parents] and [exist_ok] succeeds when no regular file
    stands in the way. *)
Lemma mkdir_rec_total (fuel : nat) :
  forall (ps : list string) (fs : FS),
    all_plain ps ->
    List.length ps <= fuel ->
    is_dir_node (root fs) = true ->
    no_file_on (root fs) ps ->
    exists fs', mkdir_rec fuel true true (mkPath true ps) fs = (Ok tt, fs').
Proof.
  induction fuel as [|fuel IH]; intros ps fs Hps Hlen Hroot NF;
    rewrite mkdir_rec_eq.
  - destruct ps; [|cbn in Hlen; lia].
    unfold os_mkdir, resolve, start. cbn [is_absolute parts walk lookup].
    unfold Path_is_dir, os_stat, resolve, start.
    cbn [is_absolute parts walk lookup]. rewrite Hroot.
    now exists fs.
  - destruct ps as [|c0 ps0] using rev_ind.
    + unfold os_mkdir, resolve, start. cbn [is_absolute parts walk lookup].
      unfold Path_is_dir, os_stat, resolve, start.
      cbn [is_absolute parts walk lookup]. rewrite Hroot.
      now exists fs.
    + clear IHps0. pose proof Hps as Hall.
      apply Forall_app in Hps as [Hps0 Hc0].
      rewrite List.length_app in Hlen. cbn [List.length] in Hlen.
      pose proof (no_file_on_parent _ _ _ NF) as NF0.
      destruct (os_mkdir fs (mkPath true (ps0 ++ [c0]))) as [fs1|e] eqn:Mk;
        [now exists fs1|].
      assert (Cases : e = ENOENT \/ e = EEXIST).
      { revert Mk. unfold os_mkdir, resolve, start.
        cbn [is_absolute parts].
        destruct (walk (root fs) [] (ps0 ++ [c0])) as [loc|e'] eqn:Wk.
        - destruct (lookup (root fs) loc); intros E; [|discriminate E].
          injection E as <-. now right.
        - intros E. injection E as <-. left.
          apply (walk_fail_enoent (root fs) (ps0 ++ [c0]) Hall [] e');
            [|exact Wk].
          intros k m sz. cbn [List.app]. apply NF. }
      destruct Cases as [-> | ->].
      * cbn [parts].
        destruct (ps0 ++ [c0]) as [|x l] eqn:Eps;
          [destruct ps0; discriminate Eps|].
        rewrite <- Eps in *. clear x l Eps.
        unfold parent. cbn [is_absolute parts]. rewrite removelast_last.
        destruct (IH ps0 fs Hps0 ltac:(lia) Hroot NF0) as [fs1 R1].
        unfold bind. rewrite R1.
        destruct (mkdir_rec_post fuel ps0 true true fs fs1 Hps0 R1)
          as [_ [e1 [L1 N1]]].
        rewrite (N1 (os_mkdir_enoent fs ps0 c0 Hps0 Mk)) in L1.
        rewrite mkdir_rec_eq.
        assert (Mk1 : exists fs2,
                   os_mkdir fs1 (mkPath true (ps0 ++ [c0])) = Done fs2).
        { unfold os_mkdir.
          assert (R : resolve fs1 (mkPath true (ps0 ++ [c0]))
                      = Done (ps0 ++ [c0])).
          { unfold resolve, start. cbn [is_absolute parts].
            rewrite walk_app.
            rewrite (walk_plain_exists (root fs1) ps0 Hps0 [] _ L1).
            cbn [List.app walk]. rewrite L1.
            inversion Hc0 as [|? ? Hc _]; subst.
            now rewrite (plain_not_dotdot c0 Hc). }
          rewrite R, (lookup_child _ ps0 [] c0 L1). cbn [assoc].
          eexists. reflexivity. }
        destruct Mk1 as [fs2 ->]. now exists fs2.
      * assert (D : Path_is_dir fs (mkPath true (ps0 ++ [c0])) = true).
        { revert Mk. unfold os_mkdir, Path_is_dir, os_stat.
          destruct (resolve fs (mkPath true (ps0 ++ [c0]))) as [loc|e'] eqn:R.
          2:{ intros E. injection E as ->. exfalso.
              unfold resolve, start in R. cbn [is_absolute parts] in R.
              assert (X : EEXIST = ENOENT); [|discriminate X].
              apply (walk_fail_enoent (root fs) (ps0 ++ [c0]) Hall [] _);
                [|exact R].
              intros k m sz. cbn [List.app]. apply NF. }
          pose proof R as R'. unfold resolve, start in R'.
          cbn [is_absolute parts] in R'.
          apply (walk_plain_done _ _ Hall) in R'. cbn [List.app] in R'.
          subst loc.
          destruct (lookup (root fs) (ps0 ++ [c0])) as [[m sz|es]|] eqn:L;
            intros E; try discriminate E; [|reflexivity].
          exfalso. now apply (no_file_on_self _ _ m sz NF). }
        rewrite D. cbn [negb orb]. now exists fs.
Qed.

End Mkdir.
(* ================================================================== *)
(** * Creating a folder, then listing it (C9) *)

Module CreateClaims.
Import PyStr Pathlib FileSystem Py Lib Main Spec Samples.
Import StrFacts FsFacts PyFacts Listing Mkdir.

Lemma location_folder_plain (year : Z) (country city : string) :
  plain country = true -> plain city = true ->
  location_folder year country city
  = mkPath true ["content"; str_int year; country; city].
Proof.
  intros Hc Hci. unfold location_folder.
  rewrite (truediv_plain _ _ (str_int_plain year)).
  now rewrite (truediv_plain _ _ Hc), (truediv_plain _ _ Hci).
Qed.

Lemma location_parts_plain (year : Z) (country city : string) :
  plain country = true -> plain city = true ->
  all_plain ["content"; str_int year; country; city].
Proof.
  intros Hc Hci. repeat constructor; auto using str_int_plain.
Qed.

Lemma exists_false_plain (fs : FS) (ps : list string) :
  all_plain ps ->
  Path_exists fs (mkPath true ps) = false ->
  lookup (root fs) ps = None.
Proof.
  intros Hps H. destruct (lookup (root fs) ps) as [n|] eqn:L; [|reflexivity].
  unfold Path_exists in H.
  now rewrite (stat_dir fs _ ps n (resolve_plain fs ps n Hps L) L) in H.
Qed.


Lemma makeFolder_inv (fs fs' : FS) (year : Z) (country city : string)
    (p : Path) :
  makeFolder country city year fs = (Ok p, fs') ->
  p = location_folder year country city
  /\ Path_mkdir true true (location_folder year country city) fs
     = (Ok tt, fs').
Proof.
  unfold makeFolder, bind, ret.
  destruct (Path_mkdir true true (location_folder year country city) fs)
    as [[[]| |] fs1]; try discriminate.
  intros H. injection H as <- <-. now split.
Qed.


(** Nor does it hold for every absent folder: with [..] for city the
    path names the year directory once the country directory is made. *)
Lemma create_then_list_dotdot :
  ~ (forall (fs : FS) (year : Z) (country city : string) (p : Path)
            (fs' : FS),
        Path_exists fs (location_folder year country city) = false ->
        makeFolder country city year fs = (Ok p, fs') ->
        fst (viewFolder country city year fs') = Ok []).
Proof.
  intros H.
  pose proof (H fs_year_pic 2023%Z "France" ".."
                (location_folder 2023 "France" "..")
                (snd (makeFolder "France" ".." 2023 fs_year_pic))
                eq_refl eq_refl)
    as C.
  vm_compute in C. discriminate C.
Qed.




End CreateClaims.
(* ================================================================== *)
(** * Renaming: how lookups change *)

Module Rename.
Import PyStr Pathlib FileSystem Py Lib Main Spec.
Import StrFacts FsFacts PyFacts Listing Mkdir.

Lemma dirness_below (n : node) (key : string) (rest : location) :
  is_dir_node n = false -> dirness (lookup n (key :: rest)) = false.
Proof. destruct n; [reflexivity|discriminate]. Qed.

Lemma dirness_is_dir (o : option node) :
  dirness o = true -> exists es, o = Some (Dir es).
Proof. destruct o as [[|es]|]; try discriminate. intros _. now exists es. Qed.

Lemma lookup_step (es : entries) (key : string) (rest : location) :
  lookup (Dir es) (key :: rest)
  = match assoc key es with
    | Some n => lookup n rest
    | None => None
    end.
Proof. reflexivity. Qed.

Lemma lookup_nondir (o : option node) (k2 : string) (rest : location) :
  dirness o = false ->
  match o with Some n => lookup n (k2 :: rest) | None => None end = None.
Proof. destruct o as [[|]|]; try reflexivity. discriminate. Qed.

(** Rewriting a directory without touching its subdirectories leaves
    every other lookup with the same shallow answer. *)
Lemma shallow_alter (F : entries -> entries) (ds : location) :
  forall (r : node) (es : entries) (loc : location),
    lookup r ds = Some (Dir es) ->
    same_dirs es (F es) ->
    (forall key, loc <> ds ++ [key]) ->
    option_map shallow (lookup (alter_dir F r ds) loc)
    = option_map shallow (lookup r loc).
Proof.
  induction ds as [|c ds IH]; intros r es loc L SD Hloc.
  - simpl in L. injection L as ->. cbn [alter_dir].
    destruct loc as [|key [|k2 rest]].
    + reflexivity.
    + exfalso. now apply (Hloc key).
    + rewrite !lookup_step. destruct (SD key) as [D E].
      destruct (dirness (assoc key es)) eqn:Dk.
      * now rewrite <- (E eq_refl).
      * rewrite (lookup_nondir _ k2 rest Dk).
        symmetry in D. now rewrite (lookup_nondir _ k2 rest D).
  - destruct r as [|es0]; [discriminate L|].
    cbn [lookup] in L. cbn [alter_dir].
    destruct loc as [|key rest]; [reflexivity|].
    rewrite !lookup_step, assoc_map_alter.
    destruct (String.eqb_spec key c) as [->|Hne]; [|reflexivity].
    destruct (assoc c es0) as [n1|]; [|discriminate L]. cbn [option_map].
    apply (IH n1 es rest L SD).
    intros key E. apply (Hloc key). cbn [List.app]. now rewrite E.
Qed.

Lemma dirness_alter (F : entries -> entries) (ds : location) :
  forall (r : node) (es : entries) (loc : location),
    lookup r ds = Some (Dir es) ->
    same_dirs es (F es) ->
    dirness (lookup (alter_dir F r ds) loc) = dirness (lookup r loc).
Proof.
  induction ds as [|c ds IH]; intros r es loc L SD.
  - simpl in L. injection L as ->. cbn [alter_dir].
    destruct loc as [|key rest]; [reflexivity|].
    rewrite !lookup_step. destruct (SD key) as [D E].
    destruct (dirness (assoc key es)) eqn:Dk.
    + now rewrite <- (E eq_refl).
    + symmetry in D.
      destruct (assoc key es) as [[|]|]; try discriminate Dk;
        destruct (assoc key (F es)) as [[|]|]; try discriminate D;
        destruct rest; reflexivity.
  - destruct r as [|es0]; [discriminate L|].
    cbn [lookup] in L. cbn [alter_dir].
    destruct loc as [|key rest]; [reflexivity|].
    rewrite !lookup_step, assoc_map_alter.
    destruct (String.eqb_spec key c) as [->|Hne]; [|reflexivity].
    destruct (assoc c es0) as [n1|]; [|discriminate L]. cbn [option_map].
    now apply (IH n1 es rest L SD).
Qed.

Lemma shallow_file (o : option node) (m sz : Z) :
  option_map shallow o = Some (File m sz) -> o = Some (File m sz).
Proof. destruct o as [[|]|]; simpl; congruence. Qed.

Lemma shallow_none (o : option node) :
  option_map shallow o = None -> o = None.
Proof. destruct o; simpl; congruence. Qed.



Lemma same_dirs_trans (a b c : entries) :
  same_dirs a b -> same_dirs b c -> same_dirs a c.
Proof.
  intros H1 H2 key. destruct (H1 key) as [D1 E1], (H2 key) as [D2 E2].
  split; [congruence|].
  intros D. rewrite (E1 D). apply E2. congruence.
Qed.

Lemma same_dirs_refl (a : entries) : same_dirs a a.
Proof. intros key. split; reflexivity. Qed.

(** Resolution only depends on which locations are directories. *)
Lemma walk_same_dirness (r r' : node) :
  (forall loc, dirness (lookup r' loc) = dirness (lookup r loc)) ->
  forall ps st loc, walk r st ps = Done loc -> walk r' st ps = Done loc.
Proof.
  intros H ps. induction ps as [|c ps IH]; intros st loc Wk; simpl in *.
  - exact Wk.
  - pose proof (H st) as Hst.
    destruct (lookup r st) as [[|es]|]; try discriminate Wk.
    destruct (dirness_is_dir _ Hst) as [es' ->].
    now apply IH.
Qed.

End Rename.
(* ================================================================== *)
(** * Searching for a free name *)

Module Search.
Import PyStr Pathlib FileSystem Py Lib Main Spec.
Import StrFacts FsFacts PyFacts Listing Mkdir Rename.

Lemma first_free_spec (taken : nat -> bool) (n : nat) :
  forall k j,
    first_free taken k n = Some j ->
    k <= j < k + n /\ taken j = false
    /\ forall i, k <= i < j -> taken i = true.
Proof.
  induction n as [|n IH]; intros k j H; simpl in H; [discriminate|].
  destruct (taken k) eqn:T.
  - destruct (IH (S k) j H) as [B [F L]].
    split; [lia|]. split; [exact F|].
    intros i Hi. destruct (Nat.eq_dec i k) as [->|Hne]; [exact T|].
    apply L. lia.
  - injection H as <-. split; [lia|]. split; [exact T|]. intros i Hi. lia.
Qed.

Lemma first_free_found (taken : nat -> bool) (n : nat) :
  forall k j, k <= j < k + n -> taken j = false ->
              exists j', first_free taken k n = Some j'.
Proof.
  induction n as [|n IH]; intros k j B F; [lia|]. simpl.
  destruct (taken k) eqn:T; [|now exists k].
  apply (IH (S k) j); [|exact F].
  destruct (Nat.eq_dec j k) as [->|Hne]; [congruence|lia].
Qed.

Lemma forallb_false {A} (f : A -> bool) (l : list A) :
  forallb f l = false -> exists x, In x l /\ f x = false.
Proof.
  induction l as [|x l IH]; simpl; [discriminate|].
  destruct (f x) eqn:E.
  - intros H. destruct (IH H) as [y [Hy Fy]]. exists y. auto.
  - intros _. exists x. auto.
Qed.

Lemma NoDup_map_inj {A B} (f : A -> B) (l : list A) :
  (forall a b, f a = f b -> a = b) -> NoDup l -> NoDup (map f l).
Proof.
  intros Inj. induction 1 as [|x l Hx _ IH]; simpl; constructor; auto.
  intros Hin. apply in_map_iff in Hin as [y [E Hy]].
  apply Inj in E. now subst.
Qed.

(** Among more candidates than there are names, one is not a name. *)
Lemma pigeon (f : nat -> string) (l : list string) (k : nat) :
  (forall a b, f a = f b -> a = b) ->
  exists j, k <= j < k + (List.length l + 1) /\ mem (f j) l = false.
Proof.
  intros Inj.
  destruct (forallb (fun j => mem (f j) l) (seq k (List.length l + 1)))
    eqn:All.
  - exfalso. rewrite forallb_forall in All.
    assert (ND : NoDup (map f (seq k (List.length l + 1)))).
    { apply NoDup_map_inj; [exact Inj|apply seq_NoDup]. }
    assert (Inc : incl (map f (seq k (List.length l + 1))) l).
    { intros x Hx. apply in_map_iff in Hx as [j [<- Hj]].
      apply mem_In. now apply All. }
    pose proof (NoDup_incl_length ND Inc) as Len.
    rewrite length_map, length_seq in Len. lia.
  - apply forallb_false in All as [j [Hj Fj]].
    apply in_seq in Hj. exists j. split; [lia|exact Fj].
Qed.

Lemma first_free_pigeon (f : nat -> string) (l : list string) (k : nat) :
  (forall a b, f a = f b -> a = b) ->
  exists j, first_free (fun i => mem (f i) l) k (List.length l + 1) = Some j.
Proof.
  intros Inj. destruct (pigeon f l k Inj) as [j [B F]].
  now apply (first_free_found _ _ k j).
Qed.

(** The loops [while p.exists(): p = dir / name(counter); counter += 1]
    of [sortDate] and [moveFolder]: when the path tried first is taken,
    the loop stops at the first counter whose name is free. *)
Lemma while_search (fs : FS) (cand : nat -> Path)
    (cond : Path * nat -> M bool) (body : Path * nat -> M (Path * nat))
    (n : nat) :
  (forall q c, cond (q, c) fs = (Ok (Path_exists fs q), fs)) ->
  (forall q c, body (q, c) fs = (Ok (cand c, c + 1), fs)) ->
  forall (k j fuel : nat) (p : Path),
    Path_exists fs p = true ->
    first_free (fun i => Path_exists fs (cand i)) k n = Some j ->
    n < fuel ->
    while fuel cond body (p, k) fs = (Ok (cand j, j + 1), fs).
Proof.
  intros Hc Hb.
  induction n as [|n IH]; intros k j fuel p Hp H Hf; simpl in H;
    [discriminate|].
  destruct fuel as [|fuel]; [lia|].
  cbn [while]. unfold bind at 1. rewrite Hc, Hp.
  unfold bind at 1. rewrite Hb, Nat.add_1_r.
  destruct (Path_exists fs (cand k)) eqn:T.
  - apply IH; [exact T|exact H|lia].
  - injection H as <-. destruct fuel as [|fuel]; [lia|].
    cbn [while]. unfold bind, ret. rewrite Hc, T.
    now rewrite Nat.add_1_r.
Qed.

Lemma while_free (fs : FS) (cond : Path * nat -> M bool)
    (body : Path * nat -> M (Path * nat)) (fuel k : nat) (p : Path) :
  (forall q c, cond (q, c) fs = (Ok (Path_exists fs q), fs)) ->
  Path_exists fs p = false ->
  0 < fuel ->
  while fuel cond body (p, k) fs = (Ok (p, k), fs).
Proof.
  intros Hc Hp Hf. destruct fuel as [|fuel]; [lia|].
  cbn [while]. unfold bind, ret. now rewrite Hc, Hp.
Qed.

Lemma first_free_ext (t1 t2 : nat -> bool) (n : nat) :
  (forall i, t1 i = t2 i) ->
  forall k, first_free t1 k n = first_free t2 k n.
Proof.
  intros E. induction n as [|n IH]; intros k; simpl; [reflexivity|].
  now rewrite E, IH.
Qed.

(** Whether a plain name is taken in a directory. *)
Lemma exists_child (fs : FS) (p : Path) (d : location) (es : entries)
    (k : string) :
  resolve fs p = Done d ->
  lookup (root fs) d = Some (Dir es) ->
  plain k = true ->
  Path_exists fs (truediv p k) = mem k (names es).
Proof.
  intros Hp Hd Hk. rewrite (truediv_plain p k Hk). unfold Path_exists.
  rewrite (os_stat_child fs p d es k Hp Hd (plain_not_dotdot k Hk)).
  rewrite assoc_mem. now destruct (assoc k es).
Qed.

Lemma loc_eqb_eq (a b : location) : loc_eqb a b = true -> a = b.
Proof.
  revert b. induction a as [|x a IH]; intros [|y b] H; simpl in H;
    try discriminate; [reflexivity|].
  apply andb_true_iff in H as [E H]. apply String.eqb_eq in E.
  subst. f_equal. now apply IH.
Qed.

(** Renaming a regular file to a name that is free. *)
Lemma os_rename_file (fs : FS) (ps pd : Path) (ds dd : location)
    (es_s es_d : entries) (k k' : string) (m sz : Z) :
  resolve fs ps = Done ds ->
  lookup (root fs) ds = Some (Dir es_s) ->
  assoc k es_s = Some (File m sz) ->
  (k =? "..") = false ->
  resolve fs pd = Done dd ->
  lookup (root fs) dd = Some (Dir es_d) ->
  assoc k' es_d = None ->
  (k' =? "..") = false ->
  os_rename fs (child ps k) (child pd k')
  = Done (mkFS (alter_dir (add_entry k' (File m sz))
                  (alter_dir (remove_entry k) (root fs) ds) dd)
               (cwd fs)).
Proof.
  intros Hps Hds Hk Hkd Hpd Hdd Hk' Hkd'. unfold os_rename.
  rewrite (resolve_child fs ps ds es_s k Hps Hds Hkd).
  rewrite (lookup_child _ ds es_s k Hds), Hk.
  rewrite (resolve_child fs pd dd es_d k' Hpd Hdd Hkd').
  rewrite (lookup_child _ dd es_d k' Hdd), Hk'.
  destruct (loc_eqb (ds ++ [k]) (dd ++ [k'])) eqn:E.
  - apply loc_eqb_eq in E.
    pose proof (lookup_child _ ds es_s k Hds) as L1.
    pose proof (lookup_child _ dd es_d k' Hdd) as L2.
    rewrite E in L1. congruence.
  - destruct (ds ++ [k]) as [|x l] eqn:Eds.
    + destruct ds; discriminate Eds.
    + rewrite <- Eds. now rewrite attach_snoc, detach_snoc.
Qed.

End Search.
(* ================================================================== *)
(** * Moving an image onto a name that is taken (C10) *)

Module Move.
Import PyStr Pathlib FileSystem Py Lib Main Spec Samples.
Import StrFacts FsFacts PyFacts Listing Mkdir Rename Search.

Lemma name_Path_of_plain (k : string) :
  plain k = true -> name (Path_of k) = k.
Proof.
  intros H. unfold name, Path_of. cbn [parts].
  now rewrite (parts_of_str_plain k H).
Qed.

Lemma move_name_plain_name (k : string) (j : nat) :
  plain k = true -> move_name (Path_of k) j = renamed k j.
Proof.
  intros H. unfold move_name, renamed, stem, suffix.
  now rewrite (name_Path_of_plain k H).
Qed.

Lemma name_stem_no_slash (k : string) :
  all_chars no_slash k = true -> all_chars no_slash (name_stem k) = true.
Proof.
  intros H. unfold name_stem. destruct (suffix_index k); [|exact H].
  now apply all_chars_substring.
Qed.

Lemma name_suffix_no_slash (k : string) :
  all_chars no_slash k = true -> all_chars no_slash (name_suffix k) = true.
Proof.
  intros H. unfold name_suffix. destruct (suffix_index k); [|reflexivity].
  now apply all_chars_substring.
Qed.

Lemma renamed_plain (k : string) (j : nat) :
  plain k = true -> plain (renamed k j) = true.
Proof.
  intros H. apply plain_no_slash in H. unfold renamed.
  apply underscore_plain; [now apply name_stem_no_slash|].
  rewrite all_chars_app, (name_suffix_no_slash k H), andb_true_r.
  apply (all_chars_impl is_digit); [apply is_digit_no_slash|].
  apply digits_str_nat.
Qed.

Lemma renamed_inj (k : string) (a b : nat) :
  renamed k a = renamed k b -> a = b.
Proof.
  unfold renamed. intros H.
  apply app_inv_head_str in H. injection H as H.
  apply app_inv_tail_str in H. now apply str_nat_inj.
Qed.

(** [shutil.move] of a regular file onto a free name of a directory. *)
Lemma shutil_move_file (fs : FS) (ps pd : Path) (ds dd : location)
    (es_s es_d : entries) (k k' : string) (m sz : Z) :
  normal ps -> normal pd -> plain k = true -> plain k' = true ->
  resolve fs ps = Done ds ->
  lookup (root fs) ds = Some (Dir es_s) ->
  assoc k es_s = Some (File m sz) ->
  resolve fs pd = Done dd ->
  lookup (root fs) dd = Some (Dir es_d) ->
  assoc k' es_d = None ->
  shutil_move (str (truediv ps k)) (str (truediv pd k')) fs
  = (Ok tt,
     mkFS (alter_dir (add_entry k' (File m sz))
             (alter_dir (remove_entry k) (root fs) ds) dd)
          (cwd fs)).
Proof.
  intros Nps Npd Hk Hk' Hps Hds Ak Hpd Hdd Ak'.
  unfold shutil_move.
  rewrite (Path_of_str _ (normal_truediv ps k Nps)).
  rewrite (Path_of_str _ (normal_truediv pd k' Npd)).
  rewrite (truediv_plain ps k Hk), (truediv_plain pd k' Hk').
  unfold bind at 1, gets at 1. unfold Path_is_dir.
  rewrite (os_stat_child fs pd dd es_d k' Hpd Hdd (plain_not_dotdot k' Hk')).
  rewrite Ak'. unfold move_into, try_except, try_, syscall.
  now rewrite (os_rename_file fs ps pd ds dd es_s es_d k k' m sz Hps Hds Ak
                 (plain_not_dotdot k Hk) Hpd Hdd Ak'
                 (plain_not_dotdot k' Hk')).
Qed.

Lemma mem_assoc_some (k : string) (es : entries) (n : node) :
  assoc k es = Some n -> mem k (names es) = true.
Proof. intros H. now rewrite assoc_mem, H. Qed.

Lemma mem_assoc_none (k : string) (es : entries) :
  mem k (names es) = false -> assoc k es = None.
Proof. rewrite assoc_mem. now destruct (assoc k es). Qed.

(** The run of [moveFolder] when the destination holds the name. *)
Lemma moveFolder_steps (fs : FS) (fuel : nat)
    (imageId sourceFolder destination : string) (ds dd : location)
    (es_s es_d : entries) (m sz : Z) (other : node) (j : nat) :
  plain imageId = true ->
  resolve fs (Path_of sourceFolder) = Done ds ->
  lookup (root fs) ds = Some (Dir es_s) ->
  assoc imageId es_s = Some (File m sz) ->
  resolve fs (Path_of destination) = Done dd ->
  lookup (root fs) dd = Some (Dir es_d) ->
  assoc imageId es_d = Some other ->
  first_free (fun i => mem (renamed imageId i) (names es_d)) 1
    (List.length es_d + 1) = Some j ->
  List.length es_d + 1 < fuel ->
  moveFolder fuel (VStr imageId) (VPath (Path_of destination))
    (VStr sourceFolder) fs
  = (Ok tt,
     mkFS (alter_dir (add_entry (renamed imageId j) (File m sz))
             (alter_dir (remove_entry imageId) (root fs) ds) dd)
          (cwd fs)).
Proof.
  intros Hk Hps Hds Ak Hpd Hdd Ak' FF Hf.
  set (dest := Path_of destination) in *.
  set (cand := fun c : nat => truediv dest (renamed imageId c)).
  assert (Taken : forall i, Path_exists fs (cand i)
                            = mem (renamed imageId i) (names es_d)).
  { intros i. apply (exists_child fs dest dd es_d _ Hpd Hdd).
    now apply renamed_plain. }
  unfold moveFolder.
  unfold bind at 1, py_Path at 1, ret at 1.
  unfold bind at 1, path_truediv at 1, ret at 1.
  unfold bind at 1, gets at 1. unfold Path_exists at 1.
  rewrite (stat_dir fs _ dd _ Hpd Hdd). cbn [negb].
  unfold bind at 1, ret at 1.
  unfold bind at 1, path_truediv at 1, ret at 1.
  unfold bind at 1.
  rewrite (while_search fs cand _ _ (List.length es_d + 1)) with (j := j).
  - cbn [fst]. unfold bind at 1, gets at 1.
    rewrite (exists_child fs _ ds es_s imageId Hps Hds Hk).
    rewrite (mem_assoc_some imageId es_s _ Ak). cbn [negb]. unfold cand.
    apply (shutil_move_file fs _ dest ds dd es_s es_d); auto.
    + apply normal_Path_of.
    + apply normal_Path_of.
    + now apply renamed_plain.
    + apply mem_assoc_none.
      now destruct (first_free_spec _ _ _ _ FF) as [_ [F _]].
  - intros q c. reflexivity.
  - intros q c. unfold bind, py_Path, ret, cand.
    now rewrite (move_name_plain_name imageId c Hk).
  - rewrite (exists_child fs dest dd es_d imageId Hpd Hdd Hk).
    now apply (mem_assoc_some imageId es_d other).
  - rewrite <- FF. now apply first_free_ext.
  - exact Hf.
Qed.




End Move.
(* ================================================================== *)
(** * Sorting on a key *)

Module SortFacts.
Import PyStr Pathlib FileSystem Py Lib Main Spec.

Section Keyed.
Context {A : Type} (key : A -> Z).

Lemma insert_by_perm (x : A) (l : list A) :
  Permutation (insert_by key x l) (x :: l).
Proof.
  induction l as [|y l IH]; simpl; [reflexivity|].
  destruct (key y <? key x)%Z; [|reflexivity].
  rewrite IH. apply perm_swap.
Qed.

Lemma sort_by_perm (l : list A) : Permutation (sort_by key l) l.
Proof.
  induction l as [|x l IH]; simpl; [reflexivity|].
  unfold sort_by in *. simpl. rewrite insert_by_perm. now constructor.
Qed.



End Keyed.

Lemma insert_by_map {A B} (key : B -> Z) (f : A -> B) (x : A) (l : list A) :
  insert_by key (f x) (map f l) = map f (insert_by (fun a => key (f a)) x l).
Proof.
  induction l as [|y l IH]; simpl; [reflexivity|].
  destruct (key (f y) <? key (f x))%Z; simpl; [now rewrite IH|reflexivity].
Qed.

Lemma sort_by_map {A B} (key : B -> Z) (f : A -> B) (l : list A) :
  sort_by key (map f l) = map f (sort_by (fun a => key (f a)) l).
Proof.
  induction l as [|x l IH]; [reflexivity|].
  unfold sort_by in *. simpl. now rewrite IH, insert_by_map.
Qed.


(** A list already in order is left as it is: files with equal dates keep
    the order in which they were enumerated. *)
Lemma sort_by_sorted_id {A} (key : A -> Z) (l : list A) :
  StronglySorted (key_le key) l -> sort_by key l = l.
Proof.
  induction 1 as [|x l Hs IH Hx]; [reflexivity|].
  unfold sort_by in *. cbn [fold_right]. rewrite IH.
  destruct l as [|y l]; [reflexivity|]. cbn [insert_by].
  inversion Hx as [|? ? Hxy _]; subst. unfold key_le in Hxy.
  destruct (Z.ltb_spec (key y) (key x)) as [Hlt|_]; [lia|reflexivity].
Qed.

Lemma by_mtime_perm (es : entries) :
  Permutation (by_mtime es) (filter regular es).
Proof. apply sort_by_perm. Qed.


End SortFacts.
(* ================================================================== *)
(** * Sorting a folder by date *)

Module SortDate.
Import PyStr Pathlib FileSystem Py Lib Main Spec.
Import StrFacts FsFacts PyFacts Listing Mkdir Rename Search Move SortFacts.

Lemma map_M_read {A B} (f : A -> M B) (g : A -> B) (l : list A) (fs : FS) :
  (forall x, In x l -> f x fs = (Ok (g x), fs)) ->
  map_M f l fs = (Ok (map g l), fs).
Proof.
  induction l as [|x l IH]; intros H; simpl; [reflexivity|].
  unfold bind. rewrite (H x (or_introl eq_refl)).
  rewrite IH; [reflexivity|]. intros y Hy. apply H. now right.
Qed.

Lemma alter_alter (f g : entries -> entries) (d : location) :
  forall r, alter_dir g (alter_dir f r d) d
            = alter_dir (fun es => g (f es)) r d.
Proof.
  induction d as [|c d IH]; intros [m sz|es]; cbn [alter_dir];
    try reflexivity.
  f_equal. rewrite map_map. apply map_ext. intros [k n]. cbn [fst snd].
  destruct (k =? c) eqn:E; cbn [fst snd]; rewrite E; [|reflexivity].
  now rewrite IH.
Qed.

Lemma alter_id (d : location) :
  forall r, alter_dir (fun es => es) r d = r.
Proof.
  induction d as [|c d IH]; intros [m sz|es]; cbn [alter_dir];
    try reflexivity.
  f_equal. rewrite <- (map_id es) at 2. apply map_ext. intros [k n].
  cbn [fst snd]. destruct (k =? c); [now rewrite IH|reflexivity].
Qed.

(** In a well-formed tree a location names one directory, so that
    rewriting it only depends on what it holds. *)
Lemma alter_const (F : entries -> entries) (d : location) :
  forall (r : node) (es : entries),
    (forall loc e, lookup r loc = Some (Dir e) -> wf_entries e) ->
    lookup r d = Some (Dir es) ->
    alter_dir F r d = alter_dir (fun _ => F es) r d.
Proof.
  induction d as [|c d IH]; intros r es W L.
  - simpl in L. injection L as ->. reflexivity.
  - destruct r as [|es0]; [discriminate L|]. cbn [lookup] in L.
    cbn [alter_dir]. f_equal. apply map_ext_in. intros [k n] Hin.
    cbn [fst snd]. destruct (String.eqb_spec k c) as [->|Hne]; [|reflexivity].
    f_equal.
    destruct (W [] es0 eq_refl) as [ND _].
    rewrite (assoc_In c n es0 ND Hin) in L.
    apply IH; [|exact L].
    intros loc e Hl. apply (W (c :: loc)). cbn [lookup].
    now rewrite (assoc_In c n es0 ND Hin).
Qed.

Lemma sort_name_plain (i : nat) (k : string) :
  all_chars no_slash k = true -> plain (sort_name i k) = true.
Proof.
  intros H. unfold sort_name.
  apply prefixed_plain; [apply fmt_03d_nonempty|apply digits_fmt_03d|].
  exact H.
Qed.

Lemma sort_name_n_plain (i c : nat) (k : string) :
  all_chars no_slash k = true -> plain (sort_name_n i c k) = true.
Proof.
  intros H. unfold sort_name_n.
  apply prefixed_plain; [apply fmt_03d_nonempty|apply digits_fmt_03d|].
  change (all_chars no_slash (String "_" (str_nat c ++ String "_" k)) = true).
  cbn [all_chars]. rewrite all_chars_app. cbn [all_chars]. rewrite H.
  rewrite (all_chars_impl is_digit no_slash _ is_digit_no_slash
             (digits_str_nat c)).
  reflexivity.
Qed.

Lemma sort_name_n_inj (i : nat) (k : string) (a b : nat) :
  sort_name_n i a k = sort_name_n i b k -> a = b.
Proof.
  unfold sort_name_n. intros H.
  apply app_inv_head_str in H. injection H as H.
  apply app_inv_tail_str in H. now apply str_nat_inj.
Qed.

Lemma free_name_free (taken : list string) (i : nat) (k : string) :
  mem (free_name taken i k) taken = false.
Proof.
  unfold free_name. destruct (mem (sort_name i k) taken) eqn:T; [|exact T].
  destruct (first_free_pigeon (fun c => sort_name_n i c k) taken 1
              (sort_name_n_inj i k)) as [j FF].
  rewrite FF. now destruct (first_free_spec _ _ _ _ FF) as [_ [F _]].
Qed.

Lemma free_name_plain (taken : list string) (i : nat) (k : string) :
  all_chars no_slash k = true -> plain (free_name taken i k) = true.
Proof.
  intros H. unfold free_name.
  destruct (mem (sort_name i k) taken); [|now apply sort_name_plain].
  destruct (first_free _ 1 _);
    [now apply sort_name_n_plain|now apply sort_name_plain].
Qed.

Lemma move_entry_file (k k' : string) (es : entries) (n : node) :
  assoc k es = Some n ->
  move_entry k k' es = add_entry k' n (remove_entry k es).
Proof. intros H. unfold move_entry. now rewrite H. Qed.

Lemma assoc_moved (k k' key : string) (es : entries) (n : node) :
  assoc k es = Some n -> assoc k' es = None ->
  assoc key (add_entry k' n (remove_entry k es))
  = if key =? k then None
    else if key =? k' then Some n else assoc key es.
Proof.
  intros A A'. rewrite assoc_add, assoc_remove.
  destruct (String.eqb_spec key k) as [->|Hk].
  - destruct (String.eqb_spec k k') as [E|_]; [congruence|reflexivity].
  - destruct (String.eqb_spec key k') as [->|Hk'].
    + now rewrite A'.
    + now destruct (assoc key es).
Qed.

Lemma names_add (k : string) (n : node) (es : entries) :
  names (add_entry k n es) = names es ++ [k].
Proof. unfold names, add_entry. now rewrite map_app. Qed.

Lemma names_remove (k : string) (es : entries) :
  names (remove_entry k es) = filter (fun x => negb (x =? k)) (names es).
Proof.
  unfold names, remove_entry.
  induction es as [|[k0 n] es IH]; simpl; [reflexivity|].
  destruct (k0 =? k); simpl; now rewrite IH.
Qed.

Lemma length_remove (k : string) (es : entries) (n : node) :
  assoc k es = Some n ->
  List.length (remove_entry k es) < List.length es.
Proof.
  unfold remove_entry.
  induction es as [|[k0 n0] es IH]; simpl; [discriminate|].
  destruct (String.eqb_spec k k0) as [->|Hne].
  - intros _. rewrite String.eqb_refl. simpl.
    pose proof (filter_length_le (fun e => negb (fst e =? k0)) es). lia.
  - intros A. specialize (IH A).
    destruct (k0 =? k); simpl; lia.
Qed.

Lemma wf_entries_moved (k k' : string) (es : entries) (n : node) :
  wf_entries es -> assoc k' es = None -> plain k' = true ->
  wf_entries (add_entry k' n (remove_entry k es)).
Proof.
  intros [ND PL] A' Hk'. split.
  - rewrite names_add, names_remove.
    apply NoDup_app; [now apply NoDup_filter| |].
    + constructor; [intros []|constructor].
    + intros x Hx [<-|[]]. apply filter_In in Hx as [Hx _].
      now apply assoc_names in A'.
  - rewrite names_add, names_remove. apply Forall_app. split.
    + apply Forall_forall. intros x Hx. apply filter_In in Hx as [Hx _].
      rewrite Forall_forall in PL. now apply PL.
    + now constructor.
Qed.

Lemma same_dirs_moved (k k' : string) (es : entries) (m sz : Z) :
  assoc k es = Some (File m sz) -> assoc k' es = None ->
  same_dirs es (add_entry k' (File m sz) (remove_entry k es)).
Proof.
  intros A A' key. rewrite (assoc_moved k k' key es _ A A').
  destruct (String.eqb_spec key k) as [->|Hk].
  - rewrite A. split; [reflexivity|discriminate].
  - destruct (String.eqb_spec key k') as [->|Hk'].
    + rewrite A'. split; [reflexivity|discriminate].
    + split; reflexivity.
Qed.

(** The search for a free name, as the loop of [sortDate] runs it. *)
Lemma sort_search (fs : FS) (fuel : nat) (p : Path) (d : location)
    (es : entries) (i : nat) (k : string) :
  resolve fs p = Done d ->
  lookup (root fs) d = Some (Dir es) ->
  all_chars no_slash k = true ->
  List.length es + 1 < fuel ->
  exists c,
    while fuel
      (fun '(new_file_path, _) =>
         gets (fun fs => Path_exists fs new_file_path))
      (fun '(_, counter) =>
         ret (truediv p (sort_name_n i counter k), counter + 1))
      (truediv p (sort_name i k), 1) fs
    = (Ok (truediv p (free_name (names es) i k), c), fs).
Proof.
  intros Hp Hd Hk Hf.
  set (cand := fun c : nat => truediv p (sort_name_n i c k)).
  assert (Taken : forall c, Path_exists fs (cand c)
                            = mem (sort_name_n i c k) (names es)).
  { intros c. apply (exists_child fs p d es _ Hp Hd).
    now apply sort_name_n_plain. }
  pose proof (exists_child fs p d es _ Hp Hd (sort_name_plain i k Hk)) as T0.
  unfold free_name.
  destruct (mem (sort_name i k) (names es)) eqn:T.
  - destruct (first_free_pigeon (fun c => sort_name_n i c k) (names es) 1
                (sort_name_n_inj i k)) as [j FF].
    rewrite FF. exists (j + 1).
    apply (while_search fs cand _ _ (List.length (names es) + 1)).
    + intros q c. reflexivity.
    + intros q c. reflexivity.
    + exact T0.
    + rewrite <- FF. now apply first_free_ext.
    + unfold names. rewrite length_map. exact Hf.
  - exists 1. apply while_free.
    + intros q c. reflexivity.
    + exact T0.
    + lia.
Qed.

(** One turn of the loop of [sortDate]. *)
Lemma sort_step (fs : FS) (fuel : nat) (p : Path) (d : location)
    (es : entries) (i : nat) (k : string) (m sz : Z) :
  resolve fs p = Done d ->
  lookup (root fs) d = Some (Dir es) ->
  plain k = true ->
  assoc k es = Some (File m sz) ->
  List.length es + 1 < fuel ->
  exists F : entries -> entries,
    sortDate_body fuel p (i, child p k) fs
    = (Ok tt, mkFS (alter_dir F (root fs) d) (cwd fs))
    /\ F es = place i k es.
Proof.
  intros Hp Hd Hk A Hf. unfold sortDate_body, place.
  set (nm := name (child p k)).
  assert (E : nm = k) by apply name_child.
  clearbody nm. subst nm.
  destruct (startswith k (sort_prefix i)) eqn:Pre; cbn [negb].
  - exists (fun cur => cur). rewrite alter_id. split; [|reflexivity].
    now destruct fs.
  - set (k' := free_name (names es) i k).
    exists (fun cur => add_entry k' (File m sz) (remove_entry k cur)).
    split; [|now rewrite (move_entry_file k k' es _ A)].
    destruct (sort_search fs fuel p d es i k Hp Hd (plain_no_slash k Hk) Hf)
      as [c W].
    unfold bind. cbv zeta. rewrite W. cbn [fst]. fold k'.
    assert (Hk' : plain k' = true)
      by (apply free_name_plain; now apply plain_no_slash).
    rewrite (truediv_plain p k' Hk'). unfold syscall.
    rewrite (os_rename_file fs p p d d es es k k' m sz Hp Hd A
               (plain_not_dotdot k Hk) Hp Hd
               (mem_assoc_none _ _ (free_name_free (names es) i k))
               (plain_not_dotdot k' Hk')).
    now rewrite alter_alter.
Qed.

Lemma place_keeps (i : nat) (k : string) (es : entries) (m sz : Z) :
  wf_entries es -> plain k = true -> assoc k es = Some (File m sz) ->
  wf_entries (place i k es)
  /\ same_dirs es (place i k es)
  /\ List.length (place i k es) <= List.length es
  /\ forall k2, k2 <> k -> In k2 (names es) ->
                assoc k2 (place i k es) = assoc k2 es.
Proof.
  intros W Hk A. unfold place.
  destruct (startswith k (sort_prefix i)).
  - split; [exact W|]. split; [apply same_dirs_refl|]. split; [lia|].
    reflexivity.
  - set (k' := free_name (names es) i k).
    pose proof (mem_assoc_none _ _ (free_name_free (names es) i k)) as A'.
    fold k' in A'. rewrite (move_entry_file k k' es _ A).
    split; [|split; [|split]].
    + apply wf_entries_moved; [exact W|exact A'|].
      apply free_name_plain. now apply plain_no_slash.
    + now apply same_dirs_moved.
    + unfold add_entry. rewrite List.length_app. cbn [List.length].
      pose proof (length_remove k es _ A). lia.
    + intros k2 Hne Hin. rewrite (assoc_moved k k' k2 es _ A A').
      apply String.eqb_neq in Hne. rewrite Hne.
      destruct (String.eqb_spec k2 k') as [->|_]; [|reflexivity].
      now apply assoc_names in A'.
Qed.

(** The loop of [sortDate] from position [i] on. *)
Lemma sort_loop (fuel : nat) (p : Path) (d : location) :
  forall (order : list string) (i : nat) (fs : FS) (es : entries),
    resolve fs p = Done d ->
    lookup (root fs) d = Some (Dir es) ->
    wf_entries es ->
    List.length es + 1 < fuel ->
    NoDup order ->
    (forall k, In k order -> exists m sz, assoc k es = Some (File m sz)) ->
    exists F : entries -> entries,
      for_each (combine (seq i (List.length (map (child p) order)))
                  (map (child p) order))
        (sortDate_body fuel p) fs
      = (Ok tt, mkFS (alter_dir F (root fs) d) (cwd fs))
      /\ F es = renumber i order es.
Proof.
  induction order as [|k order IH]; intros i fs es Hp Hd W Hf ND Files.
  - exists (fun cur => cur). rewrite alter_id. split; [|reflexivity].
    now destruct fs.
  - destruct (Files k (or_introl eq_refl)) as [m [sz A]].
    assert (Hk : plain k = true).
    { apply (plain_entry es k W). apply assoc_Some_In in A.
      change k with (fst (k, File m sz)). now apply in_map. }
    destruct (sort_step fs fuel p d es i k m sz Hp Hd Hk A Hf)
      as [F1 [Step E1]].
    destruct (place_keeps i k es m sz W Hk A) as [W1 [SD1 [Len1 Keep1]]].
    set (fs1 := mkFS (alter_dir F1 (root fs) d) (cwd fs)) in *.
    inversion ND as [|? ? Hnot ND']; subst.
    assert (Hd1 : lookup (root fs1) d = Some (Dir (place i k es))).
    { cbn [fs1 root]. rewrite <- E1. now apply lookup_alter_same. }
    assert (Hp1 : resolve fs1 p = Done d).
    { unfold resolve in *. cbn [fs1 root cwd start].
      apply (walk_same_dirness (root fs)); [|exact Hp].
      intros loc. apply (dirness_alter F1 d (root fs) es loc Hd).
      now rewrite E1. }
    destruct (IH (S i) fs1 (place i k es) Hp1 Hd1 W1) as [F2 [Rest E2]].
    + lia.
    + exact ND'.
    + intros k2 Hk2. destruct (Files k2 (or_intror Hk2)) as [m2 [sz2 A2]].
      exists m2, sz2. rewrite Keep1; [exact A2| |].
      * intros ->. contradiction.
      * apply assoc_Some_In in A2.
        change k2 with (fst (k2, File m2 sz2)). now apply in_map.
    + exists (fun cur => F2 (F1 cur)). split.
      * cbn [map List.length seq combine for_each]. unfold bind.
        rewrite Step. fold fs1. rewrite Rest. cbn [fs1 root cwd].
        now rewrite alter_alter.
      * cbn [renumber]. now rewrite E1, E2.
Qed.

Lemma NoDup_names_filter (f : string * node -> bool) (es : entries) :
  NoDup (names es) -> NoDup (names (filter f es)).
Proof.
  unfold names. induction es as [|e es IH]; simpl; intros ND; [constructor|].
  inversion ND as [|? ? Hnot ND']; subst.
  destruct (f e); simpl; [|now apply IH].
  constructor; [|now apply IH].
  intros Hin. apply Hnot. apply in_map_iff in Hin as [e' [E Hin]].
  apply filter_In in Hin as [Hin _]. rewrite <- E. now apply in_map.
Qed.

Lemma order_NoDup (es : entries) :
  NoDup (names es) -> NoDup (names (by_mtime es)).
Proof.
  intros ND.
  apply (Permutation_NoDup
           (l := names (filter regular es))).
  - unfold names. apply Permutation_map. apply Permutation_sym.
    apply by_mtime_perm.
  - now apply NoDup_names_filter.
Qed.

Lemma order_files (es : entries) (k : string) :
  NoDup (names es) ->
  In k (names (by_mtime es)) ->
  exists m sz, assoc k es = Some (File m sz).
Proof.
  intros ND Hin. unfold names in Hin.
  apply in_map_iff in Hin as [[k0 n] [E Hin]]. cbn [fst] in E. subst k0.
  apply (Permutation_in _ (by_mtime_perm es)) in Hin.
  apply filter_In in Hin as [Hin R]. unfold regular in R. cbn [snd] in R.
  destruct n as [m sz|]; [|discriminate R].
  exists m, sz. now apply assoc_In.
Qed.

(** The files [sortDate] goes through, in the order it does. *)
Lemma sorted_files (fs : FS) (p : Path) (d : location) (es : entries) :
  wf_entries es ->
  resolve fs p = Done d ->
  lookup (root fs) d = Some (Dir es) ->
  exists keyed,
    map_M (fun f => bind (getmtime f) (fun k => ret (k, f)))
      (map (child p) (names (filter regular es))) fs
    = (Ok keyed, fs)
    /\ map snd (sort_by fst keyed) = map (child p) (names (by_mtime es)).
Proof.
  intros W Hp Hd.
  set (g := fun x : Path =>
              (match assoc (name x) es with
               | Some n => st_mtime n
               | None => 0%Z
               end, x)).
  exists (map g (map (child p) (names (filter regular es)))). split.
  - apply map_M_read. intros x Hx.
    apply in_map_iff in Hx as [k [<- Hk]].
    assert (Hk' : In k (names es)).
    { unfold names in *. apply in_map_iff in Hk as [e [E He]].
      apply filter_In in He as [He _]. rewrite <- E. now apply in_map. }
    destruct (is_file_child fs p d es k W Hp Hd Hk') as [n [A S]].
    unfold bind, getmtime, Path_stat, query, ret, g. unfold bind.
    now rewrite S, name_child, A.
  - unfold names. rewrite !map_map.
    rewrite (map_ext_in _ (fun e => (mtime_of e, child p (fst e)))).
    + rewrite (sort_by_map fst (fun e => (mtime_of e, child p (fst e)))).
      rewrite map_map. reflexivity.
    + intros [k n] Hin. unfold g. rewrite name_child. cbn [fst].
      apply filter_In in Hin as [Hin _].
      now rewrite (assoc_In k n es (proj1 W) Hin).
Qed.

(** The run of [sortDate] on a directory. *)
Lemma sortDate_run (fs : FS) (fuel : nat) (path : string) (d : location)
    (es : entries) :
  wf fs ->
  resolve fs (Path_of path) = Done d ->
  lookup (root fs) d = Some (Dir es) ->
  List.length es + 1 < fuel ->
  sortDate fuel path fs
  = (Ok tt,
     mkFS (alter_dir (fun _ => renumber 0 (names (by_mtime es)) es)
             (root fs) d)
          (cwd fs)).
Proof.
  intros [Hroot W] Hp Hd Hf. pose proof (W d es Hd) as We.
  unfold sortDate.
  unfold bind at 1, gets at 1. unfold Path_exists.
  rewrite (stat_dir fs _ d _ Hp Hd). cbn [negb].
  unfold bind at 1. rewrite (iterdir_dir fs _ d es Hp Hd).
  unfold bind at 1, gets at 1.
  rewrite (regular_children fs _ d es We Hp Hd).
  destruct (sorted_files fs (Path_of path) d es We Hp Hd) as [keyed [K S]].
  unfold bind at 1. rewrite K, S. unfold enumerate.
  destruct (sort_loop fuel (Path_of path) d (names (by_mtime es)) 0 fs es
              Hp Hd We Hf (order_NoDup es (proj1 We))
              (fun k => order_files es k (proj1 We)))
    as [F [Run E]].
  rewrite Run. f_equal. f_equal.
  rewrite (alter_const F d (root fs) es W Hd). now rewrite E.
Qed.

End SortDate.
(* ================================================================== *)
(** * Three files with distinct dates *)

Module ThreeFiles.
Import PyStr Pathlib FileSystem Py Lib Main Spec.
Import StrFacts FsFacts PyFacts Listing Mkdir Rename Search Move SortFacts.
Import SortDate.










End ThreeFiles.
(* ================================================================== *)
(** * Sorting by date (C5) *)

Module SortClaims.
Import PyStr Pathlib FileSystem Py Lib Main Spec Samples.
Import StrFacts FsFacts PyFacts Listing Mkdir Rename Search Move SortFacts.
Import SortDate ThreeFiles.

Lemma sort_name_prefix (i : nat) (nm : string) :
  sort_name i nm = (sort_prefix i ++ nm)%string.
Proof. unfold sort_name, sort_prefix. now rewrite app_assoc_str. Qed.

Lemma sort_name_n_prefix (i c : nat) (nm : string) :
  sort_name_n i c nm = (sort_prefix i ++ str_nat c ++ "_" ++ nm)%string.
Proof. unfold sort_name_n, sort_prefix. now rewrite app_assoc_str. Qed.



Lemma location_folder_normal (year : Z) (country city : string) :
  normal (location_folder year country city).
Proof.
  unfold location_folder. repeat apply normal_truediv.
  apply normal_Path_of.
Qed.

(** POST /api/sort-folder on a folder that is a directory answers 200
    after [sortDate] has run on it. *)
Lemma sort_folder_by_date_run (fs : FS) (fuel : nat)
    (request : FolderRequest) (d : location) (es : entries) :
  wf fs ->
  resolve fs (request_folder request) = Done d ->
  lookup (root fs) d = Some (Dir es) ->
  List.length es + 1 < fuel ->
  exists msg,
    sort_folder_by_date fuel request fs
    = (Ok (mkMessage true msg),
       mkFS (alter_dir (fun _ => renumber 0 (names (by_mtime es)) es)
               (root fs) d)
            (cwd fs)).
Proof.
  intros W Hp Hd Hf. unfold sort_folder_by_date, try_.
  fold (request_folder request).
  unfold bind at 1, gets at 1. unfold Path_exists.
  rewrite (stat_dir fs _ d _ Hp Hd). cbn [negb].
  unfold bind at 1, ret at 1. unfold bind at 1.
  assert (Hp' : resolve fs (Path_of (str (request_folder request))) = Done d).
  { unfold request_folder in *.
    now rewrite (Path_of_str _ (location_folder_normal _ _ _)). }
  rewrite (sortDate_run fs fuel _ d es W Hp' Hd Hf).
  eexists. reflexivity.
Qed.



End SortClaims.
(* ================================================================== *)
(** * Rewriting one directory of a tree *)

Module Tree.
Import PyStr Pathlib FileSystem Py Lib Main Spec.
Import StrFacts FsFacts PyFacts Listing Mkdir Rename.

Lemma names_map_alter (f : entries -> entries) (c : string)
    (rest : location) (es : entries) :
  names (map (fun e => if fst e =? c
                       then (fst e, alter_dir f (snd e) rest)
                       else e) es)
  = names es.
Proof.
  unfold names. rewrite map_map. apply map_ext.
  intros e. now destruct (fst e =? c).
Qed.

(** How a lookup meets a rewritten directory: it goes through it, it
    never reaches it, or it stops above it. *)
Lemma lookup_alter_cases (F : entries -> entries) (d : location) :
  forall (r : node) (es : entries) (loc : location),
    lookup r d = Some (Dir es) ->
    (exists rest,
        loc = d ++ rest
        /\ lookup (alter_dir F r d) loc = lookup (Dir (F es)) rest
        /\ lookup r loc = lookup (Dir es) rest)
    \/ lookup (alter_dir F r d) loc = lookup r loc
    \/ (exists e0 e1,
          lookup r loc = Some (Dir e0)
          /\ lookup (alter_dir F r d) loc = Some (Dir e1)
          /\ names e1 = names e0).
Proof.
  induction d as [|c d IH]; intros r es loc H.
  - simpl in H. injection H as ->. left. exists loc. now simpl.
  - destruct r as [|es0]; [discriminate|].
    rewrite lookup_step in H.
    destruct (assoc c es0) as [n0|] eqn:A; [|discriminate].
    destruct loc as [|key l].
    + right; right. eexists; eexists. simpl.
      split; [reflexivity|]. split; [reflexivity|]. apply names_map_alter.
    + cbn [alter_dir]. rewrite !lookup_step, assoc_map_alter.
      destruct (key =? c) eqn:E.
      * apply String.eqb_eq in E. subst key. rewrite A. cbn [option_map].
        destruct (IH n0 es l H)
          as [[rest [-> [H1 H2]]]|[H1|[e0 [e1 [H1 [H2 H3]]]]]].
        -- left. exists rest. split; [reflexivity|]. now split.
        -- right; left. exact H1.
        -- right; right. now exists e0, e1.
      * right; left. reflexivity.
Qed.

Lemma is_dir_alter (F : entries -> entries) (d : location) (r : node) :
  is_dir_node (alter_dir F r d) = is_dir_node r.
Proof. destruct d; destruct r; reflexivity. Qed.

Lemma wf_entries_nil : wf_entries [].
Proof. split; constructor. Qed.

(** Rewriting a directory into a well-formed one whose new entries are
    regular files or empty directories keeps the tree well-formed. *)
Lemma wf_node_alter (F : entries -> entries) (d : location) (r : node)
    (es : entries) :
  wf_node r ->
  lookup r d = Some (Dir es) ->
  wf_entries (F es) ->
  (forall key n, assoc key (F es) = Some n ->
                 assoc key es = Some n \/ n = Dir []
                 \/ is_file_node n = true) ->
  wf_node (alter_dir F r d).
Proof.
  intros W H WF New loc e L.
  destruct (lookup_alter_cases F d r es loc H)
    as [[rest [-> [H1 H2]]]|[H1|[e0 [e1 [H1 [H2 H3]]]]]].
  - rewrite H1 in L. destruct rest as [|key rest].
    + simpl in L. now injection L as <-.
    + rewrite lookup_step in L.
      destruct (assoc key (F es)) as [n|] eqn:A; [|discriminate].
      destruct (New key n A) as [A0|[->|Fl]].
      * apply (W (d ++ key :: rest)). now rewrite H2, lookup_step, A0.
      * destruct rest; simpl in L; [|discriminate].
        injection L as <-. apply wf_entries_nil.
      * destruct n; [|discriminate]. destruct rest; discriminate.
  - rewrite H1 in L. exact (W loc e L).
  - rewrite H2 in L. injection L as <-.
    unfold wf_entries. rewrite H3. exact (W loc e0 H1).
Qed.

Lemma wf_split (fs : FS) :
  wf fs <-> is_dir_node (root fs) = true /\ wf_node (root fs).
Proof. reflexivity. Qed.

Lemma keeps_refl (r : node) : keeps r r.
Proof. split; [reflexivity|auto]. Qed.

Lemma keeps_trans (a b c : node) : keeps a b -> keeps b c -> keeps a c.
Proof.
  intros [F1 D1] [F2 D2]. split.
  - intros loc m sz. now rewrite F1.
  - auto.
Qed.

(** A new empty directory under a free name takes nothing away. *)
Lemma keeps_add_dir (d : location) (r : node) (es : entries) (c : string) :
  lookup r d = Some (Dir es) ->
  assoc c es = None ->
  keeps r (alter_dir (add_entry c (Dir [])) r d).
Proof.
  intros H A.
  assert (Below : forall rest,
             (forall m sz, lookup (Dir es) rest = Some (File m sz)
                           <-> lookup (Dir (add_entry c (Dir []) es)) rest
                               = Some (File m sz))
             /\ (dirness (lookup (Dir es) rest) = true ->
                 dirness (lookup (Dir (add_entry c (Dir []) es)) rest) = true)).
  { intros [|key rest]; [split; [intros; split; discriminate|auto]|].
    rewrite !lookup_step, assoc_add.
    destruct (assoc key es) as [n|]; [split; [reflexivity|auto]|].
    destruct (key =? c); [|split; [reflexivity|auto]].
    split; [|discriminate].
    intros m sz. split; [discriminate|].
    destruct rest; discriminate. }
  split.
  - intros loc m sz.
    destruct (lookup_alter_cases (add_entry c (Dir [])) d r es loc H)
      as [[rest [-> [H1 H2]]]|[H1|[e0 [e1 [H1 [H2 H3]]]]]].
    + rewrite H1, H2. apply Below.
    + now rewrite H1.
    + rewrite H1, H2. split; discriminate.
  - intros loc.
    destruct (lookup_alter_cases (add_entry c (Dir [])) d r es loc H)
      as [[rest [-> [H1 H2]]]|[H1|[e0 [e1 [H1 [H2 H3]]]]]].
    + rewrite H1, H2. apply Below.
    + now rewrite H1.
    + now rewrite H1, H2.
Qed.

Lemma wf_entries_add (c : string) (n : node) (es : entries) :
  wf_entries es -> assoc c es = None -> plain c = true ->
  wf_entries (add_entry c n es).
Proof.
  intros [ND PL] A P. unfold wf_entries, add_entry, names in *.
  rewrite map_app. cbn [map fst]. split.
  - apply NoDup_app; [exact ND|repeat constructor; intros []| ].
    intros x Hx [E|[]]. subst x. now apply (assoc_names c es) in A.
  - apply Forall_app. split; [exact PL|]. now repeat constructor.
Qed.

(** A new entry under a free plain name, a regular file or an empty
    directory, keeps the tree well-formed. *)
Lemma wf_node_add (d : location) (r : node) (es : entries) (c : string)
    (n : node) :
  wf_node r ->
  lookup r d = Some (Dir es) ->
  assoc c es = None ->
  plain c = true ->
  n = Dir [] \/ is_file_node n = true ->
  wf_node (alter_dir (add_entry c n) r d).
Proof.
  intros W H A P Hn.
  apply (wf_node_alter _ d r es W H).
  - apply wf_entries_add; auto. exact (W d es H).
  - intros key x Ax. rewrite assoc_add in Ax.
    destruct (assoc key es) as [y|]; [now left|].
    destruct (key =? c); [|discriminate].
    injection Ax as <-. now right.
Qed.

(** A lookup that does not go through an entry the rewriting changes
    sees what it saw. *)
Lemma lookup_alter_frame (F : entries -> entries) (d : location) (r : node)
    (es : entries) (loc : location) :
  lookup r d = Some (Dir es) ->
  (forall key rest, loc = d ++ key :: rest ->
                    assoc key (F es) = assoc key es) ->
  option_map shallow (lookup (alter_dir F r d) loc)
  = option_map shallow (lookup r loc).
Proof.
  intros H Same.
  destruct (lookup_alter_cases F d r es loc H)
    as [[rest [-> [H1 H2]]]|[H1|[e0 [e1 [H1 [H2 H3]]]]]].
  - rewrite H1, H2. destruct rest as [|key rest]; [reflexivity|].
    rewrite !lookup_step. now rewrite (Same key rest eq_refl).
  - now rewrite H1.
  - now rewrite H1, H2.
Qed.

Lemma shallow_dirness (a b : option node) :
  option_map shallow a = option_map shallow b -> dirness a = dirness b.
Proof.
  destruct a as [[|]|], b as [[|]|]; cbn; congruence.
Qed.


End Tree.
(* ================================================================== *)
(** * The listing route on any tree, and what it shares with the others *)

Module ListingProps.
Import PyStr Pathlib FileSystem Py Lib Main Spec Samples.
Import StrFacts FsFacts PyFacts Listing Pins Mkdir Search SortDate Tree.

(** The two ways a listing goes: nothing to show, or a directory read. *)
Lemma viewFolder_cases (fs : FS) (year : Z) (country city : string) :
  wf fs ->
  viewFolder country city year fs = (Ok [], fs)
  \/ exists d es,
       resolve fs (location_folder year country city) = Done d
       /\ lookup (root fs) d = Some (Dir es)
       /\ viewFolder country city year fs
          = (Ok (images_of year country city es), fs).
Proof.
  intros W.
  destruct (os_stat fs (location_folder year country city)) as [n|e] eqn:S.
  - destruct n as [m sz|es].
    + left. unfold viewFolder, bind, gets, Path_exists, Path_is_dir.
      now rewrite S.
    + right. destruct (os_stat_inv _ _ _ S) as [d [R L]].
      exists d, es. split; [exact R|]. split; [exact L|].
      apply (viewFolder_dir fs year country city d es); auto.
      exact (proj2 W d es L).
  - left. unfold viewFolder, bind, gets, Path_exists, Path_is_dir.
    now rewrite S.
Qed.

Lemma get_images_view (fs : FS) (year : Z) (country city : string)
    (images : list ImageResponse) :
  viewFolder country city year fs = (Ok images, fs) ->
  get_images year country city fs = (Ok images, fs).
Proof.
  intros H. unfold get_images, try_, bind. rewrite H. reflexivity.
Qed.





(** X2.  Every image the listing shows can be fetched: asked for the year,
    country and city of the listing and the name of a listed image, the
    serving route answers 200 with the file of that name in the folder, and
    changes nothing. *)
Theorem listed_image_is_served :
  forall (fs fs' : FS) (year : Z) (country city : string)
         (images : list ImageResponse) (img : ImageResponse),
    wf fs ->
    get_images year country city fs = (Ok images, fs') ->
    In img images ->
    serve_image year country city (img_name img) fs
    = (Ok (mkFileResponse
             (str (child (location_folder year country city) (img_name img)))),
       fs)
    /\ http_status (fst (serve_image year country city (img_name img) fs))
       = Some 200
    /\ Path_is_file fs
         (child (location_folder year country city) (img_name img)) = true.
Proof.
  intros fs fs' year country city images img W G Hin.
  destruct (viewFolder_cases fs year country city W)
    as [V|[d [es [R [L V]]]]];
    rewrite (get_images_view _ _ _ _ _ V) in G; injection G as <- <-;
    [destruct Hin|].
  unfold images_of in Hin. apply in_map_iff in Hin as [e [<- He]].
  apply filter_In in He as [He Hl]. cbn [img_name image_of].
  assert (WE : wf_entries es) by exact (proj2 W d es L).
  assert (Hn : In (fst e) (names es)) by (apply in_map; exact He).
  assert (P : plain (fst e) = true) by exact (plain_entry es _ WE Hn).
  assert (A : assoc (fst e) es = Some (snd e)).
  { apply assoc_In; [exact (proj1 WE)|]. now destruct e. }
  assert (Ex : Path_exists fs
                 (truediv (location_folder year country city) (fst e)) = true).
  { rewrite (exists_child fs _ d es (fst e) R L P). now apply mem_In. }
  assert (Run : serve_image year country city (fst e) fs
                = (Ok (mkFileResponse
                         (str (child (location_folder year country city)
                                 (fst e)))), fs)).
  { unfold serve_image, try_, bind, gets. rewrite Ex. cbn [negb].
    unfold ret. now rewrite (truediv_plain _ _ P). }
  split; [exact Run|]. split; [now rewrite Run|].
  unfold Path_is_file.
  rewrite (os_stat_child fs _ d es (fst e) R L (plain_not_dotdot _ P)), A.
  unfold listed, regular in Hl. now apply andb_true_iff in Hl.
Qed.

Lemma listed_image_is_served_witness :
  serve_image 2023 "France" "Paris" "b.jpg" fs_txt_jpg
  = (Ok (mkFileResponse "/content/2023/France/Paris/b.jpg"), fs_txt_jpg).
Proof.
  exact (proj1 (listed_image_is_served fs_txt_jpg fs_txt_jpg 2023 "France"
                  "Paris"
                  [mkImage "b.jpg" "b.jpg"
                     "/api/serve-image/2023/France/Paris/b.jpg" 2023 "Paris"
                     3456 (isoformat 200)]
                  (mkImage "b.jpg" "b.jpg"
                     "/api/serve-image/2023/France/Paris/b.jpg" 2023 "Paris"
                     3456 (isoformat 200))
                  (wfb_sound fs_txt_jpg eq_refl) eq_refl
                  (or_introl eq_refl))).
Defined.

End ListingProps.
(* ================================================================== *)
(** * The pins on any tree, and against the listing *)

Module PinProps.
Import PyStr Pathlib FileSystem Py Lib Main Spec Samples.
Import StrFacts FsFacts PyFacts Listing Pins PinClaims Mkdir CreateClaims.
Import Search SortDate Tree ListingProps.










End PinProps.
(* ================================================================== *)
(** * Creating folders: what is kept, what is answered *)

Module CreateProps.
Import PyStr Pathlib FileSystem Py Lib Main Spec Samples.
Import StrFacts FsFacts PyFacts Listing Pins PinClaims Mkdir CreateClaims.
Import Rename Search SortDate Tree ListingProps PinProps.

Lemma lookup_removelast (r : node) (st : location) (n : node) :
  lookup r st = Some n -> lookup r (removelast st) <> None.
Proof.
  destruct st as [|x st] using rev_ind; [discriminate|].
  intros H. rewrite removelast_last.
  destruct (lookup_parent r st x n H) as [es [E _]]. now rewrite E.
Qed.

Lemma normal_plain (c : string) :
  normal_part c = true -> (c =? "..") = false -> plain c = true.
Proof.
  unfold normal_part, keep_part, plain. intros H ->.
  now rewrite andb_true_r.
Qed.

Lemma Forall_removelast {A} (P : A -> Prop) (l : list A) :
  Forall P l -> Forall P (removelast l).
Proof.
  induction 1 as [|x l Hx Hl IH]; [constructor|].
  cbn [removelast]. destruct l; [constructor|]. now constructor.
Qed.

(** A resolution from the root that ends on nothing ends on a free plain
    name of a directory. *)
Lemma walk_fresh (r : node) (ps : list string) (loc : location) :
  Forall (fun c => normal_part c = true) ps ->
  walk r [] ps = Done loc ->
  lookup r loc = None ->
  exists d c es,
    loc = d ++ [c] /\ lookup r d = Some (Dir es)
    /\ assoc c es = None /\ plain c = true.
Proof.
  destruct ps as [|c ps _] using rev_ind.
  - intros _ H L. injection H as <-. discriminate L.
  - intros N H L. rewrite walk_app in H.
    destruct (walk r [] ps) as [st|e]; [|discriminate].
    cbn [walk] in H.
    destruct (lookup r st) as [[m sz|es]|] eqn:Lst; try discriminate.
    apply Forall_app in N as [_ N]. inversion N as [|? ? Nc _]; subst.
    destruct (c =? "..") eqn:E; injection H as <-.
    + now destruct (lookup_removelast r st _ Lst).
    + exists st, c, es. split; [reflexivity|]. split; [exact Lst|].
      split; [now rewrite <- (lookup_child r st es c Lst)|].
      now apply normal_plain.
Qed.

(** Resolution only gains from directories that stay. *)
Lemma walk_keeps (r r' : node) :
  (forall loc, dirness (lookup r loc) = true ->
               dirness (lookup r' loc) = true) ->
  forall ps st loc, walk r st ps = Done loc -> walk r' st ps = Done loc.
Proof.
  intros K. induction ps as [|c ps IH]; intros st loc H; [exact H|].
  cbn [walk] in *.
  destruct (lookup r st) as [[m sz|es]|] eqn:L; try discriminate.
  assert (D : dirness (lookup r' st) = true) by (apply K; now rewrite L).
  destruct (dirness_is_dir _ D) as [es' ->]. now apply IH.
Qed.

(** What a successful [os.mkdir] of an anchored path did. *)
Lemma os_mkdir_inv (fs fs' : FS) (p : Path) :
  normal p -> is_absolute p = true ->
  os_mkdir fs p = Done fs' ->
  exists d c es,
    resolve fs p = Done (d ++ [c])
    /\ lookup (root fs) d = Some (Dir es)
    /\ assoc c es = None /\ plain c = true
    /\ fs' = mkFS (alter_dir (add_entry c (Dir [])) (root fs) d) (cwd fs).
Proof.
  intros N A H. unfold os_mkdir in H.
  destruct (resolve fs p) as [loc|e] eqn:R; [|discriminate].
  destruct (lookup (root fs) loc) eqn:L; [discriminate|].
  injection H as <-.
  unfold resolve, start in R. rewrite A in R.
  destruct (walk_fresh (root fs) (parts p) loc N R L)
    as [d [c [es [-> [Ld [Ac Pc]]]]]].
  exists d, c, es. now rewrite attach_snoc.
Qed.

Lemma is_dir_after_mkdir (fs : FS) (p : Path) (d : location) (c : string)
    (es : entries) :
  resolve fs p = Done (d ++ [c]) ->
  lookup (root fs) d = Some (Dir es) ->
  assoc c es = None ->
  Path_is_dir
    (mkFS (alter_dir (add_entry c (Dir [])) (root fs) d) (cwd fs)) p = true.
Proof.
  intros R L A. unfold Path_is_dir, os_stat.
  assert (R' : resolve
                 (mkFS (alter_dir (add_entry c (Dir [])) (root fs) d) (cwd fs))
                 p = Done (d ++ [c])).
  { unfold resolve, start in *. cbn [root cwd].
    apply (walk_keeps (root fs)); [|exact R].
    exact (proj2 (keeps_add_dir d (root fs) es c L A)). }
  rewrite R'. cbn [root].
  rewrite (lookup_child _ d _ c (lookup_alter_same _ d _ es L)).
  now rewrite assoc_add, A, String.eqb_refl.
Qed.

(** [Path.mkdir] only ever adds empty directories: the regular files
    stay where and what they were, directories stay directories, the
    tree stays well-formed, and the path is a directory afterwards. *)
Lemma mkdir_rec_keeps (fuel : nat) :
  forall (p : Path) (parents exist_ok : bool) (fs fs' : FS),
    normal p -> is_absolute p = true ->
    wf_node (root fs) ->
    mkdir_rec fuel parents exist_ok p fs = (Ok tt, fs') ->
    keeps (root fs) (root fs') /\ wf_node (root fs') /\ cwd fs' = cwd fs
    /\ Path_is_dir fs' p = true.
Proof.
  induction fuel as [|fuel IH]; intros p parents exist_ok fs fs' N A W H;
    rewrite mkdir_rec_eq in H;
    (destruct (os_mkdir fs p) as [fs1|e] eqn:Mk;
     [ injection H as <-;
       destruct (os_mkdir_inv fs fs1 p N A Mk)
         as [d [c [es [R [L [Ac [Pc ->]]]]]]];
       cbn [root cwd];
       split; [now apply (keeps_add_dir d (root fs) es c)|];
       split; [apply (wf_node_add d (root fs) es c); auto|];
       split; [reflexivity|];
       now apply (is_dir_after_mkdir fs p d c es)
     | ]).
  - destruct e;
      try (destruct (negb exist_ok || negb (Path_is_dir fs p)) eqn:B;
           [discriminate H|]; injection H as <-;
           apply orb_false_iff in B as [_ B]; apply negb_false_iff in B;
           split; [apply keeps_refl|];
           split; [exact W|split; [reflexivity|exact B]]).
    destruct parents; [|discriminate]. destruct (parts p); discriminate.
  - destruct e;
      try (destruct (negb exist_ok || negb (Path_is_dir fs p)) eqn:B;
           [discriminate H|]; injection H as <-;
           apply orb_false_iff in B as [_ B]; apply negb_false_iff in B;
           split; [apply keeps_refl|];
           split; [exact W|split; [reflexivity|exact B]]).
    destruct parents; [|discriminate].
    destruct (parts p) eqn:Pp; [discriminate|].
    unfold bind in H.
    destruct (mkdir_rec fuel true true (parent p) fs) as [[[]|x|] fs1] eqn:E1;
      try discriminate.
    assert (Np : normal (parent p)).
    { unfold normal, parent. cbn [parts]. now apply Forall_removelast. }
    destruct (IH (parent p) true true fs fs1 Np A W E1)
      as [K1 [W1 [C1 _]]].
    destruct (IH p false exist_ok fs1 fs' N A W1 H) as [K2 [W2 [C2 D2]]].
    split; [exact (keeps_trans _ _ _ K1 K2)|].
    split; [exact W2|]. split; [congruence|exact D2].
Qed.

Lemma location_folder_absolute (year : Z) (country city : string) :
  is_absolute (location_folder year country city) = true.
Proof.
  unfold location_folder.
  assert (T : forall p s, is_absolute p = true ->
                          is_absolute (truediv p s) = true).
  { intros p s H. unfold truediv, Path_of.
    destruct (startswith s "/") eqn:E; cbn [is_absolute]; auto. }
  now repeat apply T.
Qed.

Lemma keeps_is_dir (r r' : node) :
  keeps r r' -> is_dir_node r = true -> is_dir_node r' = true.
Proof.
  intros [_ K] D. specialize (K []). cbn [lookup] in K.
  destruct r; [discriminate|]. specialize (K eq_refl). now destruct r'.
Qed.

Lemma makeFolder_keeps (fs fs' : FS) (year : Z) (country city : string)
    (p : Path) :
  wf fs ->
  makeFolder country city year fs = (Ok p, fs') ->
  p = location_folder year country city
  /\ Path_is_dir fs' p = true
  /\ wf fs'
  /\ cwd fs' = cwd fs
  /\ keeps (root fs) (root fs').
Proof.
  intros [Wd Wn] H.
  destruct (makeFolder_inv fs fs' year country city p H) as [-> Mk].
  unfold Path_mkdir in Mk.
  destruct (mkdir_rec_keeps _ _ true true fs fs'
              (SortClaims.location_folder_normal year country city)
              (location_folder_absolute year country city) Wn Mk)
    as [K [W' [C D]]].
  split; [reflexivity|]. split; [exact D|].
  split; [split; [exact (keeps_is_dir _ _ K Wd)|exact W']|].
  split; [exact C|exact K].
Qed.

(** X5.  Whatever the country and the city, be they several components long
    or not, a successful [makeFolder] takes nothing away: afterwards the
    regular files are the same ones at the same places, no file has
    appeared, every directory is a directory still, the tree is well-formed,
    and the path returned is a directory. *)
Theorem makeFolder_keeps_tree :
  forall (fs fs' : FS) (year : Z) (country city : string) (p : Path),
    wf fs ->
    makeFolder country city year fs = (Ok p, fs') ->
    p = location_folder year country city
    /\ Path_is_dir fs' p = true
    /\ wf fs'
    /\ cwd fs' = cwd fs
    /\ (forall loc m sz,
          lookup (root fs) loc = Some (File m sz)
          <-> lookup (root fs') loc = Some (File m sz))
    /\ (forall loc es,
          lookup (root fs) loc = Some (Dir es) ->
          exists es', lookup (root fs') loc = Some (Dir es')).
Proof.
  intros fs fs' year country city p W H.
  destruct (makeFolder_keeps fs fs' year country city p W H)
    as [E [D [W' [C K]]]].
  split; [exact E|]. split; [exact D|]. split; [exact W'|].
  split; [exact C|]. split; [exact (proj1 K)|].
  intros loc es L. apply dirness_is_dir. apply (proj2 K). now rewrite L.
Qed.

Lemma makeFolder_keeps_tree_witness :
  Path_is_dir (snd (makeFolder "France" "Lyon/Croix Rousse" 2023 fs_txt_jpg))
    (location_folder 2023 "France" "Lyon/Croix Rousse") = true
  /\ lookup (root (snd (makeFolder "France" "Lyon/Croix Rousse" 2023
                          fs_txt_jpg)))
       ["content"; "2023"; "France"; "Paris"; "b.jpg"]
     = Some (File 200 3456).
Proof.
  destruct (makeFolder_keeps_tree fs_txt_jpg
              (snd (makeFolder "France" "Lyon/Croix Rousse" 2023 fs_txt_jpg))
              2023 "France" "Lyon/Croix Rousse"
              (location_folder 2023 "France" "Lyon/Croix Rousse")
              (wfb_sound fs_txt_jpg eq_refl) eq_refl)
    as [_ [D [_ [_ [F _]]]]].
  split; [exact D|]. now apply F.
Defined.

(** ** The answers of POST /api/create-folder *)






(** A regular file below a path that is longer stops the resolution. *)
Lemma walk_file (r : node) (ps : list string) :
  all_plain ps ->
  forall (st : location) (k : nat) (m sz : Z),
    lookup r (st ++ firstn k ps) = Some (File m sz) ->
    k < List.length ps ->
    walk r st ps = Fail ENOTDIR.
Proof.
  induction 1 as [|c ps Pc _ IH]; intros st k m sz L Hk;
    [cbn in Hk; lia|].
  cbn [walk]. destruct k as [|k].
  - cbn [firstn] in L. rewrite app_nil_r in L. now rewrite L.
  - cbn [firstn] in L.
    destruct (lookup_inner r st c _ _ L) as [es ->].
    rewrite (plain_not_dotdot c Pc).
    apply (IH (st ++ [c]) k m sz).
    + now rewrite <- app_assoc.
    + cbn in Hk. lia.
Qed.

Lemma create_folder_raises (request : FolderRequest) (fs : FS) (e : exn) :
  makeFolder (fr_country request) (fr_city request) (fr_year request) fs
    = (Raise e, fs) ->
  create_folder request fs
  = (Raise (HTTPException 500 (TextOf "Failed to create folder: " e)), fs).
Proof.
  intros H. unfold create_folder, try_, bind. rewrite H.
  cbn [dispatch failed]. now destruct e.
Qed.

(** [makeFolder] with a regular file standing at the folder path or
    above it. *)
Lemma makeFolder_blocked (fs : FS) (year : Z) (country city : string)
    (k : nat) (m sz : Z) :
  plain country = true -> plain city = true ->
  lookup (root fs) (firstn k ["content"; str_int year; country; city])
    = Some (File m sz) ->
  makeFolder country city year fs
  = (Raise (OSError (if (k <? 4)%nat then ENOTDIR else EEXIST)), fs).
Proof.
  intros Hc Hci L.
  pose proof (location_parts_plain year country city Hc Hci) as Hps.
  set (ps := ["content"; str_int year; country; city]) in *.
  unfold makeFolder, Path_mkdir, bind.
  rewrite (location_folder_plain year country city Hc Hci).
  fold ps. rewrite mkdir_rec_eq.
  destruct (k <? 4)%nat eqn:Hk.
  - apply Nat.ltb_lt in Hk.
    assert (R : resolve fs (mkPath true ps) = Fail ENOTDIR).
    { unfold resolve, start. cbn [is_absolute parts].
      now apply (walk_file (root fs) ps Hps [] k m sz). }
    unfold os_mkdir, Path_is_dir, os_stat. now rewrite R.
  - apply Nat.ltb_ge in Hk.
    rewrite firstn_all2 in L by exact Hk.
    pose proof (resolve_plain fs ps _ Hps L) as R.
    unfold os_mkdir, Path_is_dir, os_stat. now rewrite R, L.
Qed.

(** X7.  With a regular file standing at the folder path or above it, POST
    /api/create-folder answers 500 and changes nothing: the file is neither
    replaced nor removed. The cause is [FileExistsError] when the file
    stands at the folder path itself, [NotADirectoryError] when it stands
    above. (Country and city single path components.) *)
Theorem create_folder_blocked_by_file :
  forall (fs : FS) (request : FolderRequest) (k : nat) (m sz : Z),
    plain (fr_country request) = true ->
    plain (fr_city request) = true ->
    lookup (root fs)
      (firstn k ["content"; str_int (fr_year request); fr_country request;
                 fr_city request]) = Some (File m sz) ->
    create_folder request fs
    = (Raise (HTTPException 500
                (TextOf "Failed to create folder: "
                   (OSError (if (k <? 4)%nat then ENOTDIR else EEXIST)))),
       fs)
    /\ http_status (fst (create_folder request fs)) = Some 500.
Proof.
  intros fs request k m sz Hc Hci L.
  pose proof (create_folder_raises request fs _
                (makeFolder_blocked fs _ _ _ k m sz Hc Hci L)) as Run.
  split; [exact Run|now rewrite Run].
Qed.

Lemma create_folder_blocked_witness :
  create_folder req_lyon fs_lyon_file
  = (Raise (HTTPException 500
              (TextOf "Failed to create folder: " (OSError EEXIST))),
     fs_lyon_file)
  /\ create_folder (mkFolderRequest "pic.jpg" "x" 2023) fs_year_pic
     = (Raise (HTTPException 500
                 (TextOf "Failed to create folder: " (OSError ENOTDIR))),
        fs_year_pic).
Proof.
  split.
  - exact (proj1 (create_folder_blocked_by_file fs_lyon_file req_lyon 4 7 8
                    eq_refl eq_refl eq_refl)).
  - exact (proj1 (create_folder_blocked_by_file fs_year_pic
                    (mkFolderRequest "pic.jpg" "x" 2023) 3 1 2
                    eq_refl eq_refl eq_refl)).
Defined.







End CreateProps.
(* ================================================================== *)
(** * Sorting by date: what is kept, what comes out, running it again *)

Module SortProps.
Import PyStr Pathlib FileSystem Py Lib Main Spec Samples.
Import StrFacts FsFacts PyFacts Listing Pins Mkdir Rename Search Move.
Import SortFacts SortDate ThreeFiles SortClaims Tree.

Lemma mem_cons (x k : string) (l : list string) :
  mem x (k :: l) = (x =? k) || mem x l.
Proof. reflexivity. Qed.

Lemma others_nil (order : list string) : others order [] = [].
Proof. reflexivity. Qed.

Lemma others_step (order : list string) (e : string * node) (es : entries) :
  others order (e :: es)
  = if regular e && negb (mem (fst e) order)
    then e :: others order es else others order es.
Proof.
  unfold others. cbn [filter].
  destruct (regular e); cbn [andb filter]; [|reflexivity].
  now destruct (mem (fst e) order).
Qed.

Lemma others_none (es : entries) : others [] es = filter regular es.
Proof.
  induction es as [|e es IH]; [reflexivity|].
  rewrite others_step. unfold mem. cbn [existsb negb filter].
  rewrite andb_true_r. destruct (regular e); now rewrite IH.
Qed.

Lemma others_absent (k : string) (order : list string) (es : entries) :
  ~ In k (names es) -> others (k :: order) es = others order es.
Proof.
  induction es as [|e es IH]; intros H; [reflexivity|].
  rewrite !others_step, mem_cons.
  assert (E : (fst e =? k) = false).
  { apply String.eqb_neq. intros <-. apply H. now left. }
  rewrite E. cbn [orb]. rewrite IH; [reflexivity|].
  intros Hin. apply H. now right.
Qed.

(** Taking one more file out of the others. *)
Lemma others_cons (k : string) (n : node) (order : list string)
    (es : entries) :
  NoDup (names es) -> assoc k es = Some n -> is_file_node n = true ->
  ~ In k order ->
  Permutation (others order es) ((k, n) :: others (k :: order) es).
Proof.
  induction es as [|[k1 n1] es IH]; intros ND A Fn Ho; [discriminate|].
  cbn [names map fst] in ND. inversion ND as [|? ? Hk1 ND']; subst.
  rewrite !others_step, mem_cons. cbn [fst]. cbn [assoc] in A.
  destruct (String.eqb_spec k k1) as [->|Hne].
  - injection A as ->. rewrite String.eqb_refl. cbn [orb negb].
    rewrite andb_false_r. unfold regular. cbn [snd]. rewrite Fn.
    apply mem_false in Ho. rewrite Ho. cbn [negb andb].
    now rewrite (others_absent k1 order es Hk1).
  - assert (E : (k1 =? k) = false) by (apply String.eqb_neq; congruence).
    rewrite E. cbn [orb].
    destruct (regular (k1, n1) && negb (mem k1 order)).
    + rewrite (IH ND' A Fn Ho). apply perm_swap.
    + now apply IH.
Qed.

Lemma others_removed (k : string) (order : list string) (es : entries) :
  others order (remove_entry k es) = others (k :: order) es.
Proof.
  induction es as [|e es IH]; [reflexivity|].
  unfold remove_entry in *. cbn [filter].
  rewrite others_step, mem_cons.
  destruct (fst e =? k); cbn [negb orb].
  - now rewrite andb_false_r.
  - rewrite others_step. now rewrite IH.
Qed.

Lemma others_added (k : string) (n : node) (order : list string)
    (es : entries) :
  is_file_node n = true -> ~ In k order ->
  others order (add_entry k n es) = others order es ++ [(k, n)].
Proof.
  intros Fn Ho. unfold others, add_entry. rewrite !filter_app.
  f_equal. cbn [filter]. unfold regular at 1. cbn [snd fst]. rewrite Fn.
  cbn [filter fst]. apply mem_false in Ho. now rewrite Ho.
Qed.

Lemma free_name_prefixed (taken : list string) (i : nat) (k : string) :
  startswith (free_name taken i k) (sort_prefix i) = true.
Proof.
  unfold free_name.
  destruct (mem (sort_name i k) taken);
    [destruct (first_free _ 1 (List.length taken + 1))|];
    rewrite ?sort_name_prefix, ?sort_name_n_prefix; apply startswith_app.
Qed.

(** What the loop of [sortDate] leaves of the files it goes through:
    each one under a name that bears the prefix of its position, with the
    content it had; the other files and the directories as they were. *)
Lemma renumber_files :
  forall (ord : entries) (i : nat) (es : entries),
    wf_entries es ->
    NoDup (names ord) ->
    (forall k n, In (k, n) ord ->
                 assoc k es = Some n /\ is_file_node n = true) ->
    exists C : entries,
      map snd C = map snd ord
      /\ numbered_from i (names C) = true
      /\ Permutation (filter regular (renumber i (names ord) es))
           (others (names ord) es ++ C)
      /\ wf_entries (renumber i (names ord) es)
      /\ same_dirs es (renumber i (names ord) es)
      /\ List.length (renumber i (names ord) es) <= List.length es.
Proof.
  induction ord as [|[k n] ord IH]; intros i es W ND Hin.
  - exists []. cbn [names map renumber]. rewrite app_nil_r.
    split; [reflexivity|]. split; [reflexivity|].
    split; [now rewrite others_none|].
    split; [exact W|]. split; [apply same_dirs_refl|lia].
  - cbn [names map fst] in ND. inversion ND as [|? ? Hk ND']; subst.
    destruct (Hin k n (or_introl eq_refl)) as [A Fn].
    destruct n as [m sz|]; [|discriminate].
    assert (Pk : plain k = true).
    { apply (plain_entry es k W). apply mem_In.
      now apply (mem_assoc_some k es (File m sz)). }
    destruct (place_keeps i k es m sz W Pk A) as [W2 [S2 [L2 Keep]]].
    assert (Sub : forall k' n', In (k', n') ord ->
                                assoc k' es = Some n'
                                /\ is_file_node n' = true).
    { intros k' n' H. apply Hin. now right. }
    assert (Hin2 : forall k' n', In (k', n') ord ->
                                 assoc k' (place i k es) = Some n'
                                 /\ is_file_node n' = true).
    { intros k' n' H. destruct (Sub k' n' H) as [A' F'].
      split; [|exact F']. rewrite Keep; [exact A'| |].
      - intros ->. apply Hk. apply in_map_iff. now exists (k, n').
      - apply mem_In. now apply (mem_assoc_some k' es n'). }
    destruct (IH (S i) (place i k es) W2 ND' Hin2)
      as [C [C1 [C2 [C3 [C4 [C5 C6]]]]]].
    cbn [names map fst renumber]. fold (names ord).
    assert (Ho : ~ In k (names ord)) by exact Hk.
    unfold place in C3, C4, C5, C6, S2, L2 |- *.
    destruct (startswith k (sort_prefix i)) eqn:Pre.
    + exists ((k, File m sz) :: C).
      split; [cbn [map snd]; now rewrite C1|].
      split; [cbn [names map fst numbered_from]; fold (names C);
              now rewrite Pre, C2|].
      split.
      { rewrite C3.
        rewrite (others_cons k (File m sz) (names ord) es (proj1 W) A
                   eq_refl Ho).
        cbn [List.app]. apply Permutation_middle. }
      split; [exact C4|]. split; [exact C5|exact C6].
    + set (t := free_name (names es) i k) in *.
      rewrite (move_entry_file k t es _ A) in *.
      assert (Ht : ~ In t (names ord)).
      { intros H. apply in_map_iff in H as [[k' n'] [E H]].
        cbn [fst] in E. subst k'. destruct (Sub t n' H) as [A' _].
        pose proof (free_name_free (names es) i k) as Free. fold t in Free.
        now rewrite (mem_assoc_some t es n' A') in Free. }
      exists ((t, File m sz) :: C).
      split; [cbn [map snd]; now rewrite C1|].
      split; [cbn [names map fst numbered_from]; fold (names C);
              unfold t; now rewrite free_name_prefixed, C2|].
      split.
      { rewrite C3.
        rewrite (others_added t (File m sz) (names ord) _ eq_refl Ht).
        rewrite others_removed. now rewrite <- app_assoc. }
      split; [exact C4|].
      split; [exact (same_dirs_trans _ _ _ S2 C5)|lia].
Qed.

Lemma in_by_mtime (es : entries) (k : string) (n : node) :
  NoDup (names es) ->
  In (k, n) (by_mtime es) -> assoc k es = Some n /\ is_file_node n = true.
Proof.
  intros ND H.
  apply (Permutation_in _ (by_mtime_perm es)) in H.
  apply filter_In in H as [H R]. split; [now apply assoc_In|exact R].
Qed.

Lemma others_all (es : entries) : others (names (by_mtime es)) es = [].
Proof.
  unfold others.
  assert (H : forall e, In e (filter regular es) ->
                        negb (mem (fst e) (names (by_mtime es))) = false).
  { intros e He. apply negb_false_iff. apply mem_In. apply in_map.
    apply (Permutation_in _ (Permutation_sym (by_mtime_perm es))). exact He. }
  induction (filter regular es) as [|e l IH]; [reflexivity|].
  cbn [filter]. rewrite (H e (or_introl eq_refl)).
  apply IH. intros x Hx. apply H. now right.
Qed.

(** What [sortDate] leaves of a directory. *)
Lemma sorted_dir_files (es : entries) :
  wf_entries es ->
  exists C : entries,
    map snd C = map snd (by_mtime es)
    /\ numbered_from 0 (names C) = true
    /\ Permutation (filter regular (sorted_dir es)) C
    /\ wf_entries (sorted_dir es)
    /\ same_dirs es (sorted_dir es)
    /\ List.length (sorted_dir es) <= List.length es.
Proof.
  intros W.
  destruct (renumber_files (by_mtime es) 0 es W (order_NoDup es (proj1 W))
              (fun k n => in_by_mtime es k n (proj1 W)))
    as [C [C1 [C2 [C3 H]]]].
  exists C. rewrite others_all in C3.
  split; [exact C1|]. split; [exact C2|]. split; [exact C3|exact H].
Qed.

Lemma new_entries_of_same_dirs (es es' : entries) :
  same_dirs es es' ->
  forall key n, assoc key es' = Some n ->
                assoc key es = Some n \/ n = Dir [] \/ is_file_node n = true.
Proof.
  intros S key n A. destruct n as [m sz|sub]; [now right; right|].
  left. destruct (S key) as [E1 E2]. rewrite A in E1. cbn [dirness] in E1.
  now rewrite (E2 E1).
Qed.

(** The state [sortDate] leaves, and what still holds of it. *)
Lemma sortDate_after (fs : FS) (fuel : nat) (path : string) (d : location)
    (es : entries) :
  wf fs ->
  resolve fs (Path_of path) = Done d ->
  lookup (root fs) d = Some (Dir es) ->
  List.length es + 1 < fuel ->
  exists fs',
    fs' = mkFS (alter_dir (fun _ => sorted_dir es) (root fs) d) (cwd fs)
    /\ sortDate fuel path fs = (Ok tt, fs')
    /\ wf fs'
    /\ resolve fs' (Path_of path) = Done d
    /\ lookup (root fs') d = Some (Dir (sorted_dir es))
    /\ List.length (sorted_dir es) + 1 < fuel.
Proof.
  intros W R L Hf. eexists. split; [reflexivity|].
  destruct (sorted_dir_files es (proj2 W d es L))
    as [C [_ [_ [_ [W' [S Len]]]]]].
  split; [now apply sortDate_run|]. cbn [root cwd]. split.
  { split; [cbn [root]; rewrite is_dir_alter; exact (proj1 W)|].
    cbn [root].
    apply (wf_node_alter (fun _ => sorted_dir es) d (root fs) es (proj2 W) L
             W').
    now apply new_entries_of_same_dirs. }
  split.
  { unfold resolve, start in *. cbn [root cwd].
    apply (walk_same_dirness (root fs)); [|exact R].
    intros loc.
    exact (dirness_alter (fun _ => sorted_dir es) d (root fs) es loc L S). }
  split; [|lia].
  exact (lookup_alter_same (fun _ => sorted_dir es) d (root fs) es L).
Qed.

(** X10.  [sortDate] loses nothing and touches nothing else. On a directory
    of a well-formed tree it returns; afterwards the regular files of the
    directory are the ones it held, each with its size and date, only their
    names may differ; its subdirectories are as they were; whatever is not
    directly inside the directory is unchanged; and the tree is well-formed
    still. *)
Theorem sortDate_keeps_files :
  forall (fs : FS) (fuel : nat) (path : string) (d : location)
         (es : entries),
    wf fs ->
    resolve fs (Path_of path) = Done d ->
    lookup (root fs) d = Some (Dir es) ->
    List.length es + 1 < fuel ->
    exists (fs' : FS) (es' : entries),
      sortDate fuel path fs = (Ok tt, fs')
      /\ lookup (root fs') d = Some (Dir es')
      /\ Permutation (map snd (filter regular es'))
           (map snd (filter regular es))
      /\ List.length (filter regular es') = List.length (filter regular es)
      /\ (forall key sub, assoc key es = Some (Dir sub)
                          <-> assoc key es' = Some (Dir sub))
      /\ (forall loc, (forall key, loc <> d ++ [key]) ->
                      option_map shallow (lookup (root fs') loc)
                      = option_map shallow (lookup (root fs) loc))
      /\ wf fs'
      /\ cwd fs' = cwd fs.
Proof.
  intros fs fuel path d es W R L Hf.
  destruct (sortDate_after fs fuel path d es W R L Hf)
    as [fs' [E [Run [W' [_ [L' _]]]]]].
  destruct (sorted_dir_files es (proj2 W d es L))
    as [C [C1 [_ [C3 [_ [S _]]]]]].
  exists fs', (sorted_dir es).
  assert (P : Permutation (map snd (filter regular (sorted_dir es)))
                (map snd (filter regular es))).
  { rewrite (Permutation_map snd C3), C1.
    apply Permutation_map. apply by_mtime_perm. }
  split; [exact Run|]. split; [exact L'|]. split; [exact P|]. split.
  { rewrite <- (length_map snd (filter regular (sorted_dir es))).
    rewrite <- (length_map snd (filter regular es)).
    now apply Permutation_length. }
  split.
  { intros key sub. destruct (S key) as [E1 E2]. split; intros A.
    - rewrite <- E2; [exact A|now rewrite A].
    - rewrite A in E1. rewrite E2; [exact A|exact E1]. }
  split.
  { intros loc Hloc. subst fs'. cbn [root].
    exact (shallow_alter (fun _ => sorted_dir es) d (root fs) es loc L S
             Hloc). }
  split; [exact W'|now subst fs'].
Qed.

Lemma sortDate_keeps_files_witness :
  exists (fs' : FS) (es' : entries),
    sortDate 10 "/content/2023/France/Paris" fs_three = (Ok tt, fs')
    /\ lookup (root fs') ["content"; "2023"; "France"; "Paris"]
       = Some (Dir es')
    /\ Permutation (map snd (filter regular es'))
         [File 30 300; File 10 100; File 20 200].
Proof.
  destruct (sortDate_keeps_files fs_three 10 "/content/2023/France/Paris"
              ["content"; "2023"; "France"; "Paris"]
              [("c.jpg", File 30 300); ("a.jpg", File 10 100);
               ("b.jpg", File 20 200)]
              (wfb_sound fs_three eq_refl) eq_refl eq_refl
              ltac:(cbn; lia))
    as [fs' [es' [H1 [H2 [H3 _]]]]].
  exists fs', es'. exact (conj H1 (conj H2 H3)).
Defined.

(** ** After sorting *)












(** ** What [sortDate] raises *)





(** ** Sorting and the pins *)








End SortProps.
(* ================================================================== *)
(** * Moving an image: the other runs of [moveFolder] *)

Module MoveProps.
Import PyStr Pathlib FileSystem Py Lib Main Spec Samples.
Import StrFacts FsFacts PyFacts Listing Pins Mkdir Rename Search Move.
Import SortFacts SortDate CreateClaims Tree CreateProps.

(** The run of [moveFolder] when the destination does not hold the
    name. *)
Lemma moveFolder_free_steps (fs : FS) (fuel : nat)
    (imageId sourceFolder : string) (dest : Path) (ds dd : location)
    (es_s es_d : entries) (m sz : Z) :
  plain imageId = true ->
  normal dest ->
  resolve fs (Path_of sourceFolder) = Done ds ->
  lookup (root fs) ds = Some (Dir es_s) ->
  assoc imageId es_s = Some (File m sz) ->
  resolve fs dest = Done dd ->
  lookup (root fs) dd = Some (Dir es_d) ->
  assoc imageId es_d = None ->
  0 < fuel ->
  moveFolder fuel (VStr imageId) (VPath dest) (VStr sourceFolder) fs
  = (Ok tt,
     mkFS (alter_dir (add_entry imageId (File m sz))
             (alter_dir (remove_entry imageId) (root fs) ds) dd)
          (cwd fs)).
Proof.
  intros Hk Nd Hps Hds Ak Hpd Hdd Ak' Hf.
  unfold moveFolder.
  unfold bind at 1, py_Path at 1, ret at 1.
  unfold bind at 1, path_truediv at 1, ret at 1.
  unfold bind at 1, gets at 1. unfold Path_exists at 1.
  rewrite (stat_dir fs _ dd _ Hpd Hdd). cbn [negb].
  unfold bind at 1, ret at 1.
  unfold bind at 1, path_truediv at 1, ret at 1.
  unfold bind at 1.
  rewrite while_free.
  - cbn [fst]. unfold bind at 1, gets at 1.
    rewrite (exists_child fs _ ds es_s imageId Hps Hds Hk).
    rewrite (mem_assoc_some imageId es_s _ Ak). cbn [negb].
    apply (shutil_move_file fs _ dest ds dd es_s es_d); auto.
    apply normal_Path_of.
  - intros q c. reflexivity.
  - rewrite (exists_child fs dest dd es_d imageId Hpd Hdd Hk).
    rewrite assoc_mem. now rewrite Ak'.
  - exact Hf.
Qed.

Lemma snoc_prefix {A} (a b : list A) (x y : A) (rest : list A) :
  rest <> [] -> a ++ [x] = b ++ y :: rest -> exists l, a = b ++ y :: l.
Proof.
  intros Hr E. destruct (exists_last Hr) as [l [z ->]]. exists l.
  rewrite app_comm_cons, app_assoc in E.
  now apply app_inj_tail in E as [E _].
Qed.

(** Where everything is after a regular file went from one directory
    to a free name of a directory, the same one or another. *)
Lemma moved_frame (r : node) (ds dd : location) (es_s es_d : entries)
    (k k' : string) (m sz : Z) :
  lookup r ds = Some (Dir es_s) ->
  assoc k es_s = Some (File m sz) ->
  lookup r dd = Some (Dir es_d) ->
  assoc k' es_d = None ->
  forall r2,
    r2 = alter_dir (add_entry k' (File m sz))
           (alter_dir (remove_entry k) r ds) dd ->
    lookup r2 (dd ++ [k']) = Some (File m sz)
    /\ lookup r2 (ds ++ [k]) = None
    /\ (forall loc,
          (forall rest, loc <> ds ++ k :: rest) ->
          (forall rest, loc <> dd ++ k' :: rest) ->
          option_map shallow (lookup r2 loc)
          = option_map shallow (lookup r loc)).
Proof.
  intros Hds Ak Hdd Ak' r2 ->.
  set (r1 := alter_dir (remove_entry k) r ds).
  assert (F1 : forall loc,
             (forall rest, loc <> ds ++ k :: rest) ->
             option_map shallow (lookup r1 loc)
             = option_map shallow (lookup r loc)).
  { intros loc Hloc. apply (lookup_alter_frame _ ds r es_s loc Hds).
    intros key rest ->. rewrite assoc_remove.
    destruct (String.eqb_spec key k) as [->|_]; [|reflexivity].
    now destruct (Hloc rest). }
  assert (Below_s : forall rest, dd <> ds ++ k :: rest).
  { intros rest E. rewrite E, lookup_app, Hds, lookup_step, Ak in Hdd.
    now destruct rest. }
  assert (Below_d : forall rest, ds <> dd ++ k' :: rest).
  { intros rest E. rewrite E, lookup_app, Hdd, lookup_step, Ak' in Hds.
    discriminate Hds. }
  assert (Same : ds = dd -> es_s = es_d) by (intros <-; congruence).
  assert (Apart_s : forall rest, dd ++ [k'] <> ds ++ k :: rest).
  { intros [|x rest] E.
    - apply app_inj_tail in E as [E1 E2]. subst.
      rewrite (Same eq_refl) in Ak. congruence.
    - destruct (snoc_prefix dd ds k' k (x :: rest)) as [l El];
        [discriminate|exact E|]. now destruct (Below_s l). }
  assert (Apart_d : forall rest, ds ++ [k] <> dd ++ k' :: rest).
  { intros [|x rest] E.
    - apply app_inj_tail in E as [E1 E2]. subst.
      rewrite (Same eq_refl) in Ak. congruence.
    - destruct (snoc_prefix ds dd k k' (x :: rest)) as [l El];
        [discriminate|exact E|]. now destruct (Below_d l). }
  assert (D1 : exists e1, lookup r1 dd = Some (Dir e1)).
  { pose proof (F1 dd Below_s) as Sh. rewrite Hdd in Sh.
    destruct (lookup r1 dd) as [[|e1]|]; try discriminate. now exists e1. }
  destruct D1 as [e1 L1].
  assert (N1 : assoc k' e1 = None).
  { apply shallow_none. rewrite <- (lookup_child r1 dd e1 k' L1).
    rewrite (F1 _ Apart_s).
    now rewrite (lookup_child r dd es_d k' Hdd), Ak'. }
  assert (L2 : lookup
                 (alter_dir (add_entry k' (File m sz)) r1 dd) dd
               = Some (Dir (add_entry k' (File m sz) e1)))
    by now apply lookup_alter_same.
  assert (F2 : forall loc,
             (forall rest, loc <> dd ++ k' :: rest) ->
             option_map shallow
               (lookup (alter_dir (add_entry k' (File m sz)) r1 dd) loc)
             = option_map shallow (lookup r1 loc)).
  { intros loc Hloc. apply (lookup_alter_frame _ dd r1 e1 loc L1).
    intros key rest ->. rewrite assoc_add.
    destruct (assoc key e1); [reflexivity|].
    destruct (String.eqb_spec key k') as [->|_]; [|reflexivity].
    now destruct (Hloc rest). }
  split; [|split].
  - rewrite (lookup_child _ dd _ k' L2), assoc_add, N1.
    now rewrite String.eqb_refl.
  - apply shallow_none. rewrite (F2 _ Apart_d). unfold r1.
    rewrite (lookup_child _ ds (remove_entry k es_s) k
               (lookup_alter_same _ ds r es_s Hds)).
    now rewrite assoc_remove, String.eqb_refl.
  - intros loc H1 H2. now rewrite F2, F1.
Qed.

Lemma classic_prefix (loc d : location) (k : string) :
  (exists rest, loc = d ++ k :: rest) \/ ~ (exists rest, loc = d ++ k :: rest).
Proof.
  revert loc. induction d as [|c d IH]; intros loc.
  - destruct loc as [|x loc]; [right; intros [rest E]; discriminate|].
    destruct (string_dec x k) as [->|Hne].
    + left. now exists loc.
    + right. intros [rest E]. injection E as E _. contradiction.
  - destruct loc as [|x loc]; [right; intros [rest E]; discriminate|].
    destruct (string_dec x c) as [->|Hne].
    + destruct (IH loc) as [[rest ->]|N].
      * left. now exists rest.
      * right. intros [rest E]. injection E as E. apply N. now exists rest.
    + right. intros [rest E]. injection E as E _. contradiction.
Qed.

(** Every other location is as it was. *)
Lemma moved_elsewhere (r : node) (ds dd : location) (es_s es_d : entries)
    (k k' : string) (m sz : Z) :
  lookup r ds = Some (Dir es_s) ->
  assoc k es_s = Some (File m sz) ->
  lookup r dd = Some (Dir es_d) ->
  assoc k' es_d = None ->
  forall r2,
    r2 = alter_dir (add_entry k' (File m sz))
           (alter_dir (remove_entry k) r ds) dd ->
    forall loc,
      loc <> ds ++ [k] -> loc <> dd ++ [k'] ->
      option_map shallow (lookup r2 loc) = option_map shallow (lookup r loc).
Proof.
  intros Hds Ak Hdd Ak' r2 E loc N1 N2.
  destruct (moved_frame r ds dd es_s es_d k k' m sz Hds Ak Hdd Ak' r2 E)
    as [M1 [M2 M3]].
  assert (Through : forall (t : node) (a : location) (x : string)
                           (rest : location),
             lookup t a = None
             \/ (exists m sz, lookup t a = Some (File m sz)) ->
             lookup t (a ++ x :: rest) = None).
  { intros t a x rest [H|[m0 [sz0 H]]]; now rewrite lookup_app, H. }
  destruct (classic_prefix loc ds k) as [[rest ->]|NP1].
  - destruct rest as [|x rest]; [now destruct N1|].
    change (ds ++ k :: x :: rest) with (ds ++ [k] ++ x :: rest).
    rewrite app_assoc.
    rewrite (Through r2), (Through r); auto.
    right. exists m, sz. now rewrite (lookup_child r ds es_s k Hds).
  - destruct (classic_prefix loc dd k') as [[rest ->]|NP2].
    + destruct rest as [|x rest]; [now destruct N2|].
      change (dd ++ k' :: x :: rest) with (dd ++ [k'] ++ x :: rest).
      rewrite app_assoc.
      rewrite (Through r2), (Through r); auto.
      * left. now rewrite (lookup_child r dd es_d k' Hdd).
      * right. now exists m, sz.
    + apply M3; intros rest E'; [apply NP1|apply NP2]; now exists rest.
Qed.

(** X15.  With the name free at the destination, [moveFolder] moves the file
    under its own name: afterwards it is in the destination folder with its
    size and date, it is no longer in the source folder, and every other
    location of the tree is as it was. (Called with a path object for
    destination, the image name a single path component.) *)
Theorem moveFolder_free_name :
  forall (fs : FS) (fuel : nat) (imageId sourceFolder destination : string)
         (ds dd : location) (es_s es_d : entries) (m sz : Z),
    plain imageId = true ->
    resolve fs (Path_of sourceFolder) = Done ds ->
    lookup (root fs) ds = Some (Dir es_s) ->
    assoc imageId es_s = Some (File m sz) ->
    resolve fs (Path_of destination) = Done dd ->
    lookup (root fs) dd = Some (Dir es_d) ->
    assoc imageId es_d = None ->
    0 < fuel ->
    exists fs',
      moveFolder fuel (VStr imageId) (VPath (Path_of destination))
        (VStr sourceFolder) fs = (Ok tt, fs')
      /\ lookup (root fs') (dd ++ [imageId]) = Some (File m sz)
      /\ lookup (root fs') (ds ++ [imageId]) = None
      /\ (forall loc,
            loc <> ds ++ [imageId] -> loc <> dd ++ [imageId] ->
            option_map shallow (lookup (root fs') loc)
            = option_map shallow (lookup (root fs) loc))
      /\ cwd fs' = cwd fs.
Proof.
  intros fs fuel imageId sourceFolder destination ds dd es_s es_d m sz
         Hk Hps Hds Ak Hpd Hdd Ak' Hf.
  eexists. split.
  - apply (moveFolder_free_steps fs fuel imageId sourceFolder
             (Path_of destination) ds dd es_s es_d m sz); auto.
    apply normal_Path_of.
  - cbn [root cwd].
    destruct (moved_frame (root fs) ds dd es_s es_d imageId imageId m sz
                Hds Ak Hdd Ak' _ eq_refl) as [M1 [M2 _]].
    split; [exact M1|]. split; [exact M2|]. split; [|reflexivity].
    exact (moved_elsewhere (root fs) ds dd es_s es_d imageId imageId m sz
             Hds Ak Hdd Ak' _ eq_refl).
Qed.

Lemma moveFolder_free_name_witness :
  exists fs',
    moveFolder 1 (VStr "b.jpg") (VPath (Path_of "/content/static"))
      (VStr "/content/inbox") fs_inbox = (Ok tt, fs')
    /\ lookup (root fs') (["content"; "static"] ++ ["b.jpg"])
       = Some (File 300 999)
    /\ lookup (root fs') (["content"; "inbox"] ++ ["b.jpg"]) = None.
Proof.
  destruct (moveFolder_free_name fs_inbox 1 "b.jpg" "/content/inbox"
              "/content/static" ["content"; "inbox"] ["content"; "static"]
              [("b.jpg", File 300 999)] [] 300 999
              eq_refl eq_refl eq_refl eq_refl eq_refl eq_refl eq_refl
              (le_n 1))
    as [fs' [H1 [H2 [H3 _]]]].
  exists fs'. exact (conj H1 (conj H2 H3)).
Defined.

(** X16.  Moving an image into the folder it already lies in renames it: the
    destination holds the name (the file itself), so [moveFolder] looks for
    the first free name with a counter, from 1 on, and the file ends under
    that name, [stem_1.ext] when that is free. The old name is gone, and
    every other location is as it was. *)
Theorem moveFolder_same_folder :
  forall (fs : FS) (fuel : nat) (imageId sourceFolder destination : string)
         (d : location) (es : entries) (m sz : Z),
    plain imageId = true ->
    resolve fs (Path_of sourceFolder) = Done d ->
    resolve fs (Path_of destination) = Done d ->
    lookup (root fs) d = Some (Dir es) ->
    assoc imageId es = Some (File m sz) ->
    List.length es + 1 < fuel ->
    exists (j : nat) (fs' : FS),
      moveFolder fuel (VStr imageId) (VPath (Path_of destination))
        (VStr sourceFolder) fs = (Ok tt, fs')
      /\ 1 <= j
      /\ (forall i, 1 <= i < j -> In (renamed imageId i) (names es))
      /\ ~ In (renamed imageId j) (names es)
      /\ lookup (root fs')
           (d ++ [(name_stem imageId ++ "_" ++ str_nat j
                   ++ name_suffix imageId)%string])
         = Some (File m sz)
      /\ lookup (root fs') (d ++ [imageId]) = None
      /\ (forall loc,
            loc <> d ++ [imageId] ->
            loc <> d ++ [renamed imageId j] ->
            option_map shallow (lookup (root fs') loc)
            = option_map shallow (lookup (root fs) loc)).
Proof.
  intros fs fuel imageId sourceFolder destination d es m sz
         Hk Hps Hpd Hd Ak Hf.
  destruct (first_free_pigeon (renamed imageId) (names es) 1
              (renamed_inj imageId)) as [j FF].
  unfold names in FF at 2. rewrite length_map in FF.
  destruct (first_free_spec _ _ _ _ FF) as [B [F Least]].
  exists j. eexists. split.
  - apply (moveFolder_steps fs fuel imageId sourceFolder destination d d
             es es m sz (File m sz) j); auto.
  - cbn [root].
    pose proof (mem_assoc_none _ _ F) as Free.
    destruct (moved_frame (root fs) d d es es imageId (renamed imageId j)
                m sz Hd Ak Hd Free _ eq_refl) as [M1 [M2 _]].
    split; [lia|]. split.
    { intros i Hi. apply mem_In. apply Least. lia. }
    split; [now apply mem_false|]. split; [exact M1|].
    split; [exact M2|].
    exact (moved_elsewhere (root fs) d d es es imageId (renamed imageId j)
             m sz Hd Ak Hd Free _ eq_refl).
Qed.

Lemma moveFolder_same_folder_witness :
  exists (j : nat) (fs' : FS),
    moveFolder 10 (VStr "b.jpg") (VPath (Path_of "/content/inbox"))
      (VStr "/content/inbox") fs_inbox = (Ok tt, fs')
    /\ 1 <= j
    /\ (forall i, 1 <= i < j ->
                  In (renamed "b.jpg" i) (names [("b.jpg", File 300 999)]))
    /\ lookup (root fs')
         (["content"; "inbox"]
          ++ [(name_stem "b.jpg" ++ "_" ++ str_nat j
               ++ name_suffix "b.jpg")%string])
       = Some (File 300 999)
    /\ lookup (root fs') (["content"; "inbox"] ++ ["b.jpg"]) = None.
Proof.
  destruct (moveFolder_same_folder fs_inbox 10 "b.jpg" "/content/inbox"
              "/content/inbox" ["content"; "inbox"]
              [("b.jpg", File 300 999)] 300 999
              eq_refl eq_refl eq_refl eq_refl eq_refl ltac:(cbn; lia))
    as [j [fs' [H1 [H2 [H3 [_ [H5 [H6 _]]]]]]]].
  exists j, fs'. exact (conj H1 (conj H2 (conj H3 (conj H5 H6)))).
Defined.

(** ** A source that is not there *)

(** The search for a free name returns, whatever it finds. *)
Lemma move_search (fs : FS) (fuel : nat) (imageId : string) (dest : Path)
    (dd : location) (es_d : entries) :
  plain imageId = true ->
  resolve fs dest = Done dd ->
  lookup (root fs) dd = Some (Dir es_d) ->
  List.length es_d + 1 < fuel ->
  exists st,
    while fuel
      (fun '(destination_path, _) =>
         gets (fun fs => Path_exists fs destination_path))
      (fun '(_, counter) =>
         ip <- py_Path (VStr imageId) ;;
         ret (truediv dest (move_name ip counter), counter + 1))
      (truediv dest imageId, 1) fs
    = (Ok st, fs).
Proof.
  intros Hk Hpd Hdd Hf.
  destruct (Path_exists fs (truediv dest imageId)) eqn:Ex.
  - destruct (first_free_pigeon (renamed imageId) (names es_d) 1
                (renamed_inj imageId)) as [j FF].
    unfold names in FF at 2. rewrite length_map in FF.
    eexists.
    apply (while_search fs (fun c => truediv dest (renamed imageId c)) _ _
             (List.length es_d + 1)) with (j := j).
    + intros q c. reflexivity.
    + intros q c. unfold bind, py_Path, ret.
      now rewrite (move_name_plain_name imageId c Hk).
    + exact Ex.
    + rewrite <- FF. apply first_free_ext. intros i.
      apply (exists_child fs dest dd es_d _ Hpd Hdd).
      now apply renamed_plain.
    + exact Hf.
  - eexists. apply while_free; [intros q c; reflexivity|exact Ex|lia].
Qed.

Lemma moveFolder_no_source (fs : FS) (fuel : nat)
    (imageId sourceFolder : string) (dest : Path) (dd : location)
    (es_d : entries) :
  plain imageId = true ->
  resolve fs dest = Done dd ->
  lookup (root fs) dd = Some (Dir es_d) ->
  Path_exists fs (truediv (Path_of sourceFolder) imageId) = false ->
  List.length es_d + 1 < fuel ->
  moveFolder fuel (VStr imageId) (VPath dest) (VStr sourceFolder) fs
  = (Raise (FileNotFoundError
              ("Source file '" ++ imageId ++ "' not found in '"
               ++ sourceFolder ++ "'")), fs).
Proof.
  intros Hk Hpd Hdd Hs Hf.
  destruct (move_search fs fuel imageId dest dd es_d Hk Hpd Hdd Hf)
    as [st Search].
  unfold moveFolder.
  unfold bind at 1, py_Path at 1, ret at 1.
  unfold bind at 1, path_truediv at 1, ret at 1.
  unfold bind at 1, gets at 1. unfold Path_exists at 1.
  rewrite (stat_dir fs _ dd _ Hpd Hdd). cbn [negb].
  unfold bind at 1, ret at 1.
  unfold bind at 1, path_truediv at 1, ret at 1.
  unfold bind at 1. rewrite Search.
  unfold bind at 1, gets at 1. rewrite Hs. reflexivity.
Qed.

(** A missing destination is made before anything is moved. *)
Lemma moveFolder_mkdir_first (fs fs1 : FS) (fuel : nat)
    (imageId sourceFolder : string) (dest : Path) :
  Path_exists fs dest = false ->
  Path_mkdir true true dest fs = (Ok tt, fs1) ->
  Path_exists fs1 dest = true ->
  moveFolder fuel (VStr imageId) (VPath dest) (VStr sourceFolder) fs
  = moveFolder fuel (VStr imageId) (VPath dest) (VStr sourceFolder) fs1.
Proof.
  intros E Mk E1. unfold moveFolder.
  unfold bind at 1, py_Path at 1, ret at 1.
  unfold bind at 1, path_truediv at 1, ret at 1.
  unfold bind at 1, gets at 1. rewrite E. cbn [negb].
  unfold bind at 1. rewrite Mk.
  symmetry.
  unfold bind at 1, py_Path at 1, ret at 1.
  unfold bind at 1, path_truediv at 1, ret at 1.
  unfold bind at 1, gets at 1. rewrite E1. cbn [negb].
  unfold bind at 1, ret at 1. reflexivity.
Qed.

Lemma mkdir_fresh (fs fs1 : FS) (ps : list string) :
  all_plain ps ->
  Path_exists fs (mkPath true ps) = false ->
  Path_mkdir true true (mkPath true ps) fs = (Ok tt, fs1) ->
  resolve fs1 (mkPath true ps) = Done ps
  /\ lookup (root fs1) ps = Some (Dir [])
  /\ Path_exists fs1 (mkPath true ps) = true.
Proof.
  intros P E Mk. unfold Path_mkdir in Mk.
  destruct (mkdir_rec_post _ ps true true fs fs1 P Mk) as [_ [es' [L N]]].
  rewrite (N (exists_false_plain fs ps P E)) in L.
  pose proof (resolve_plain fs1 ps _ P L) as R.
  split; [exact R|]. split; [exact L|].
  unfold Path_exists. now rewrite (stat_dir fs1 _ ps _ R L).
Qed.

(** X17.  When the source file is not there, [moveFolder] raises
    [FileNotFoundError] with the message naming the image and the source
    folder. With the destination a directory already, nothing has changed.
    With the destination absent, it has been made by then: the tree is left
    as [mkdir] left it, the destination an empty directory. (Image name a
    single path component, destination a path object; in the second case an
    anchored path of plain components.) *)
Theorem moveFolder_missing_source :
  forall (fs : FS) (fuel : nat) (imageId sourceFolder : string),
    plain imageId = true ->
    (forall (destination : string) (dd : location) (es_d : entries),
        resolve fs (Path_of destination) = Done dd ->
        lookup (root fs) dd = Some (Dir es_d) ->
        Path_exists fs (truediv (Path_of sourceFolder) imageId) = false ->
        List.length es_d + 1 < fuel ->
        moveFolder fuel (VStr imageId) (VPath (Path_of destination))
          (VStr sourceFolder) fs
        = (Raise (FileNotFoundError
                    ("Source file '" ++ imageId ++ "' not found in '"
                     ++ sourceFolder ++ "'")), fs))
    /\ (forall (ps : list string) (fs1 : FS),
          all_plain ps ->
          Path_exists fs (mkPath true ps) = false ->
          Path_mkdir true true (mkPath true ps) fs = (Ok tt, fs1) ->
          Path_exists fs1 (truediv (Path_of sourceFolder) imageId) = false ->
          1 < fuel ->
          moveFolder fuel (VStr imageId) (VPath (mkPath true ps))
            (VStr sourceFolder) fs
          = (Raise (FileNotFoundError
                      ("Source file '" ++ imageId ++ "' not found in '"
                       ++ sourceFolder ++ "'")), fs1)
          /\ lookup (root fs) ps = None
          /\ lookup (root fs1) ps = Some (Dir [])).
Proof.
  intros fs fuel imageId sourceFolder Hk. split.
  - intros destination dd es_d Hpd Hdd Hs Hf.
    now apply (moveFolder_no_source fs fuel imageId sourceFolder _ dd es_d).
  - intros ps fs1 P E Mk Hs Hf.
    destruct (mkdir_fresh fs fs1 ps P E Mk) as [R1 [L1 E1]].
    rewrite (moveFolder_mkdir_first fs fs1 fuel imageId sourceFolder _ E Mk E1).
    split; [|split; [now apply exists_false_plain|exact L1]].
    apply (moveFolder_no_source fs1 fuel imageId sourceFolder _ ps []);
      auto.
Qed.

Lemma moveFolder_missing_source_witness :
  moveFolder 5 (VStr "zz.jpg") (VPath (Path_of "/content/static"))
    (VStr "/content/inbox") fs_inbox
  = (Raise (FileNotFoundError
              "Source file 'zz.jpg' not found in '/content/inbox'"), fs_inbox)
  /\ lookup (root (snd (moveFolder 5 (VStr "zz.jpg") (VPath lyon)
                          (VStr "/content/inbox") fs_fresh)))
       ["content"; "2023"; "France"; "Lyon"] = Some (Dir []).
Proof.
  pose proof (moveFolder_missing_source fs_inbox 5 "zz.jpg" "/content/inbox"
                eq_refl) as [H1 _].
  pose proof (moveFolder_missing_source fs_fresh 5 "zz.jpg" "/content/inbox"
                eq_refl) as [_ H2].
  split.
  - exact (H1 "/content/static" ["content"; "static"] [] eq_refl eq_refl
             eq_refl ltac:(cbn; lia)).
  - destruct (H2 ["content"; "2023"; "France"; "Lyon"]
                (snd (Path_mkdir true true lyon fs_fresh))
                ltac:(repeat constructor) eq_refl eq_refl eq_refl
                ltac:(lia)) as [Run [_ L]].
    change (mkPath true ["content"; "2023"; "France"; "Lyon"]) with lyon in Run.
    rewrite Run. exact L.
Defined.

(** ** A destination that is not there *)

Lemma exists_plain_none (fs : FS) (ps : list string) :
  all_plain ps ->
  lookup (root fs) ps = None ->
  Path_exists fs (mkPath true ps) = false.
Proof.
  intros P L. unfold Path_exists, os_stat, resolve, start.
  cbn [is_absolute parts].
  destruct (walk (root fs) [] ps) as [loc|e] eqn:W; [|reflexivity].
  rewrite (walk_plain_done (root fs) ps P [] loc W). cbn [List.app].
  now rewrite L.
Qed.

Lemma all_plain_normal (ps : list string) :
  all_plain ps -> normal (mkPath true ps).
Proof.
  unfold all_plain, normal. cbn [parts]. apply Forall_impl.
  intros c. apply plain_normal.
Qed.

(** X18.  When the destination folder is absent, [moveFolder] makes it, with
    the folders above it that are missing, and moves the file there under
    its own name. Afterwards the file is in the destination with its size
    and date and no longer in the source folder; every other regular file is
    where and what it was, and every directory is one still. (Destination an
    anchored path of plain components with no regular file standing above
    it, image name a single path component.) *)
Theorem moveFolder_makes_destination :
  forall (fs : FS) (fuel : nat) (imageId sourceFolder : string)
         (ps : list string) (ds : location) (es_s : entries) (m sz : Z),
    plain imageId = true ->
    all_plain ps ->
    wf fs ->
    resolve fs (Path_of sourceFolder) = Done ds ->
    lookup (root fs) ds = Some (Dir es_s) ->
    assoc imageId es_s = Some (File m sz) ->
    lookup (root fs) ps = None ->
    no_file_on (root fs) ps ->
    0 < fuel ->
    exists fs',
      moveFolder fuel (VStr imageId) (VPath (mkPath true ps))
        (VStr sourceFolder) fs = (Ok tt, fs')
      /\ lookup (root fs') (ps ++ [imageId]) = Some (File m sz)
      /\ lookup (root fs') (ds ++ [imageId]) = None
      /\ (forall loc m' sz',
            loc <> ds ++ [imageId] ->
            lookup (root fs) loc = Some (File m' sz') ->
            lookup (root fs') loc = Some (File m' sz'))
      /\ (forall loc,
            dirness (lookup (root fs) loc) = true ->
            dirness (lookup (root fs') loc) = true).
Proof.
  intros fs fuel imageId sourceFolder ps ds es_s m sz
         Hk P W Hps Hds Ak Lps NF Hf.
  pose proof (exists_plain_none fs ps P Lps) as E.
  destruct (mkdir_rec_total (List.length ps) ps fs P (le_n _) (proj1 W) NF)
    as [fs1 Mk].
  change (mkdir_rec (List.length ps) true true (mkPath true ps) fs)
    with (Path_mkdir true true (mkPath true ps) fs) in Mk.
  destruct (mkdir_fresh fs fs1 ps P E Mk) as [R1 [L1 E1]].
  destruct (mkdir_rec_keeps _ (mkPath true ps) true true fs fs1
              (all_plain_normal ps P) eq_refl (proj2 W) Mk)
    as [[KF KD] [_ [C1 _]]].
  assert (Src : lookup (root fs1) (ds ++ [imageId]) = Some (File m sz)).
  { apply KF. now rewrite (lookup_child (root fs) ds es_s imageId Hds). }
  destruct (lookup_parent (root fs1) ds imageId _ Src) as [es1 [Hds1 Ak1]].
  assert (Hps1 : resolve fs1 (Path_of sourceFolder) = Done ds).
  { unfold resolve, start in *. rewrite C1.
    apply (walk_keeps (root fs)); [exact KD|exact Hps]. }
  rewrite (moveFolder_mkdir_first fs fs1 fuel imageId sourceFolder _ E Mk E1).
  eexists. split.
  - apply (moveFolder_free_steps fs1 fuel imageId sourceFolder
             (mkPath true ps) ds ps es1 [] m sz); auto.
    now apply all_plain_normal.
  - cbn [root].
    destruct (moved_frame (root fs1) ds ps es1 [] imageId imageId m sz
                Hds1 Ak1 L1 eq_refl _ eq_refl) as [M1 [M2 _]].
    pose proof (moved_elsewhere (root fs1) ds ps es1 [] imageId imageId m sz
                  Hds1 Ak1 L1 eq_refl _ eq_refl) as M3.
    assert (Absent : lookup (root fs) (ps ++ [imageId]) = None)
      by now apply lookup_none_child.
    split; [exact M1|]. split; [exact M2|]. split.
    + intros loc m' sz' N1 Hl. apply shallow_file.
      rewrite M3; [now rewrite (proj1 (KF loc m' sz') Hl)|exact N1|].
      intros ->. congruence.
    + intros loc D.
      assert (N1 : loc <> ds ++ [imageId]).
      { intros ->.
        now rewrite (lookup_child (root fs) ds es_s imageId Hds), Ak in D. }
      assert (N2 : loc <> ps ++ [imageId]).
      { intros ->. now rewrite Absent in D. }
      rewrite (shallow_dirness _ _ (M3 loc N1 N2)). now apply KD.
Qed.

Lemma moveFolder_makes_destination_witness :
  exists fs',
    moveFolder 1 (VStr "b.jpg")
      (VPath (mkPath true ["content"; "2023"; "France"; "Lyon"]))
      (VStr "/content/inbox") fs_inbox = (Ok tt, fs')
    /\ lookup (root fs') (["content"; "2023"; "France"; "Lyon"] ++ ["b.jpg"])
       = Some (File 300 999)
    /\ lookup (root fs') (["content"; "inbox"] ++ ["b.jpg"]) = None.
Proof.
  destruct (moveFolder_makes_destination fs_inbox 1 "b.jpg" "/content/inbox"
              ["content"; "2023"; "France"; "Lyon"] ["content"; "inbox"]
              [("b.jpg", File 300 999)] 300 999
              eq_refl ltac:(repeat constructor) (wfb_sound fs_inbox eq_refl)
              eq_refl eq_refl eq_refl eq_refl)
    as [fs' [H1 [H2 [H3 _]]]].
  - intros [|[|[|[|[|k]]]]] m sz; discriminate.
  - exact (le_n 1).
  - exists fs'. exact (conj H1 (conj H2 H3)).
Defined.

End MoveProps.
(* ================================================================== *)
(** * Suffixes of names *)

Module SuffixFacts.
Import PyStr Pathlib StrFacts.








End SuffixFacts.
(* ================================================================== *)
(** * Uploading *)

Module UploadProps.
Import PyStr Pathlib FileSystem Py Lib Main Spec Samples.
Import StrFacts FsFacts PyFacts Listing Pins Mkdir CreateClaims Rename.
Import Search Move SortFacts SortDate Tree ListingProps CreateProps.
Import MoveProps SuffixFacts.

(** ** The names *)








(** ** The loop *)







(** ** The route *)












(** X21.  With a regular file standing at the folder path or above it, POST
    /api/upload-images answers 500 before anything is written: the tree is
    left as it was, whatever the files sent. (Country and city single path
    components.) *)
Theorem upload_blocked_by_file :
  forall (env : Outside) (files : list UploadFile) (country city : string)
         (year : Z) (fs : FS) (k : nat) (m sz : Z),
    plain country = true -> plain city = true ->
    lookup (root fs) (firstn k ["content"; str_int year; country; city])
      = Some (File m sz) ->
    upload_images env files country city year fs
    = (Raise (HTTPException 500
                (TextOf "Failed to upload images: "
                   (OSError (if (k <? 4)%nat then ENOTDIR else EEXIST)))),
       fs)
    /\ http_status (fst (upload_images env files country city year fs))
       = Some 500.
Proof.
  intros env files country city year fs k m sz Hc Hci L.
  assert (Run : upload_images env files country city year fs
                = (Raise (HTTPException 500
                            (TextOf "Failed to upload images: "
                               (OSError (if (k <? 4)%nat
                                         then ENOTDIR else EEXIST)))), fs)).
  { unfold upload_images, try_. unfold bind at 1.
    rewrite (makeFolder_blocked fs year country city k m sz Hc Hci L).
    reflexivity. }
  split; [exact Run|now rewrite Run].
Qed.

Lemma upload_blocked_by_file_witness :
  upload_images env_count two_uploads "France" "Lyon" 2023 fs_lyon_file
  = (Raise (HTTPException 500
              (TextOf "Failed to upload images: " (OSError EEXIST))),
     fs_lyon_file).
Proof.
  exact (proj1 (upload_blocked_by_file env_count two_uploads "France" "Lyon"
                  2023 fs_lyon_file 4 7 8 eq_refl eq_refl eq_refl)).
Defined.

End UploadProps.
